(** * parquet-viewer: the two test-fixture generators

    A shallow embedding of [create_test_files.py] and
    [generate_test_files.py].  Both scripts build an in-memory table of
    100 synthetic person records and write it to [test-files/] in several
    formats, each format inside its own [try]/[except] block.

    Layout of the development:
    - [Py]: the fragments of the Python run time the scripts call
      ([str], [range], [random], [datetime], [json], exceptions, files);
    - [CreateTestFiles]: [create_test_files.py];
    - [Np], [Pd], [Fastavro], [GenerateTestFiles]:
      [generate_test_files.py] and the fragments of numpy, pandas and
      fastavro it calls;
    - [Spec]: the vocabulary in which the properties are stated;
    - [BuilderFacts] to [ConsoleFacts]: lemmas on the builders, the
      files, the text and JSON operations and the runs;
    - the properties of the two scripts.

    Each script is written once, over the [print] and the [os.makedirs]
    of the platform it runs on.  [run] is the script where the console
    takes every line and the directory can be made, so that what fails
    is an import, an operation on a file or a library call;
    [run_script] is the script where [os.makedirs] and every [print]
    can fail as well. *)

From Stdlib Require Import ZArith List Ascii String Decimal DecimalString Lia Bool.
From Stdlib Require DecimalFacts DecimalPos DecimalN DecimalZ Sorted.
From stdpp Require Import base gmap strings list.

Import ListNotations.
Local Set Warnings "-register-all".
#[local] Arguments String.append : simpl nomatch.
Local Open Scope string_scope.
Local Open Scope list_scope.
Local Open Scope Z_scope.

(* ================================================================== *)
(** * The Python run time *)
(* ================================================================== *)

Module Py.

(** ** Text *)

(** The line feed written by ['\n']. *)
Definition LF : ascii := Ascii.ascii_of_nat 10.
Definition nl : string := String LF EmptyString.

(** The double quote. *)
Definition DQ : ascii := Ascii.ascii_of_nat 34.
Definition quote : string := String DQ EmptyString.

(** [str(i)] for an [int]. *)
Definition str_int (z : Z) : string := NilZero.string_of_int (Z.to_int z).

(** [str(b)] for a [bool]. *)
Definition str_bool (b : bool) : string := if b then "True" else "False".

(** [sep.join(parts)]. *)
Definition join (sep : string) (parts : list string) : string :=
  String.concat sep parts.

(** [s.split(sep)] for a one-character separator: the fields between the
    occurrences of [sep]; the empty string yields one empty field. *)
Fixpoint split (sep : ascii) (s : string) : list string :=
  match s with
  | EmptyString => [EmptyString]
  | String c rest =>
      if Ascii.eqb c sep then EmptyString :: split sep rest
      else match split sep rest with
           | [] => [String c EmptyString]
           | f :: fs => String c f :: fs
           end
  end.

(** [c in s]. *)
Fixpoint contains (c : ascii) (s : string) : bool :=
  match s with
  | EmptyString => false
  | String d rest => Ascii.eqb d c || contains c rest
  end.

(** [s.zfill(width)], the padding of the [%0<width>d] conversions for a
    number that is not negative. *)
Definition zfill (width : nat) (s : string) : string :=
  String.concat EmptyString (repeat "0" (width - String.length s)%nat) +:+ s.

(** ** [range] *)

(** [range(lo, hi)] as the list it iterates over. *)
Definition range (lo hi : Z) : list Z :=
  map (fun k => lo + Z.of_nat k) (seq 0 (Z.to_nat (hi - lo))).

(** ** [random]

    The generator is unseeded; a run is determined by the sequence of raw
    draws it happens to produce.  [rng] is that sequence and the state is
    the number of draws consumed so far.  A bounded draw reduces the raw
    draw into [0, n), as [Random._randbelow(n)] does. *)

Definition rng := nat -> nat.

Definition Rand (A : Type) : Type := rng -> nat -> A * nat.

Definition ret {A} (a : A) : Rand A := fun _ pos => (a, pos).

Definition bind {A B} (m : Rand A) (k : A -> Rand B) : Rand B :=
  fun g pos => let '(a, pos') := m g pos in k a g pos'.

Definition randbelow (n : Z) : Rand Z :=
  fun g pos => (Z.of_nat (g pos) mod n, S pos).

(** [random.randint(a, b)] is [randrange(a, b + 1)]: both ends included. *)
Definition randint (a b : Z) : Rand Z :=
  bind (randbelow (b + 1 - a)) (fun k => ret (a + k)).

(** [random.choice(seq)] is [seq[_randbelow(len(seq))]]. *)
Definition choice {A} (dflt : A) (xs : list A) : Rand A :=
  bind (randbelow (Z.of_nat (length xs)))
       (fun k => ret (nth (Z.to_nat k) xs dflt)).

(** A [for] loop whose body draws random numbers. *)
Fixpoint for_each {A S} (xs : list A) (body : S -> A -> Rand S) (s : S) : Rand S :=
  match xs with
  | [] => ret s
  | x :: xs' => bind (body s x) (for_each xs' body)
  end.

(** ** [datetime]

    The proleptic Gregorian calendar of the [datetime] module: a date is
    converted to its ordinal (day 1 is 0001-01-01), the days of a
    [timedelta] are added, and the ordinal is converted back. *)

Record datetime := mk_datetime {
  year : Z; month : Z; day : Z; hour : Z; minute : Z; second : Z
}.

Definition is_leap (y : Z) : bool :=
  (y mod 4 =? 0) && (negb (y mod 100 =? 0) || (y mod 400 =? 0)).

Definition DAYS_IN_MONTH : list Z :=
  [-1; 31; 28; 31; 30; 31; 30; 31; 31; 30; 31; 30; 31].

Definition DAYS_BEFORE_MONTH : list Z :=
  [-1; 0; 31; 59; 90; 120; 151; 181; 212; 243; 273; 304; 334].

Definition days_before_year (y : Z) : Z :=
  let y1 := y - 1 in y1 * 365 + y1 / 4 - y1 / 100 + y1 / 400.

Definition days_before_month (y m : Z) : Z :=
  nth (Z.to_nat m) DAYS_BEFORE_MONTH 0
  + (if (2 <? m) && is_leap y then 1 else 0).

Definition ymd2ord (y m d : Z) : Z :=
  days_before_year y + days_before_month y m + d.

Definition DI400Y : Z := 146097.
Definition DI100Y : Z := 36524.
Definition DI4Y : Z := 1461.

Definition ord2ymd (n : Z) : Z * Z * Z :=
  let n := n - 1 in
  let n400 := n / DI400Y in let n := n mod DI400Y in
  let y := n400 * 400 + 1 in
  let n100 := n / DI100Y in let n := n mod DI100Y in
  let n4 := n / DI4Y in let n := n mod DI4Y in
  let n1 := n / 365 in let n := n mod 365 in
  let y := y + n100 * 100 + n4 * 4 + n1 in
  if (n1 =? 4) || (n100 =? 4) then (y - 1, 12, 31)
  else
    let leapyear := (n1 =? 3) && (negb (n4 =? 24) || (n100 =? 3)) in
    let m := Z.shiftr (n + 50) 5 in
    let preceding :=
      nth (Z.to_nat m) DAYS_BEFORE_MONTH 0
      + (if (2 <? m) && leapyear then 1 else 0) in
    if n <? preceding then
      let m := m - 1 in
      let preceding :=
        preceding - (nth (Z.to_nat m) DAYS_IN_MONTH 0
                     + (if (m =? 2) && leapyear then 1 else 0)) in
      (y, m, n - preceding + 1)
    else (y, m, n - preceding + 1).

Definition toordinal (d : datetime) : Z := ymd2ord (year d) (month d) (day d).

(** [d + timedelta(days=n)]: the time of day is kept. *)
Definition add_days (d : datetime) (n : Z) : datetime :=
  let '(y, m, dd) := ord2ymd (toordinal d + n) in
  mk_datetime y m dd (hour d) (minute d) (second d).

Definition fmt02 (z : Z) : string := zfill 2 (str_int z).
Definition fmt04 (z : Z) : string := zfill 4 (str_int z).

(** [d.isoformat()] of a [date]: [YYYY-MM-DD]. *)
Definition date_isoformat (d : datetime) : string :=
  fmt04 (year d) +:+ "-" +:+ fmt02 (month d) +:+ "-" +:+ fmt02 (day d).

(** [d.isoformat()] of a [datetime] without microseconds and time zone:
    [YYYY-MM-DDTHH:MM:SS]. *)
Definition isoformat (d : datetime) : string :=
  date_isoformat d +:+ "T" +:+ fmt02 (hour d) +:+ ":" +:+ fmt02 (minute d)
  +:+ ":" +:+ fmt02 (second d).

(** ** [json]

    JSON values as Python objects: a [dict] keeps its keys in insertion
    order, so it is a list of pairs without repeated keys.  A [str] is a
    sequence of code points below 256; floats are not modelled. *)

Inductive jvalue :=
| JNull
| JBool (b : bool)
| JInt (z : Z)
| JStr (s : string)
| JList (items : list jvalue)
| JDict (members : list (string * jvalue)).

(** [d[k] = v]: an existing key keeps its position. *)
Fixpoint dict_set (d : list (string * jvalue)) (k : string) (v : jvalue)
  : list (string * jvalue) :=
  match d with
  | [] => [(k, v)]
  | (k', v') :: d' =>
      if String.eqb k' k then (k', v) :: d' else (k', v') :: dict_set d' k v
  end.

(** [dict(pairs)]. *)
Definition dict_of_pairs (pairs : list (string * jvalue)) : list (string * jvalue) :=
  fold_left (fun d kv => dict_set d (fst kv) (snd kv)) pairs [].

(** *** Encoder ([json.encoder]) *)

Definition hex_digit (n : nat) : ascii :=
  nth n (list_ascii_of_string "0123456789abcdef") "0"%char.

(** One character of [py_encode_basestring_ascii]: the printable ASCII
    characters other than the quote and the backslash are kept, the rest
    is escaped. *)
Definition escape_char (c : ascii) : string :=
  let n := nat_of_ascii c in
  if Ascii.eqb c DQ then "\" +:+ quote
  else if Ascii.eqb c "\"%char then "\\"
  else if Nat.eqb n 8 then "\b"
  else if Nat.eqb n 12 then "\f"
  else if Nat.eqb n 10 then "\n"
  else if Nat.eqb n 13 then "\r"
  else if Nat.eqb n 9 then "\t"
  else if Nat.leb 32 n && Nat.leb n 126 then String c EmptyString
  else "\u00" +:+ String (hex_digit (Nat.div n 16))
                     (String (hex_digit (Nat.modulo n 16)) EmptyString).

Fixpoint escape_string (s : string) : string :=
  match s with
  | EmptyString => EmptyString
  | String c rest => escape_char c +:+ escape_string rest
  end.

Definition encode_basestring_ascii (s : string) : string :=
  quote +:+ escape_string s +:+ quote.

Definition spaces (n : nat) : string := String.concat EmptyString (repeat " " n).

(** The text between two items: with [indent=None] the items are
    separated by [", "]; with an indent by [","], a line feed and the
    indentation of the current level. *)
Definition newline_indent (indent : option nat) (level : nat) : string :=
  match indent with
  | Some n => nl +:+ spaces (n * level)
  | None => EmptyString
  end.

Definition item_separator (indent : option nat) : string :=
  match indent with Some _ => "," | None => ", " end.

Definition key_separator : string := ": ".

(** [_iterencode], with the chunks it yields concatenated. *)
Fixpoint encode (indent : option nat) (level : nat) (v : jvalue) : string :=
  match v with
  | JNull => "null"
  | JBool true => "true"
  | JBool false => "false"
  | JInt z => str_int z
  | JStr s => encode_basestring_ascii s
  | JList [] => "[]"
  | JList items =>
      "[" +:+ newline_indent indent (S level)
      +:+ join (item_separator indent +:+ newline_indent indent (S level))
               (List.map (encode indent (S level)) items)
      +:+ newline_indent indent level +:+ "]"
  | JDict [] => "{}"
  | JDict members =>
      "{" +:+ newline_indent indent (S level)
      +:+ join (item_separator indent +:+ newline_indent indent (S level))
               (List.map (fun kv => match kv with
                                    | (k, x) => encode_basestring_ascii k
                                                +:+ key_separator
                                                +:+ encode indent (S level) x
                                    end) members)
      +:+ newline_indent indent level +:+ "}"
  end.

(** [json.dumps(obj)] and [json.dumps(obj, indent=n)]. *)
Definition dumps (v : jvalue) : string := encode None 0 v.
Definition dumps_indent (n : nat) (v : jvalue) : string := encode (Some n) 0 v.

(** *** Decoder ([json.decoder], [json.scanner]) *)

Definition is_ws (c : ascii) : bool :=
  let n := nat_of_ascii c in
  Nat.eqb n 32 || Nat.eqb n 9 || Nat.eqb n 10 || Nat.eqb n 13.

Fixpoint skip_ws (s : string) : string :=
  match s with
  | String c rest => if is_ws c then skip_ws rest else s
  | EmptyString => s
  end.

Definition is_digit (c : ascii) : bool :=
  let n := nat_of_ascii c in Nat.leb 48 n && Nat.leb n 57.

Definition hex_value (c : ascii) : option nat :=
  let n := nat_of_ascii c in
  if Nat.leb 48 n && Nat.leb n 57 then Some (n - 48)%nat
  else if Nat.leb 97 n && Nat.leb n 102 then Some (n - 87)%nat
  else if Nat.leb 65 n && Nat.leb n 70 then Some (n - 55)%nat
  else None.

(** The character a one-letter escape stands for. *)
Definition unescape (c : ascii) : option ascii :=
  if Ascii.eqb c DQ then Some c
  else if Ascii.eqb c "\"%char then Some c
  else if Ascii.eqb c "/"%char then Some c
  else if Ascii.eqb c "b"%char then Some (ascii_of_nat 8)
  else if Ascii.eqb c "f"%char then Some (ascii_of_nat 12)
  else if Ascii.eqb c "n"%char then Some (ascii_of_nat 10)
  else if Ascii.eqb c "r"%char then Some (ascii_of_nat 13)
  else if Ascii.eqb c "t"%char then Some (ascii_of_nat 9)
  else None.

Definition cons_char (c : ascii) (r : option (string * string))
  : option (string * string) :=
  match r with
  | Some (str, rest) => Some (String c str, rest)
  | None => None
  end.

(** [scanstring] in strict mode, started after the opening quote: the
    decoded string and the text after the closing quote.  A [\uXXXX]
    escape of a code point from 256 on is outside the model. *)
Fixpoint scanstring (s : string) : option (string * string) :=
  match s with
  | EmptyString => None
  | String c rest =>
      if Ascii.eqb c DQ then Some (EmptyString, rest)
      else if Ascii.eqb c "\"%char then
        match rest with
        | EmptyString => None
        | String e rest' =>
            if Ascii.eqb e "u"%char then
              match rest' with
              | String h1 (String h2 (String h3 (String h4 rest''))) =>
                  match hex_value h1, hex_value h2, hex_value h3, hex_value h4 with
                  | Some 0%nat, Some 0%nat, Some a, Some b =>
                      cons_char (ascii_of_nat (16 * a + b)) (scanstring rest'')
                  | _, _, _, _ => None
                  end
              | _ => None
              end
            else
              match unescape e with
              | Some ch => cons_char ch (scanstring rest')
              | None => None
              end
        end
      else if Nat.ltb (nat_of_ascii c) 32 then None
      else cons_char c (scanstring rest)
  end.

(** The longest prefix of digits and what follows it. *)
Fixpoint span_digits (s : string) : string * string :=
  match s with
  | String c rest =>
      if is_digit c then
        let '(ds, rest') := span_digits rest in (String c ds, rest')
      else (EmptyString, s)
  | EmptyString => (EmptyString, s)
  end.

(** [int(digits)] for a string of digits. *)
Definition int_of_digits (ds : string) : option Z :=
  match NilEmpty.uint_of_string ds with
  | Some u => Some (Z.of_uint u)
  | None => None
  end.

Definition starts_fraction (s : string) : bool :=
  match s with
  | String c _ => Ascii.eqb c "."%char || Ascii.eqb c "e"%char || Ascii.eqb c "E"%char
  | EmptyString => false
  end.

(** The integer part of [NUMBER_RE]: [0] or a digit from 1 to 9 followed
    by digits.  A fraction or an exponent makes a float, which is not
    modelled. *)
Definition scan_nat (s : string) : option (Z * string) :=
  match s with
  | String c rest =>
      if Ascii.eqb c "0"%char then
        if starts_fraction rest then None else Some (0, rest)
      else if is_digit c then
        let '(ds, rest') := span_digits s in
        if starts_fraction rest' then None
        else match int_of_digits ds with
             | Some z => Some (z, rest')
             | None => None
             end
      else None
  | EmptyString => None
  end.

Definition scan_number (s : string) : option (Z * string) :=
  match s with
  | String c rest =>
      if Ascii.eqb c "-"%char then
        match scan_nat rest with
        | Some (z, rest') => Some (- z, rest')
        | None => None
        end
      else scan_nat s
  | EmptyString => None
  end.

(** [s.startswith(p)], returning the rest of [s]. *)
Fixpoint strip_prefix (p s : string) : option string :=
  match p, s with
  | EmptyString, _ => Some s
  | String a p', String b s' => if Ascii.eqb a b then strip_prefix p' s' else None
  | String _ _, EmptyString => None
  end.

(** [scan_once], [JSONArray] and [JSONObject].  The recursion of the
    decoder is on the text; here every call spends one unit of [fuel]. *)
Fixpoint scan_once (fuel : nat) (s : string) : option (jvalue * string) :=
  match fuel with
  | O => None
  | S fuel' =>
      match s with
      | EmptyString => None
      | String c rest =>
          if Ascii.eqb c DQ then
            match scanstring rest with
            | Some (str, rest') => Some (JStr str, rest')
            | None => None
            end
          else if Ascii.eqb c "{"%char then
            match skip_ws rest with
            | String d rest' =>
                if Ascii.eqb d "}"%char then Some (JDict [], rest')
                else match object_items fuel' (skip_ws rest) with
                     | Some (pairs, rest'') => Some (JDict (dict_of_pairs pairs), rest'')
                     | None => None
                     end
            | EmptyString => None
            end
          else if Ascii.eqb c "["%char then
            match skip_ws rest with
            | String d rest' =>
                if Ascii.eqb d "]"%char then Some (JList [], rest')
                else match array_items fuel' (skip_ws rest) with
                     | Some (items, rest'') => Some (JList items, rest'')
                     | None => None
                     end
            | EmptyString => None
            end
          else
            match strip_prefix "null" s, strip_prefix "true" s, strip_prefix "false" s with
            | Some rest', _, _ => Some (JNull, rest')
            | _, Some rest', _ => Some (JBool true, rest')
            | _, _, Some rest' => Some (JBool false, rest')
            | None, None, None =>
                match scan_number s with
                | Some (z, rest') => Some (JInt z, rest')
                | None => None
                end
            end
      end
  end
with array_items (fuel : nat) (s : string) : option (list jvalue * string) :=
  match fuel with
  | O => None
  | S fuel' =>
      match scan_once fuel' s with
      | Some (v, rest) =>
          match skip_ws rest with
          | String c rest' =>
              if Ascii.eqb c "]"%char then Some ([v], rest')
              else if Ascii.eqb c ","%char then
                match array_items fuel' (skip_ws rest') with
                | Some (vs, rest'') => Some (v :: vs, rest'')
                | None => None
                end
              else None
          | EmptyString => None
          end
      | None => None
      end
  end
with object_items (fuel : nat) (s : string)
  : option (list (string * jvalue) * string) :=
  match fuel with
  | O => None
  | S fuel' =>
      match s with
      | String q rest =>
          if Ascii.eqb q DQ then
            match scanstring rest with
            | Some (key, rest1) =>
                match skip_ws rest1 with
                | String c rest2 =>
                    if Ascii.eqb c ":"%char then
                      match scan_once fuel' (skip_ws rest2) with
                      | Some (v, rest3) =>
                          match skip_ws rest3 with
                          | String d rest4 =>
                              if Ascii.eqb d "}"%char then Some ([(key, v)], rest4)
                              else if Ascii.eqb d ","%char then
                                match object_items fuel' (skip_ws rest4) with
                                | Some (kvs, rest5) => Some ((key, v) :: kvs, rest5)
                                | None => None
                                end
                              else None
                          | EmptyString => None
                          end
                      | None => None
                      end
                    else None
                | EmptyString => None
                end
            | None => None
            end
          else None
      | EmptyString => None
      end
  end.

(** [json.loads(s)]: one value, surrounded by white space only.  The
    decoder never makes more nested calls than twice the length of the
    text. *)
Definition loads (s : string) : option jvalue :=
  match scan_once (2 * String.length s + 2) (skip_ws s) with
  | Some (v, rest) =>
      match skip_ws rest with
      | EmptyString => Some v
      | String _ _ => None
      end
  | None => None
  end.

(** ** Exceptions

    The failures of the scripts' operations: a missing module
    ([ImportError], with its subclass [ModuleNotFoundError]), an I/O
    failure ([OSError]) and a value a writer cannot serialize
    ([TypeError], [ValueError]).  All of them derive from [Exception];
    the signals that do not ([KeyboardInterrupt], [SystemExit]) are not
    failures of an operation and are not modelled. *)

Inductive exception :=
| ImportError (msg : string)
| OSError (msg : string)
| TypeError (msg : string)
| ValueError (msg : string).

(** [isinstance(e, ImportError)]. *)
Definition is_ImportError (e : exception) : bool :=
  match e with ImportError _ => true | _ => false end.

(** ** Files and the console

    The working directory maps a directory name to the files it holds
    and a file name to its bytes.  A path [dir/name] is the pair
    [(dir, name)].  What [print] writes is kept as a list of lines; the
    status lines of the emitters keep their kind:
    [Generated f] is the line with the check mark, [Failed what e] the
    line with the cross and the text of [e], [Skipped what] the line with
    the warning sign. *)

Definition path : Type := string * string.

Inductive line :=
| Text (s : string)
| Generated (file : string)
| Failed (what : string) (e : exception)
| Skipped (what : string)
| Listed (file : string) (size : nat).

Record world := mk_world {
  fs : gmap string (gmap string string);
  stdout : list line
}.

(** The operations that can fail and the failures of one run: a run is
    determined by the random draws and by which operations fail.  An
    import, an operation on a file and a library call fail inside a
    [try] block; [Makedirs] is the call of [os.makedirs] that opens the
    script, and [Print l] the [print] of the line [l], inside a [try]
    block, inside a handler or outside both.  The listing reads a
    directory of regular files: [os.listdir] and [os.path.getsize] do
    not fail. *)
Inductive op :=
| Import (module : string)
| Open (p : path)
| Write (p : path) (offset : nat)
| Call (function : string)
| Makedirs (d : string)
| Print (l : line).

Definition faults := op -> option exception.

Inductive result (A : Type) :=
| Return (a : A)
| Raise (e : exception).
Arguments Return {A} a.
Arguments Raise {A} e.

Definition IO (A : Type) : Type := faults -> world -> result A * world.

Definition io_ret {A} (a : A) : IO A := fun _ w => (Return a, w).

Definition io_bind {A B} (m : IO A) (k : A -> IO B) : IO B :=
  fun env w =>
    match m env w with
    | (Return a, w') => k a env w'
    | (Raise e, w') => (Raise e, w')
    end.

Definition raise {A} (e : exception) : IO A := fun _ w => (Raise e, w).

(** An operation that fails when the environment says so. *)
Definition attempt (o : op) : IO unit :=
  fun env w =>
    match env o with
    | Some e => (Raise e, w)
    | None => (Return tt, w)
    end.

(** [try: body / except ...: handler]: the handler receives every
    exception of the body; a handler that does not match re-raises. *)
Definition try_except {A} (body : IO A) (handler : exception -> IO A) : IO A :=
  fun env w =>
    match body env w with
    | (Return a, w') => (Return a, w')
    | (Raise e, w') => handler e env w'
    end.

(** [print(l)] on a console that takes every line. *)
Definition print (l : line) : IO unit :=
  fun _ w => (Return tt, mk_world (fs w) (stdout w ++ [l])).

(** [os.makedirs(d, exist_ok=True)] where the directory can be made. *)
Definition makedirs (d : string) : IO unit :=
  fun _ w =>
    match fs w !! d with
    | Some _ => (Return tt, w)
    | None => (Return tt, mk_world (<[d := ∅]> (fs w)) (stdout w))
    end.

(** [print(l)] on a console that can refuse a line (its encoding has no
    character for the mark of a status line, the stream is closed): the
    exception is raised and nothing is written. *)
Definition console_print (l : line) : IO unit :=
  io_bind (attempt (Print l)) (fun _ => print l).

(** [os.makedirs(d, exist_ok=True)] where it can fail ([d] is a regular
    file, the working directory cannot be written). *)
Definition os_makedirs (d : string) : IO unit :=
  io_bind (attempt (Makedirs d)) (fun _ => makedirs d).

(** [open(p, 'w')]: the file is created or truncated. *)
Definition open_w (p : path) : IO path :=
  fun env w =>
    match fs w !! p.1 with
    | None => (Raise (OSError "No such file or directory"), w)
    | Some files =>
        match env (Open p) with
        | Some e => (Raise e, w)
        | None =>
            (Return p, mk_world (<[p.1 := <[p.2 := EmptyString]> files]> (fs w)) (stdout w))
        end
    end.

Definition read_file (w : world) (p : path) : option string :=
  match fs w !! p.1 with
  | Some files => files !! p.2
  | None => None
  end.

(** [f.write(chunk)]: the chunk is appended, unless the write at this
    offset fails. *)
Definition write (f : path) (chunk : string) : IO unit :=
  fun env w =>
    match fs w !! f.1 with
    | None => (Raise (OSError "No such file or directory"), w)
    | Some files =>
        let old := default EmptyString (files !! f.2) in
        match env (Write f (String.length old)) with
        | Some e => (Raise e, w)
        | None =>
            (Return tt, mk_world (<[f.1 := <[f.2 := old +:+ chunk]> files]> (fs w)) (stdout w))
        end
    end.

(** A [for] loop whose body performs I/O. *)
Fixpoint for_io {A} (xs : list A) (body : A -> IO unit) : IO unit :=
  match xs with
  | [] => io_ret tt
  | x :: xs' => io_bind (body x) (fun _ => for_io xs' body)
  end.

(** [s.endswith(suffix)]. *)
Definition endswith (s suffix : string) : bool :=
  let n := String.length s in
  let k := String.length suffix in
  Nat.leb k n && String.eqb (String.substring (n - k) k s) suffix.

(** [os.listdir(d)], in the order the file system happens to give. *)
Definition listdir (w : world) (d : string) : list string :=
  match fs w !! d with
  | Some files => (map_to_list files).*1
  | None => []
  end.

(** [os.path.getsize(p)]. *)
Definition getsize (w : world) (p : path) : nat :=
  String.length (default EmptyString (read_file w p)).

(** [sorted(names)]: strings are ordered by code points. *)
Fixpoint insert_sorted (x : string) (xs : list string) : list string :=
  match xs with
  | [] => [x]
  | y :: ys => if String.leb x y then x :: xs else y :: insert_sorted x ys
  end.

Definition sorted (xs : list string) : list string :=
  fold_right insert_sorted [] xs.

(** The exit status of the interpreter: 0 when the script reaches its
    end, 1 when an exception is not caught. *)
Definition exit_status {A} (r : result A) : Z :=
  match r with Return _ => 0 | Raise _ => 1 end.

End Py.

Declare Scope rand_scope.
Delimit Scope rand_scope with rand.
Notation "x <- m ;; k" := (Py.bind m (fun x => k))
  (at level 20, m at level 99, k at level 200, only parsing) : rand_scope.
Declare Scope io_scope.
Delimit Scope io_scope with io.
Notation "x <- m ;; k" := (Py.io_bind m (fun x => k))
  (at level 20, m at level 99, k at level 200, only parsing) : io_scope.
Notation "m ;; k" := (Py.io_bind m (fun _ => k))
  (at level 100, k at level 200, only parsing, right associativity) : io_scope.

(* ================================================================== *)
(** * [create_test_files.py] *)
(* ================================================================== *)

Module CreateTestFiles.
Import Py.

(** The [dict] a record is, with its seven keys. *)
Record record := mk_record {
  id : Z;
  name : string;
  age : Z;
  salary : Z;
  department : string;
  is_active : bool;
  join_date : string
}.

Definition departments : list string := ["Engineering"; "Marketing"; "Sales"; "HR"].

Definition start_date : datetime := mk_datetime 2020 1 1 0 0 0.

(** The [dict] display of the loop body; its values are evaluated in the
    order they are written. *)
Definition make_record (i : Z) : Rand record :=
  (a <- randint 18 80 ;;
   s <- randint 30000 150000 ;;
   d <- choice EmptyString departments ;;
   act <- choice false [true; false] ;;
   ret {| id := i;
          name := "Person_" +:+ str_int i;
          age := a;
          salary := s;
          department := d;
          is_active := act;
          join_date := isoformat (add_days start_date i) |})%rand.

(** [for i in range(1, 101): ...; data.append(record)]. *)
Definition build_data : Rand (list record) :=
  for_each (range 1 101)
           (fun data i => (r <- make_record i ;; ret (data ++ [r]))%rand) [].

Definition data (g : rng) : list record := (build_data g 0%nat).1.

(** The record as the value [json] sees. *)
Definition to_json (r : record) : jvalue :=
  JDict [("id", JInt (id r)); ("name", JStr (name r)); ("age", JInt (age r));
         ("salary", JInt (salary r)); ("department", JStr (department r));
         ("is_active", JBool (is_active r)); ("join_date", JStr (join_date r))].

Definition out_dir : string := "test-files".

(** The line of the CSV emitter's f-string. *)
Definition csv_line (r : record) : string :=
  str_int (id r) +:+ "," +:+ name r +:+ "," +:+ str_int (age r) +:+ ","
  +:+ str_int (salary r) +:+ "," +:+ department r +:+ ","
  +:+ str_bool (is_active r) +:+ "," +:+ join_date r +:+ nl.

Definition csv_header : string :=
  "id,name,age,salary,department,is_active,join_date" +:+ nl.

Definition listed_suffixes : list string := [".jsonl"; ".ndjson"; ".csv"; ".json"].

(** The emitters.  Each is a [try] block and its handler; the block is
    named apart so that its outcome can be told from the status line.
    The script is written once, over the [print] and the [os.makedirs]
    of the platform it runs on. *)

Section Platform.
Variable print : line -> IO unit.
Variable makedirs : string -> IO unit.

(** 1. JSON Lines file *)
Definition jsonl_block_on (data : list record) : IO unit :=
  (f <- open_w (out_dir, "sample.jsonl") ;;
   for_io data (fun record => write f (dumps (to_json record) +:+ nl)) ;;
   print (Generated "sample.jsonl"))%io.

Definition emit_jsonl_on (data : list record) : IO unit :=
  try_except (jsonl_block_on data) (fun e => print (Failed "JSONL" e)).

(** 2. NDJSON file *)
Definition ndjson_block_on (data : list record) : IO unit :=
  (f <- open_w (out_dir, "sample.ndjson") ;;
   for_io data (fun record => write f (dumps (to_json record) +:+ nl)) ;;
   print (Generated "sample.ndjson"))%io.

Definition emit_ndjson_on (data : list record) : IO unit :=
  try_except (ndjson_block_on data) (fun e => print (Failed "NDJSON" e)).

(** 3. CSV file *)
Definition csv_block_on (data : list record) : IO unit :=
  (f <- open_w (out_dir, "sample.csv") ;;
   write f csv_header ;;
   for_io data (fun record => write f (csv_line record)) ;;
   print (Generated "sample.csv"))%io.

Definition emit_csv_on (data : list record) : IO unit :=
  try_except (csv_block_on data) (fun e => print (Failed "CSV" e)).

(** 4. Regular JSON file: [json.dump(data, f, indent=2)] can fail before
    it writes. *)
Definition json_block_on (data : list record) : IO unit :=
  (f <- open_w (out_dir, "sample.json") ;;
   attempt (Call "json.dump") ;;
   write f (dumps_indent 2 (JList (List.map to_json data))) ;;
   print (Generated "sample.json"))%io.

Definition emit_json_on (data : list record) : IO unit :=
  try_except (json_block_on data) (fun e => print (Failed "JSON" e)).

(** The listing of the generated files. *)
Definition report_on : IO unit :=
  fun env w =>
    for_io (sorted (listdir w out_dir))
           (fun file =>
              if existsb (endswith file) listed_suffixes
              then fun env w => print (Listed file (getsize w (out_dir, file))) env w
              else io_ret tt) env w.

Definition main_on (g : rng) : IO unit :=
  (makedirs out_dir ;;
   let data := data g in
   print (Text "Generating test files...") ;;
   emit_jsonl_on data ;;
   emit_ndjson_on data ;;
   emit_csv_on data ;;
   emit_json_on data ;;
   print (Text (nl +:+ "Test files generated in test-files/ directory")) ;;
   print (Text (nl +:+ "Generated files:")) ;;
   report_on ;;
   print (Text (nl +:+ "Total records per file: " +:+ str_int (Z.of_nat (length data)))) ;;
   print (Text (nl +:+ "You can now test these files with your Multi-Format Data Viewer!")) ;;
   print (Text "Open the application and try uploading these test files."))%io.

(** A run: the world the script leaves and its exit status. *)
Definition run_on (g : rng) (env : faults) (w : world) : world * Z :=
  let '(r, w') := main_on g env w in (w', exit_status r).

End Platform.

(** The script where the console takes every line and the directory can
    be made: what fails is an operation on a file or a library call. *)
Definition jsonl_block : list record -> IO unit := jsonl_block_on print.
Definition emit_jsonl : list record -> IO unit := emit_jsonl_on print.
Definition ndjson_block : list record -> IO unit := ndjson_block_on print.
Definition emit_ndjson : list record -> IO unit := emit_ndjson_on print.
Definition csv_block : list record -> IO unit := csv_block_on print.
Definition emit_csv : list record -> IO unit := emit_csv_on print.
Definition json_block : list record -> IO unit := json_block_on print.
Definition emit_json : list record -> IO unit := emit_json_on print.

Definition report : IO unit := report_on print.

Definition main : rng -> IO unit := main_on print makedirs.

Definition run : rng -> faults -> world -> world * Z := run_on print makedirs.

(** The script with every failure point: the console can refuse a line
    and the directory may be impossible to make. *)
Definition run_script : rng -> faults -> world -> world * Z :=
  run_on console_print os_makedirs.

End CreateTestFiles.

(* ================================================================== *)
(** * The fragments of numpy and pandas *)
(* ================================================================== *)

Module Np.
Import Py.

(** [size] successive draws, as the array they fill. *)
Fixpoint draws {A} (size : nat) (m : Rand A) : Rand (list A) :=
  match size with
  | O => ret []
  | S size' => (x <- m ;; xs <- draws size' m ;; ret (x :: xs))%rand
  end.

(** [np.random.randint(low, high, size)]: [high] is excluded. *)
Definition randint (low high : Z) (size : nat) : Rand (list Z) :=
  draws size (k <- randbelow (high - low) ;; ret (low + k))%rand.

(** [np.random.choice(a, size)]. *)
Definition choice {A} (dflt : A) (a : list A) (size : nat) : Rand (list A) :=
  draws size (Py.choice dflt a).

End Np.

Module Pd.
Import Py.

(** The seven columns of the frame. *)
Record dataframe := mk_dataframe {
  col_id : list Z;
  col_name : list string;
  col_age : list Z;
  col_salary : list Z;
  col_department : list string;
  col_is_active : list bool;
  col_join_date : list datetime
}.

(** [pd.DataFrame(data)]: the columns must have one length. *)
Definition DataFrame (data : dataframe) : IO dataframe :=
  let n := length (col_id data) in
  if Nat.eqb (length (col_name data)) n && Nat.eqb (length (col_age data)) n
     && Nat.eqb (length (col_salary data)) n
     && Nat.eqb (length (col_department data)) n
     && Nat.eqb (length (col_is_active data)) n
     && Nat.eqb (length (col_join_date data)) n
  then io_ret data
  else raise (ValueError "All arrays must be of the same length").

(** A row of the frame, as [iterrows] yields it. *)
Record row := mk_row {
  id : Z;
  name : string;
  age : Z;
  salary : Z;
  department : string;
  is_active : bool;
  join_date : datetime
}.

Fixpoint zip_rows (ids : list Z) (names : list string) (ages salaries : list Z)
  (departments : list string) (actives : list bool) (dates : list datetime)
  : list row :=
  match ids, names, ages, salaries, departments, actives, dates with
  | i :: ids', n :: names', a :: ages', s :: salaries', d :: departments',
    b :: actives', t :: dates' =>
      mk_row i n a s d b t
      :: zip_rows ids' names' ages' salaries' departments' actives' dates'
  | _, _, _, _, _, _, _ => []
  end.

(** [df.iterrows()], without the index labels. *)
Definition iterrows (df : dataframe) : list row :=
  zip_rows (col_id df) (col_name df) (col_age df) (col_salary df)
           (col_department df) (col_is_active df) (col_join_date df).

(** [pd.Timestamp(s)] for a date written [YYYY-MM-DD]. *)
Definition Timestamp (s : string) : option datetime :=
  match split "-" s with
  | [y; m; d] =>
      match int_of_digits y, int_of_digits m, int_of_digits d with
      | Some y', Some m', Some d' => Some (mk_datetime y' m' d' 0 0 0)
      | _, _, _ => None
      end
  | _ => None
  end.

(** [pd.date_range(start, periods=n, freq='D')]: [n] successive days,
    the first of which is [start]. *)
Definition date_range (start : string) (periods : nat) : list datetime :=
  match Timestamp start with
  | Some t => List.map (fun k => add_days t (Z.of_nat k)) (seq 0 periods)
  | None => []
  end.

(** *** [DataFrame.to_csv]

    The writer of the [csv] module with minimal quoting: a field is
    quoted when it holds the delimiter, the quote or a line break. *)
Definition CR : ascii := Ascii.ascii_of_nat 13.

Fixpoint double_quotes (s : string) : string :=
  match s with
  | EmptyString => EmptyString
  | String c rest =>
      if Ascii.eqb c DQ then String DQ (String DQ (double_quotes rest))
      else String c (double_quotes rest)
  end.

Definition csv_field (s : string) : string :=
  if contains "," s || contains DQ s || contains LF s || contains CR s
  then quote +:+ double_quotes s +:+ quote
  else s.

Definition csv_row (fields : list string) : string :=
  join "," (List.map csv_field fields) +:+ nl.

Definition at_midnight (t : datetime) : bool :=
  (hour t =? 0) && (minute t =? 0) && (second t =? 0).

(** A datetime column is written as dates when no value has a time of
    day, and as date, space and time otherwise. *)
Definition format_dates (ts : list datetime) : list string :=
  if forallb at_midnight ts then List.map date_isoformat ts
  else List.map (fun t => date_isoformat t +:+ " " +:+ fmt02 (hour t) +:+ ":"
                          +:+ fmt02 (minute t) +:+ ":" +:+ fmt02 (second t)) ts.

Definition columns : list string :=
  ["id"; "name"; "age"; "salary"; "department"; "is_active"; "join_date"].

Fixpoint zip_fields (ids names ages salaries departments actives dates : list string)
  : list (list string) :=
  match ids, names, ages, salaries, departments, actives, dates with
  | i :: ids', n :: names', a :: ages', s :: salaries', d :: departments',
    b :: actives', t :: dates' =>
      [i; n; a; s; d; b; t]
      :: zip_fields ids' names' ages' salaries' departments' actives' dates'
  | _, _, _, _, _, _, _ => []
  end.

(** The text [df.to_csv(path, index=False)] writes. *)
Definition to_csv_text (df : dataframe) : string :=
  csv_row columns
  +:+ String.concat EmptyString
        (List.map csv_row
           (zip_fields (List.map str_int (col_id df)) (col_name df)
                       (List.map str_int (col_age df))
                       (List.map str_int (col_salary df))
                       (col_department df)
                       (List.map str_bool (col_is_active df))
                       (format_dates (col_join_date df)))).

Definition to_csv (df : dataframe) (p : path) : IO unit :=
  (attempt (Call "DataFrame.to_csv") ;;
   f <- open_w p ;;
   write f (to_csv_text df))%io.

(** The encoders of the binary formats belong to the libraries that may
    be installed; the scripts only hand them the frame. *)
Record codecs := mk_codecs {
  parquet_bytes : dataframe -> string;
  feather_bytes : dataframe -> string;
  avro_header : string;
  avro_blocks : list jvalue -> string
}.

(** [get_engine('auto')] of [pandas.io.parquet]: pyarrow, then
    fastparquet; an [ImportError] when neither can be imported. *)
Definition get_engine : IO unit :=
  try_except (attempt (Import "pyarrow"))
    (fun e =>
       if is_ImportError e then
         try_except (attempt (Import "fastparquet"))
           (fun e' =>
              if is_ImportError e' then
                raise (ImportError "Unable to find a usable engine; tried using: 'pyarrow', 'fastparquet'.")
              else raise e')
       else raise e).

(** [df.to_parquet(path, index=False)]. *)
Definition to_parquet (c : codecs) (df : dataframe) (p : path) : IO unit :=
  (get_engine ;;
   attempt (Call "DataFrame.to_parquet") ;;
   f <- open_w p ;;
   write f (parquet_bytes c df))%io.

End Pd.

Module Fastavro.
Import Py Pd.

(** [fastavro.writer(f, schema, records)]: the schema is parsed and the
    header of the container is handed to the file; then the records are
    encoded, and their block follows the header.  A schema that is
    refused leaves the file as [open] left it; a record that is refused
    leaves the header in it. *)
Definition writer (c : codecs) (f : path) (records : list jvalue) : IO unit :=
  (attempt (Call "fastavro.parse_schema") ;;
   write f (avro_header c) ;;
   attempt (Call "fastavro.write_record") ;;
   write f (avro_blocks c records))%io.

End Fastavro.

(* ================================================================== *)
(** * [generate_test_files.py] *)
(* ================================================================== *)

Module GenerateTestFiles.
Import Py Pd.

(** The [dict] of columns; its values are evaluated in the order they
    are written, so the draws of a column are consecutive. *)
Definition build_data : Rand dataframe :=
  (ages <- Np.randint 18 80 100 ;;
   salaries <- Np.randint 30000 150000 100 ;;
   departments <- Np.choice EmptyString ["Engineering"; "Marketing"; "Sales"; "HR"] 100 ;;
   actives <- Np.choice false [true; false] 100 ;;
   ret {| col_id := range 1 101;
          col_name := List.map (fun i => "Person_" +:+ str_int i) (range 1 101);
          col_age := ages;
          col_salary := salaries;
          col_department := departments;
          col_is_active := actives;
          col_join_date := firstn 100 (date_range "2020-01-01" 100) |})%rand.

Definition data (g : rng) : dataframe := (build_data g 0%nat).1.

(** [row.to_dict()] with [join_date] replaced by its [isoformat()]. *)
Definition row_dict (r : row) : jvalue :=
  JDict [("id", JInt (id r)); ("name", JStr (name r)); ("age", JInt (age r));
         ("salary", JInt (salary r)); ("department", JStr (department r));
         ("is_active", JBool (is_active r));
         ("join_date", JStr (isoformat (join_date r)))].

Definition out_dir : string := "test-files".

Definition listed_suffixes : list string :=
  [".parquet"; ".jsonl"; ".csv"; ".arrow"; ".avro"].

(** The script is written once, over the [print] and the [os.makedirs]
    of the platform it runs on. *)
Section Platform.
Variable print : line -> IO unit.
Variable makedirs : string -> IO unit.

Section Emitters.
Variable lib : codecs.
Variable df : dataframe.

(** 1. Parquet file *)
Definition parquet_block_on : IO unit :=
  (to_parquet lib df (out_dir, "sample.parquet") ;;
   print (Generated "sample.parquet"))%io.

Definition emit_parquet_on : IO unit :=
  try_except parquet_block_on (fun e => print (Failed "Parquet" e)).

(** 2. JSON Lines file *)
Definition jsonl_block_on : IO unit :=
  (f <- open_w (out_dir, "sample.jsonl") ;;
   for_io (iterrows df) (fun row => write f (dumps (row_dict row) +:+ nl)) ;;
   print (Generated "sample.jsonl"))%io.

Definition emit_jsonl_on : IO unit :=
  try_except jsonl_block_on (fun e => print (Failed "JSONL" e)).

(** 3. CSV file *)
Definition csv_block_on : IO unit :=
  (to_csv df (out_dir, "sample.csv") ;;
   print (Generated "sample.csv"))%io.

Definition emit_csv_on : IO unit :=
  try_except csv_block_on (fun e => print (Failed "CSV" e)).

(** 4. Arrow file *)
Definition arrow_block_on : IO unit :=
  (attempt (Import "pyarrow") ;;
   attempt (Import "pyarrow.feather") ;;
   attempt (Call "pa.Table.from_pandas") ;;
   attempt (Call "feather.write_feather") ;;
   f <- open_w (out_dir, "sample.arrow") ;;
   write f (feather_bytes lib df) ;;
   print (Generated "sample.arrow"))%io.

Definition emit_arrow_on : IO unit :=
  try_except arrow_block_on
    (fun e =>
       if is_ImportError e
       then print (Skipped "PyArrow not available - skipping Arrow file generation")
       else print (Failed "Arrow" e)).

(** 5. Avro file: the file is opened, then handed to the writer. *)
Definition avro_block_on : IO unit :=
  (attempt (Import "fastavro") ;;
   let records := List.map row_dict (iterrows df) in
   f <- open_w (out_dir, "sample.avro") ;;
   Fastavro.writer lib f records ;;
   print (Generated "sample.avro"))%io.

Definition emit_avro_on : IO unit :=
  try_except avro_block_on
    (fun e =>
       if is_ImportError e
       then print (Skipped "FastAvro not available - skipping Avro file generation")
       else print (Failed "Avro" e)).

End Emitters.

Definition report_on : IO unit :=
  fun env w =>
    for_io (listdir w out_dir)
           (fun file =>
              if existsb (endswith file) listed_suffixes
              then fun env w => print (Listed file (getsize w (out_dir, file))) env w
              else io_ret tt) env w.

Definition main_on (lib : codecs) (g : rng) : IO unit :=
  (makedirs out_dir ;;
   df <- DataFrame (data g) ;;
   print (Text "Generating test files...") ;;
   emit_parquet_on lib df ;;
   emit_jsonl_on df ;;
   emit_csv_on df ;;
   emit_arrow_on lib df ;;
   emit_avro_on lib df ;;
   print (Text (nl +:+ "Test files generated in test-files/ directory")) ;;
   print (Text "You can now test these files with your Multi-Format Data Viewer!") ;;
   print (Text (nl +:+ "Generated files:")) ;;
   report_on)%io.

Definition run_on (lib : codecs) (g : rng) (env : faults) (w : world) : world * Z :=
  let '(r, w') := main_on lib g env w in (w', exit_status r).

End Platform.

(** The script where the console takes every line and the directory can
    be made: what fails is an import, an operation on a file or a
    library call. *)
Definition parquet_block : codecs -> dataframe -> IO unit := parquet_block_on print.
Definition emit_parquet : codecs -> dataframe -> IO unit := emit_parquet_on print.
Definition jsonl_block : dataframe -> IO unit := jsonl_block_on print.
Definition emit_jsonl : dataframe -> IO unit := emit_jsonl_on print.
Definition csv_block : dataframe -> IO unit := csv_block_on print.
Definition emit_csv : dataframe -> IO unit := emit_csv_on print.
Definition arrow_block : codecs -> dataframe -> IO unit := arrow_block_on print.
Definition emit_arrow : codecs -> dataframe -> IO unit := emit_arrow_on print.
Definition avro_block : codecs -> dataframe -> IO unit := avro_block_on print.
Definition emit_avro : codecs -> dataframe -> IO unit := emit_avro_on print.

Definition report : IO unit := report_on print.

Definition main : codecs -> rng -> IO unit := main_on print makedirs.

Definition run : codecs -> rng -> faults -> world -> world * Z :=
  run_on print makedirs.

(** The script with every failure point: the console can refuse a line
    and the directory may be impossible to make. *)
Definition run_script : codecs -> rng -> faults -> world -> world * Z :=
  run_on console_print os_makedirs.

End GenerateTestFiles.

(* ================================================================== *)
(** * The vocabulary of the properties *)
(* ================================================================== *)

Module Spec.
Import Py.

(** ** Random draws *)

(** A generator whose raw draws are all [k]. *)
Definition constant_rng (k : nat) : rng := fun _ => k.

(** What the loop body of [create_test_files.py] makes of the index [i],
    whatever the draws. *)
Definition built_from (i : Z) (r : CreateTestFiles.record) : Prop :=
  CreateTestFiles.id r = i
  /\ CreateTestFiles.name r = "Person_" +:+ str_int i
  /\ 18 <= CreateTestFiles.age r <= 80
  /\ 30000 <= CreateTestFiles.salary r <= 150000
  /\ In (CreateTestFiles.department r) CreateTestFiles.departments
  /\ CreateTestFiles.join_date r
     = isoformat (add_days CreateTestFiles.start_date i).

(** ** Worlds *)

(** What a computation leaves alone: the directories that exist keep
    existing, the files outside [P] keep their bytes and the directories
    without a file of [P] keep their content. *)
Definition keeps (P : path -> Prop) (w w' : world) : Prop :=
  (forall d, is_Some (fs w !! d) -> is_Some (fs w' !! d))
  /\ (forall p, ~ P p -> read_file w' p = read_file w p)
  /\ (forall d, (forall n, ~ P (d, n)) -> fs w' !! d = fs w !! d).

(** A computation that prints nothing and writes to the files of [P]
    only. *)
Definition silent (P : path -> Prop) {A} (m : IO A) : Prop :=
  forall env w, keeps P w (m env w).2 /\ stdout (m env w).2 = stdout w.

(** A computation that prints the line [l] when it returns, and nothing
    when it raises. *)
Definition reports (P : path -> Prop) (l : line) {A} (m : IO A) : Prop :=
  forall env w,
    keeps P w (m env w).2
    /\ stdout (m env w).2
       = stdout w ++ match (m env w).1 with Return _ => [l] | Raise _ => [] end.

(** The values a computation can return. *)
Definition returns_only {A} (Q : A -> Prop) (m : IO A) : Prop :=
  forall env w a, (m env w).1 = Return a -> Q a.

(** No operation on the file [p] fails. *)
Definition healthy (env : faults) (p : path) : Prop :=
  env (Open p) = None /\ forall k, env (Write p k) = None.

(** ** Emitters *)

(** The status line for the outcome of a [try] block. *)
Definition outcome_line {A} (r : result A) (ok : line) (ko : exception -> line) : line :=
  match r with Return _ => ok | Raise e => ko e end.

(** One emitter, run from [w] to [w']: it returns, it writes to the files
    of [P] only and it prints one status line, which is [ok] when its
    [try] block returned and [ko e] when the block raised [e]. *)
Definition emitter_step (P : path -> Prop) (ok : line) (ko : exception -> line)
    (block emitter : IO unit) (env : faults) (w w' : world) : Prop :=
  emitter env w = (Return tt, w') /\ keeps P w w'
  /\ stdout w' = stdout w ++ [outcome_line (block env w).1 ok ko].

Definition emits (P : path -> Prop) (ok : line) (ko : exception -> line)
    (block emitter : IO unit) : Prop :=
  forall env w, exists w', emitter_step P ok ko block emitter env w w'.

(** The world [w0] in which the first emitter starts: the directory [d]
    exists, nothing else changed, and the opening line is printed. *)
Definition prepared (d : string) (w w0 : world) : Prop :=
  is_Some (fs w0 !! d)
  /\ (forall p, read_file w0 p = read_file w p)
  /\ (forall d', d' <> d -> fs w0 !! d' = fs w !! d')
  /\ (forall d', is_Some (fs w !! d') -> is_Some (fs w0 !! d'))
  /\ stdout w0 = stdout w ++ [Text "Generating test files..."].

(** The lines of the listing: the names that end in one of the suffixes,
    each with the size of the file. *)
Definition listing (w : world) (d : string) (names suffixes : list string) : list line :=
  List.map (fun file => Listed file (getsize w (d, file)))
           (List.filter (fun file => existsb (endswith file) suffixes) names).

(** The file [name] of the output directory and no other. *)
Definition only (name : string) (p : path) : Prop := p = ("test-files", name).

(** *** [create_test_files.py] *)

Definition create_outputs : list path :=
  [("test-files", "sample.jsonl"); ("test-files", "sample.ndjson");
   ("test-files", "sample.csv"); ("test-files", "sample.json")].

(** The world the script ends in, from the world [w] the last emitter
    left: the closing lines and the listing are printed. *)
Definition create_closing (g : rng) (w : world) : world :=
  mk_world (fs w)
    (stdout w
     ++ [Text (nl +:+ "Test files generated in test-files/ directory");
         Text (nl +:+ "Generated files:")]
     ++ listing w "test-files" (sorted (listdir w "test-files"))
                CreateTestFiles.listed_suffixes
     ++ [Text (nl +:+ "Total records per file: "
               +:+ str_int (Z.of_nat (length (CreateTestFiles.data g))));
         Text (nl +:+ "You can now test these files with your Multi-Format Data Viewer!");
         Text "Open the application and try uploading these test files."]).

(** A run in which every emitter ran in turn and the script reached its
    end. *)
Definition create_run_completes (g : rng) (env : faults) (w : world) : Prop :=
  let data := CreateTestFiles.data g in
  exists w0 w1 w2 w3 w4,
    prepared "test-files" w w0
    /\ emitter_step (only "sample.jsonl") (Generated "sample.jsonl") (Failed "JSONL")
         (CreateTestFiles.jsonl_block data) (CreateTestFiles.emit_jsonl data) env w0 w1
    /\ emitter_step (only "sample.ndjson") (Generated "sample.ndjson") (Failed "NDJSON")
         (CreateTestFiles.ndjson_block data) (CreateTestFiles.emit_ndjson data) env w1 w2
    /\ emitter_step (only "sample.csv") (Generated "sample.csv") (Failed "CSV")
         (CreateTestFiles.csv_block data) (CreateTestFiles.emit_csv data) env w2 w3
    /\ emitter_step (only "sample.json") (Generated "sample.json") (Failed "JSON")
         (CreateTestFiles.json_block data) (CreateTestFiles.emit_json data) env w3 w4
    /\ CreateTestFiles.run g env w = (create_closing g w4, 0).

(** The text of the files when their emitters meet no failure. *)
Definition jsonl_text (data : list CreateTestFiles.record) : string :=
  String.concat EmptyString
    (List.map (fun r => dumps (CreateTestFiles.to_json r) +:+ nl) data).

Definition csv_text (data : list CreateTestFiles.record) : string :=
  CreateTestFiles.csv_header
  +:+ String.concat EmptyString (List.map CreateTestFiles.csv_line data).

Definition json_text (data : list CreateTestFiles.record) : string :=
  dumps_indent 2 (JList (List.map CreateTestFiles.to_json data)).

(** *** [generate_test_files.py] *)

Definition generate_outputs : list path :=
  [("test-files", "sample.parquet"); ("test-files", "sample.jsonl");
   ("test-files", "sample.csv"); ("test-files", "sample.arrow");
   ("test-files", "sample.avro")].

Definition arrow_skip : string :=
  "PyArrow not available - skipping Arrow file generation".

Definition avro_skip : string :=
  "FastAvro not available - skipping Avro file generation".

(** The status line of the handlers of an emitter with an
    [except ImportError] clause. *)
Definition skipped_or_failed (skip what : string) (e : exception) : line :=
  if is_ImportError e then Skipped skip else Failed what e.

Definition generate_closing (w : world) : world :=
  mk_world (fs w)
    (stdout w
     ++ [Text (nl +:+ "Test files generated in test-files/ directory");
         Text "You can now test these files with your Multi-Format Data Viewer!";
         Text (nl +:+ "Generated files:")]
     ++ listing w "test-files" (listdir w "test-files")
                GenerateTestFiles.listed_suffixes).

Definition generate_run_completes (lib : Pd.codecs) (g : rng) (env : faults)
    (w : world) : Prop :=
  let df := GenerateTestFiles.data g in
  exists w0 w1 w2 w3 w4 w5,
    prepared "test-files" w w0
    /\ emitter_step (only "sample.parquet") (Generated "sample.parquet")
         (Failed "Parquet")
         (GenerateTestFiles.parquet_block lib df)
         (GenerateTestFiles.emit_parquet lib df) env w0 w1
    /\ emitter_step (only "sample.jsonl") (Generated "sample.jsonl") (Failed "JSONL")
         (GenerateTestFiles.jsonl_block df) (GenerateTestFiles.emit_jsonl df) env w1 w2
    /\ emitter_step (only "sample.csv") (Generated "sample.csv") (Failed "CSV")
         (GenerateTestFiles.csv_block df) (GenerateTestFiles.emit_csv df) env w2 w3
    /\ emitter_step (only "sample.arrow") (Generated "sample.arrow")
         (skipped_or_failed arrow_skip "Arrow")
         (GenerateTestFiles.arrow_block lib df)
         (GenerateTestFiles.emit_arrow lib df) env w3 w4
    /\ emitter_step (only "sample.avro") (Generated "sample.avro")
         (skipped_or_failed avro_skip "Avro")
         (GenerateTestFiles.avro_block lib df)
         (GenerateTestFiles.emit_avro lib df) env w4 w5
    /\ GenerateTestFiles.run lib g env w = (generate_closing w5, 0).

(** The modules of the columnar formats cannot be imported. *)
Definition no_columnar_libraries : faults :=
  fun o =>
    match o with
    | Import m => Some (ImportError ("No module named '" +:+ m +:+ "'"))
    | _ => None
    end.

(** ** Text *)

(** Every character of [s] satisfies [P]. *)
Fixpoint all_chars (P : ascii -> bool) (s : string) : bool :=
  match s with
  | EmptyString => true
  | String c rest => P c && all_chars P rest
  end.

(** The lines of a text: the pieces between the line feeds, without the
    empty piece after a final line feed. *)
Definition lines (s : string) : list string :=
  let pieces := split LF s in
  if String.eqb (List.last pieces "x") EmptyString then removelast pieces
  else pieces.

(** The characters of a field of the generated tables: letters, digits
    and the punctuation of names, numbers and dates. *)
Definition is_field_char (c : ascii) : bool :=
  let n := nat_of_ascii c in
  (Nat.leb 48 n && Nat.leb n 58) || (Nat.leb 65 n && Nat.leb n 90)
  || (Nat.leb 97 n && Nat.leb n 122) || Nat.eqb n 45 || Nat.eqb n 95.

(** Fields that are made of field characters. *)
Definition plain_fields (fields : list string) : Prop :=
  Forall (fun f => all_chars is_field_char f = true) fields.

(** ** CSV *)

Definition header : string := "id,name,age,salary,department,is_active,join_date".

Definition is_iso_date (cs : list ascii) : bool :=
  match cs with
  | [y1; y2; y3; y4; s1; m1; m2; s2; d1; d2] =>
      forallb is_digit [y1; y2; y3; y4; m1; m2; d1; d2]
      && Ascii.eqb s1 "-" && Ascii.eqb s2 "-"
  | _ => false
  end.

Definition is_iso_time (cs : list ascii) : bool :=
  match cs with
  | [h1; h2; s1; m1; m2; s2; c1; c2] =>
      forallb is_digit [h1; h2; m1; m2; c1; c2]
      && Ascii.eqb s1 ":" && Ascii.eqb s2 ":"
  | _ => false
  end.

(** The ISO-8601 forms [YYYY-MM-DD] and [YYYY-MM-DDTHH:MM:SS]. *)
Definition is_iso8601 (s : string) : bool :=
  let cs := list_ascii_of_string s in
  is_iso_date (firstn 10 cs)
  && match skipn 10 cs with
     | [] => true
     | t :: time => Ascii.eqb t "T" && is_iso_time time
     end.

(** The text is the header line and one line per row, in the order of
    the rows; every line ends in a line feed; a line is its seven fields
    joined by commas; the sixth field is [True] or [False] and the
    seventh an ISO-8601 date. *)
Definition csv_layout (text : string) (rows : list (list string)) : Prop :=
  lines text = header :: List.map (join ",") rows
  /\ text = String.concat EmptyString (List.map (fun l => l +:+ nl) (lines text))
  /\ Forall (fun fields =>
               length fields = 7%nat
               /\ split "," (join "," fields) = fields
               /\ (nth 5 fields EmptyString = "True"
                   \/ nth 5 fields EmptyString = "False")
               /\ is_iso8601 (nth 6 fields EmptyString) = true) rows.

(** The fields of a record of [create_test_files.py], as the f-string
    of the CSV emitter renders them. *)
Definition create_fields (r : CreateTestFiles.record) : list string :=
  [str_int (CreateTestFiles.id r); CreateTestFiles.name r;
   str_int (CreateTestFiles.age r); str_int (CreateTestFiles.salary r);
   CreateTestFiles.department r; str_bool (CreateTestFiles.is_active r);
   CreateTestFiles.join_date r].

(** The fields of a row of [generate_test_files.py], as [to_csv] renders
    them. *)
Definition generate_fields (r : Pd.row) : list string :=
  [str_int (Pd.id r); Pd.name r; str_int (Pd.age r); str_int (Pd.salary r);
   Pd.department r; str_bool (Pd.is_active r); date_isoformat (Pd.join_date r)].

(** A timestamp without time of day whose date is written in field
    characters and in ISO-8601 form. *)
Definition at_midnight_date (t : datetime) : bool :=
  Pd.at_midnight t && all_chars is_field_char (date_isoformat t)
  && is_iso8601 (date_isoformat t).

(** ** JSON *)

(** What can follow a value in an encoded text: a separator, a closing
    bracket, white space, or the end of the text. *)
Definition follows (rest : string) : bool :=
  match rest with
  | EmptyString => true
  | String c _ =>
      Ascii.eqb c "," || Ascii.eqb c "]" || Ascii.eqb c "}" || is_ws c
  end.

(** The first character of an encoded value. *)
Definition is_value_start (c : ascii) : bool :=
  is_digit c || Ascii.eqb c "-" || Ascii.eqb c DQ || Ascii.eqb c "["
  || Ascii.eqb c "{" || Ascii.eqb c "n" || Ascii.eqb c "t" || Ascii.eqb c "f".

Definition starts_value (s : string) : Prop :=
  exists c s', s = String c s' /\ is_value_start c = true.

(** The calls the decoder nests to read a value back. *)
Fixpoint need (v : jvalue) : nat :=
  match v with
  | JList items => S (length items + list_max (List.map need items))
  | JDict members =>
      S (length members
         + list_max (List.map (fun kv => match kv with (_, x) => need x end) members))
  | _ => 1
  end.

(** The keys of every [dict] are distinct. *)
Fixpoint distinct_keys (v : jvalue) : Prop :=
  match v with
  | JList items =>
      (fix all (l : list jvalue) : Prop :=
         match l with [] => True | x :: l' => distinct_keys x /\ all l' end) items
  | JDict members =>
      List.NoDup (List.map fst members)
      /\ (fix all (l : list (string * jvalue)) : Prop :=
            match l with
            | [] => True
            | (_, x) :: l' => distinct_keys x /\ all l'
            end) members
  | _ => True
  end.

(** The decoder with enough fuel reads the encoded [v] back, whatever
    the indentation, and stops where the value ends. *)
Definition reads_back (v : jvalue) : Prop :=
  forall indent level rest fuel,
    follows rest = true -> (need v <= fuel)%nat ->
    scan_once fuel (encode indent level v +:+ rest) = Some (v, rest).

(** ** Sample runs *)

(** An environment in which no operation fails. *)
Definition no_faults : faults := fun _ => None.

(** A sequence of raw draws. *)
Definition sample_rng : rng := fun k => (k * 4099 + 13)%nat.

(** A working directory whose [test-files] holds a file of its own. *)
Definition sample_world : world :=
  mk_world {[ "test-files" := {[ "notes.txt" := "keep" ]} ]} [].

Definition sample_codecs : Pd.codecs :=
  Pd.mk_codecs (fun _ => "PAR1") (fun _ => "ARROW1") "Obj" (fun _ => "records").

(** ** Further vocabulary *)

(** The text of the JSON Lines file of [generate_test_files.py] when its
    emitter meets no failure. *)
Definition rows_jsonl_text (df : Pd.dataframe) : string :=
  String.concat EmptyString
    (List.map (fun row => dumps (GenerateTestFiles.row_dict row) +:+ nl)
              (Pd.iterrows df)).

(** The keys of a decoded object. *)
Definition keys (v : jvalue) : list string :=
  match v with
  | JDict members => List.map fst members
  | _ => []
  end.


(** An environment in which opening any file fails with [e]. *)
Definition open_fails (e : exception) : faults :=
  fun o => match o with Open _ => Some e | _ => None end.

(** An environment in which the first write to any file fails with [e]. *)
Definition first_write_fails (e : exception) : faults :=
  fun o => match o with Write _ O => Some e | _ => None end.

(** An environment in which the library call [f] fails with [e]. *)
Definition call_fails (f : string) (e : exception) : faults :=
  fun o =>
    match o with
    | Call f' => if String.eqb f' f then Some e else None
    | _ => None
    end.

(** A working directory whose [test-files] holds files of an earlier
    run and a file of its own. *)
Definition stale_world : world :=
  mk_world {[ "test-files" := {[ "sample.csv" := "old"; "sample.avro" := "old";
                                 "notes.txt" := "keep" ]} ]} [].

(** ** The platform

    What can fail apart from the operations on files and the library
    calls: making the directory, and every [print]. *)

(** The console takes the line [l]. *)
Definition takes (env : faults) (l : line) : Prop := env (Print l) = None.

(** Nothing fails outside the emitters: the directory can be made, and
    the console takes the progress and summary lines and the lines of
    the listing. *)
Definition frame_works (env : faults) : Prop :=
  env (Makedirs "test-files") = None
  /\ (forall s, takes env (Text s))
  /\ (forall file size, takes env (Listed file size)).

(** The console takes the lines of the handlers: the failure lines and
    the skip lines. *)
Definition handlers_report (env : faults) : Prop :=
  (forall what e, takes env (Failed what e))
  /\ (forall what, takes env (Skipped what)).

(** A run of [create_test_files.py] on the platform [print], [makedirs]
    in which every emitter ran in turn and the script reached its
    end. *)
Definition create_completes_on (print : line -> IO unit)
    (makedirs : string -> IO unit) (g : rng) (env : faults) (w : world) : Prop :=
  let data := CreateTestFiles.data g in
  exists w0 w1 w2 w3 w4,
    prepared "test-files" w w0
    /\ emitter_step (only "sample.jsonl") (Generated "sample.jsonl") (Failed "JSONL")
         (CreateTestFiles.jsonl_block_on print data)
         (CreateTestFiles.emit_jsonl_on print data) env w0 w1
    /\ emitter_step (only "sample.ndjson") (Generated "sample.ndjson") (Failed "NDJSON")
         (CreateTestFiles.ndjson_block_on print data)
         (CreateTestFiles.emit_ndjson_on print data) env w1 w2
    /\ emitter_step (only "sample.csv") (Generated "sample.csv") (Failed "CSV")
         (CreateTestFiles.csv_block_on print data)
         (CreateTestFiles.emit_csv_on print data) env w2 w3
    /\ emitter_step (only "sample.json") (Generated "sample.json") (Failed "JSON")
         (CreateTestFiles.json_block_on print data)
         (CreateTestFiles.emit_json_on print data) env w3 w4
    /\ CreateTestFiles.run_on print makedirs g env w = (create_closing g w4, 0).

(** The same for [generate_test_files.py]. *)
Definition generate_completes_on (print : line -> IO unit)
    (makedirs : string -> IO unit) (lib : Pd.codecs) (g : rng) (env : faults)
    (w : world) : Prop :=
  let df := GenerateTestFiles.data g in
  exists w0 w1 w2 w3 w4 w5,
    prepared "test-files" w w0
    /\ emitter_step (only "sample.parquet") (Generated "sample.parquet")
         (Failed "Parquet")
         (GenerateTestFiles.parquet_block_on print lib df)
         (GenerateTestFiles.emit_parquet_on print lib df) env w0 w1
    /\ emitter_step (only "sample.jsonl") (Generated "sample.jsonl") (Failed "JSONL")
         (GenerateTestFiles.jsonl_block_on print df)
         (GenerateTestFiles.emit_jsonl_on print df) env w1 w2
    /\ emitter_step (only "sample.csv") (Generated "sample.csv") (Failed "CSV")
         (GenerateTestFiles.csv_block_on print df)
         (GenerateTestFiles.emit_csv_on print df) env w2 w3
    /\ emitter_step (only "sample.arrow") (Generated "sample.arrow")
         (skipped_or_failed arrow_skip "Arrow")
         (GenerateTestFiles.arrow_block_on print lib df)
         (GenerateTestFiles.emit_arrow_on print lib df) env w3 w4
    /\ emitter_step (only "sample.avro") (Generated "sample.avro")
         (skipped_or_failed avro_skip "Avro")
         (GenerateTestFiles.avro_block_on print lib df)
         (GenerateTestFiles.emit_avro_on print lib df) env w4 w5
    /\ GenerateTestFiles.run_on print makedirs lib g env w = (generate_closing w5, 0).

(** A console that refuses the line of a success: the [print] at the end
    of every [try] block raises. *)
Definition success_lines_refused : faults :=
  fun o =>
    match o with
    | Print (Generated _) => Some (OSError "Resource temporarily unavailable")
    | _ => None
    end.

(** A console whose encoding has no character for the marks of the
    status and listing lines: [print] raises [UnicodeEncodeError], a
    [ValueError], on every line that carries one. *)
Definition console_without_marks : faults :=
  fun o =>
    match o with
    | Print (Text _) => None
    | Print _ => Some (ValueError "'ascii' codec can't encode character")
    | _ => None
    end.

(** ** The layout of [sample.json]

    After the spec's words: one array, one object per record, printed
    with an indent of two spaces per level of nesting.  The bracket of
    the array stands at the margin, the braces of an object two spaces
    in, and a member four spaces in, as its key in double quotes, a
    colon, a space and its value; an item that is not the last of its
    array or object is followed by a comma. *)

Definition margin (level : nat) : string :=
  String.concat EmptyString (repeat "  " level).

Definition quoted (s : string) : string := quote +:+ s +:+ quote.

Definition member_line (key value : string) (last : bool) : string :=
  margin 2 +:+ quoted key +:+ ": " +:+ value +:+ (if last then EmptyString else ",").

Definition object_lines (r : CreateTestFiles.record) (last : bool) : list string :=
  [margin 1 +:+ "{";
   member_line "id" (str_int (CreateTestFiles.id r)) false;
   member_line "name" (quoted (CreateTestFiles.name r)) false;
   member_line "age" (str_int (CreateTestFiles.age r)) false;
   member_line "salary" (str_int (CreateTestFiles.salary r)) false;
   member_line "department" (quoted (CreateTestFiles.department r)) false;
   member_line "is_active" (if CreateTestFiles.is_active r then "true" else "false")
               false;
   member_line "join_date" (quoted (CreateTestFiles.join_date r)) true;
   margin 1 +:+ (if last then "}" else "},")].

Fixpoint array_lines (rs : list CreateTestFiles.record) : list string :=
  match rs with
  | [] => []
  | [r] => object_lines r true
  | r :: rest => object_lines r false ++ array_lines rest
  end.

(** The text is these lines, separated by line feeds, with no line feed
    after the closing bracket. *)
Definition json_layout (text : string) (rs : list CreateTestFiles.record) : Prop :=
  split LF text = ["["] ++ array_lines rs ++ ["]"]
  /\ text = join nl (split LF text).

End Spec.

(* ================================================================== *)
(** * Properties of the dataset builders *)
(* ================================================================== *)

Module BuilderFacts.
Import Py Spec.

(** ** Bounded draws *)

Lemma randbelow_range (n : Z) (g : rng) (pos : nat) :
  0 < n -> 0 <= (randbelow n g pos).1 < n.
Proof. intros Hn. cbn. apply Z.mod_pos_bound. exact Hn. Qed.

Lemma randint_range (a b : Z) (g : rng) (pos : nat) :
  a <= b -> a <= (randint a b g pos).1 <= b.
Proof.
  intros Hab. unfold randint, bind, ret. cbn.
  pose proof (Z.mod_pos_bound (Z.of_nat (g pos)) (b + 1 - a)). lia.
Qed.

Lemma randint_reaches (a b v : Z) (pos : nat) :
  a <= v <= b -> (randint a b (constant_rng (Z.to_nat (v - a))) pos).1 = v.
Proof.
  intros Hv. unfold randint, bind, ret, constant_rng. cbn.
  rewrite Z2Nat.id by lia. rewrite Z.mod_small by lia. lia.
Qed.

(** Over one period of raw draws [randint a b] takes each value of
    [a..b] once: the draw is uniform when the raw draw is. *)
Lemma randint_uniform (a b : Z) (pos : nat) :
  a <= b ->
  List.map (fun raw => (randint a b (constant_rng raw) pos).1)
           (seq 0 (Z.to_nat (b + 1 - a)))
  = range a (b + 1).
Proof.
  intros Hab. unfold range. apply map_ext_in. intros k Hk.
  apply in_seq in Hk. unfold randint, bind, ret, constant_rng. cbn.
  rewrite Z.mod_small by lia. reflexivity.
Qed.

Lemma choice_In {A} (dflt : A) (xs : list A) (g : rng) (pos : nat) :
  xs <> [] -> In (choice dflt xs g pos).1 xs.
Proof.
  intros Hne. unfold choice, bind, ret. cbn. apply nth_In.
  assert (0 < Z.of_nat (length xs)) by (destruct xs; [congruence | cbn; lia]).
  pose proof (Z.mod_pos_bound (Z.of_nat (g pos)) (Z.of_nat (length xs))). lia.
Qed.

(** ** The loop that appends one record per index *)

Lemma for_each_append {A R} (mk : A -> Rand R) (xs : list A) (acc : list R)
    (g : rng) (pos : nat) :
  exists rs,
    (for_each xs (fun data i => bind (mk i) (fun r => ret (data ++ [r]))) acc g pos).1
    = acc ++ rs
    /\ Forall2 (fun i r => exists p, r = (mk i g p).1) xs rs.
Proof.
  revert acc pos. induction xs as [|x xs IH]; intros acc pos.
  - exists []. cbn. split; [symmetry; apply app_nil_r | constructor].
  - cbn [for_each]. unfold bind at 1. unfold bind at 1.
    destruct (mk x g pos) as [r pos'] eqn:Hmk. unfold ret at 1.
    destruct (IH (acc ++ [r]) pos') as (rs & Heq & Hall).
    exists (r :: rs). split.
    + rewrite Heq, <- app_assoc. reflexivity.
    + constructor; [exists pos; rewrite Hmk; reflexivity | exact Hall].
Qed.

(** ** [np.random]: arrays of draws *)

Lemma draws_length {A} (size : nat) (m : Rand A) (g : rng) (pos : nat) :
  length (Np.draws size m g pos).1 = size.
Proof.
  revert pos. induction size as [|n IH]; intros pos; [reflexivity|].
  cbn [Np.draws]. unfold bind at 1. destruct (m g pos) as [x pos'].
  unfold bind at 1. specialize (IH pos').
  destruct (Np.draws n m g pos') as [xs pos'']. cbn in *. congruence.
Qed.

Lemma draws_Forall {A} (P : A -> Prop) (size : nat) (m : Rand A) (g : rng) (pos : nat) :
  (forall p, P (m g p).1) -> Forall P (Np.draws size m g pos).1.
Proof.
  intros HP. revert pos. induction size as [|n IH]; intros pos; [constructor|].
  cbn [Np.draws]. unfold bind at 1. pose proof (HP pos) as Hx.
  destruct (m g pos) as [x pos']. unfold bind at 1. specialize (IH pos').
  destruct (Np.draws n m g pos') as [xs pos'']. cbn in *. constructor; assumption.
Qed.

Lemma np_randint_range (low high : Z) (size : nat) (g : rng) (pos : nat) :
  low < high ->
  Forall (fun v => low <= v < high) (Np.randint low high size g pos).1.
Proof.
  intros Hlh. apply draws_Forall. intros p. unfold bind, ret. cbn.
  pose proof (Z.mod_pos_bound (Z.of_nat (g p)) (high - low)). lia.
Qed.

End BuilderFacts.

Module DatasetFacts.
Import Py Spec BuilderFacts.

(** ** The records of [create_test_files.py] *)

(** The four draws of a record are consecutive. *)
Lemma make_record_draws (i : Z) (g : rng) (pos : nat) :
  (CreateTestFiles.make_record i g pos).1
  = {| CreateTestFiles.id := i;
       CreateTestFiles.name := "Person_" +:+ str_int i;
       CreateTestFiles.age := (randint 18 80 g pos).1;
       CreateTestFiles.salary := (randint 30000 150000 g (S pos)).1;
       CreateTestFiles.department :=
         (choice EmptyString CreateTestFiles.departments g (S (S pos))).1;
       CreateTestFiles.is_active :=
         (choice false [true; false] g (S (S (S pos)))).1;
       CreateTestFiles.join_date :=
         isoformat (add_days CreateTestFiles.start_date i) |}.
Proof. reflexivity. Qed.

Lemma make_record_built_from (i : Z) (g : rng) (pos : nat) :
  built_from i (CreateTestFiles.make_record i g pos).1.
Proof.
  rewrite make_record_draws. unfold built_from.
  cbn [CreateTestFiles.id CreateTestFiles.name CreateTestFiles.age
       CreateTestFiles.salary CreateTestFiles.department CreateTestFiles.join_date].
  split; [reflexivity|]. split; [reflexivity|].
  split; [apply randint_range; lia|]. split; [apply randint_range; lia|].
  split; [apply choice_In; discriminate | reflexivity].
Qed.

Lemma data_built (g : rng) :
  Forall2 built_from (range 1 101) (CreateTestFiles.data g).
Proof.
  unfold CreateTestFiles.data, CreateTestFiles.build_data.
  destruct (for_each_append CreateTestFiles.make_record (range 1 101) [] g 0%nat)
    as (rs & Heq & Hall).
  rewrite Heq. cbn [app].
  eapply Forall2_impl; [exact Hall|].
  intros i r [p ->]. apply make_record_built_from.
Qed.

Lemma Forall2_map_r_eq {A B} (R : A -> B -> Prop) (f : B -> A) xs ys :
  Forall2 R xs ys -> (forall x y, R x y -> f y = x) -> List.map f ys = xs.
Proof.
  intros H Hf. induction H as [|x y xs ys Hxy _ IH]; cbn; [reflexivity|].
  rewrite (Hf _ _ Hxy), IH. reflexivity.
Qed.

Lemma create_ids (g : rng) :
  List.map CreateTestFiles.id (CreateTestFiles.data g) = range 1 101.
Proof.
  apply Forall2_map_r_eq with (R := built_from); [apply data_built|].
  intros x y H. apply H.
Qed.

Lemma create_length (g : rng) : length (CreateTestFiles.data g) = 100%nat.
Proof.
  pose proof (data_built g) as H. apply Forall2_length in H.
  rewrite <- H. reflexivity.
Qed.

Lemma create_join_dates (g : rng) :
  List.map CreateTestFiles.join_date (CreateTestFiles.data g)
  = List.map (fun i => isoformat (add_days CreateTestFiles.start_date i)) (range 1 101).
Proof.
  pose proof (data_built g) as H.
  induction H as [|i r ixs rs Hir _ IH]; cbn [List.map]; [reflexivity|].
  f_equal; [apply Hir | exact IH].
Qed.

Lemma create_ranges (g : rng) :
  Forall (fun r => 18 <= CreateTestFiles.age r <= 80
                   /\ 30000 <= CreateTestFiles.salary r <= 150000)
         (CreateTestFiles.data g).
Proof.
  pose proof (data_built g) as H.
  induction H as [|i r ixs rs Hir _ IH]; constructor; [|exact IH].
  split; apply Hir.
Qed.

(** ** The frame of [generate_test_files.py] *)

Lemma generate_columns (g : rng) :
  exists p1 p2 p3,
    GenerateTestFiles.data g
    = {| Pd.col_id := range 1 101;
         Pd.col_name := List.map (fun i => "Person_" +:+ str_int i) (range 1 101);
         Pd.col_age := (Np.randint 18 80 100 g 0%nat).1;
         Pd.col_salary := (Np.randint 30000 150000 100 g p1).1;
         Pd.col_department :=
           (Np.choice EmptyString ["Engineering"; "Marketing"; "Sales"; "HR"] 100 g p2).1;
         Pd.col_is_active := (Np.choice false [true; false] 100 g p3).1;
         Pd.col_join_date := firstn 100 (Pd.date_range "2020-01-01" 100) |}.
Proof.
  unfold GenerateTestFiles.data, GenerateTestFiles.build_data.
  unfold bind at 1. destruct (Np.randint 18 80 100 g 0%nat) as [ages p1].
  unfold bind at 1. exists p1.
  destruct (Np.randint 30000 150000 100 g p1) as [sals p2].
  unfold bind at 1. exists p2.
  destruct (Np.choice EmptyString _ 100 g p2) as [deps p3].
  unfold bind at 1. exists p3.
  destruct (Np.choice false _ 100 g p3) as [acts p4].
  reflexivity.
Qed.

(** The projections of the rows are the columns when the columns have
    one length. *)
Lemma zip_rows_columns ids : forall names ages sals deps acts dates,
  length names = length ids -> length ages = length ids ->
  length sals = length ids -> length deps = length ids ->
  length acts = length ids -> length dates = length ids ->
  let rows := Pd.zip_rows ids names ages sals deps acts dates in
  List.map Pd.id rows = ids /\ List.map Pd.name rows = names
  /\ List.map Pd.age rows = ages /\ List.map Pd.salary rows = sals
  /\ List.map Pd.department rows = deps /\ List.map Pd.is_active rows = acts
  /\ List.map Pd.join_date rows = dates.
Proof.
  induction ids as [|i ids IH];
    intros [|n names] [|a ages] [|s sals] [|d deps] [|b acts] [|t dates];
    cbn [length]; intros; try discriminate.
  - cbn. repeat split.
  - cbn [Pd.zip_rows List.map].
    destruct (IH names ages sals deps acts dates) as (E1&E2&E3&E4&E5&E6&E7);
      try congruence.
    cbn zeta in *. rewrite E1, E2, E3, E4, E5, E6, E7. repeat split.
Qed.

Lemma generate_rows (g : rng) :
  let df := GenerateTestFiles.data g in
  let rows := Pd.iterrows df in
  List.map Pd.id rows = Pd.col_id df /\ List.map Pd.name rows = Pd.col_name df
  /\ List.map Pd.age rows = Pd.col_age df /\ List.map Pd.salary rows = Pd.col_salary df
  /\ List.map Pd.department rows = Pd.col_department df
  /\ List.map Pd.is_active rows = Pd.col_is_active df
  /\ List.map Pd.join_date rows = Pd.col_join_date df.
Proof.
  destruct (generate_columns g) as (p1 & p2 & p3 & Hdf).
  cbn zeta. rewrite Hdf. unfold Pd.iterrows. cbn [Pd.col_id Pd.col_name Pd.col_age
    Pd.col_salary Pd.col_department Pd.col_is_active Pd.col_join_date].
  apply zip_rows_columns;
    unfold Np.randint, Np.choice; rewrite ?draws_length; reflexivity.
Qed.

Lemma generate_ids (g : rng) :
  List.map Pd.id (Pd.iterrows (GenerateTestFiles.data g)) = range 1 101.
Proof.
  destruct (generate_rows g) as (H & _). cbn zeta in H. rewrite H.
  destruct (generate_columns g) as (p1 & p2 & p3 & ->). reflexivity.
Qed.

Lemma generate_join_dates (g : rng) :
  List.map Pd.join_date (Pd.iterrows (GenerateTestFiles.data g))
  = List.map (fun i => add_days (mk_datetime 2020 1 1 0 0 0) (i - 1)) (range 1 101).
Proof.
  destruct (generate_rows g) as (_&_&_&_&_&_&H). cbn zeta in H. rewrite H.
  destruct (generate_columns g) as (p1 & p2 & p3 & ->). vm_compute. reflexivity.
Qed.

Lemma Forall_map_inv {A B} (P : B -> Prop) (f : A -> B) (l : list A) :
  Forall P (List.map f l) -> Forall (fun x => P (f x)) l.
Proof. induction l; cbn; intros H; inversion H; subst; constructor; auto. Qed.

Lemma generate_ranges (g : rng) :
  Forall (fun r => 18 <= Pd.age r < 80 /\ 30000 <= Pd.salary r < 150000)
         (Pd.iterrows (GenerateTestFiles.data g)).
Proof.
  destruct (generate_rows g) as (_&_&Ha&Hs&_). cbn zeta in *.
  destruct (generate_columns g) as (p1 & p2 & p3 & Hdf).
  set (rows := Pd.iterrows (GenerateTestFiles.data g)) in *.
  rewrite Hdf in Ha, Hs. cbn [Pd.col_age Pd.col_salary] in Ha, Hs.
  pose proof (np_randint_range 18 80 100 g 0%nat ltac:(lia)) as Hage.
  pose proof (np_randint_range 30000 150000 100 g p1 ltac:(lia)) as Hsal.
  rewrite <- Ha in Hage. rewrite <- Hs in Hsal.
  apply Forall_map_inv in Hage. apply Forall_map_inv in Hsal.
  apply Forall_forall. intros r Hr.
  rewrite Forall_forall in Hage, Hsal.
  split; [apply (Hage r Hr) | apply (Hsal r Hr)].
Qed.

End DatasetFacts.

(* ================================================================== *)
(** * Properties of the operations on files and the console *)
(* ================================================================== *)

Module IOFacts.
Import Py Spec.

Lemma keeps_refl P w : keeps P w w.
Proof. split; [auto|]. split; auto. Qed.

Lemma keeps_trans P w1 w2 w3 : keeps P w1 w2 -> keeps P w2 w3 -> keeps P w1 w3.
Proof.
  intros (D1 & F1 & O1) (D2 & F2 & O2). split; [auto|]. split.
  - intros p Hp. rewrite F2, F1; auto.
  - intros d Hd. rewrite O2, O1; auto.
Qed.

Lemma keeps_weaken (P Q : path -> Prop) w w' :
  (forall p, P p -> Q p) -> keeps P w w' -> keeps Q w w'.
Proof.
  intros HPQ (D & F & O). split; [exact D|]. split.
  - intros p Hp. apply F. auto.
  - intros d Hd. apply O. intros n Hn. apply (Hd n). auto.
Qed.

Lemma keeps_stdout P w w' out :
  keeps P w w' -> keeps P w (mk_world (fs w') out).
Proof. intros (D & F & O). split; [exact D|]. split; [exact F | exact O]. Qed.

(** Writing the file [p] of an existing directory. *)
Lemma keeps_insert (P : path -> Prop) w p files content out :
  P p -> fs w !! p.1 = Some files ->
  keeps P w (mk_world (<[p.1 := <[p.2 := content]> files]> (fs w)) out).
Proof.
  intros HP Hdir. split; [|split]; cbn.
  - intros d Hd. destruct (decide (p.1 = d)) as [<-|Hne].
    + rewrite lookup_insert_eq. eauto.
    + rewrite lookup_insert_ne by exact Hne. exact Hd.
  - intros q Hq. unfold read_file. cbn.
    destruct (decide (p.1 = q.1)) as [Heq|Hne].
    + rewrite <- Heq, lookup_insert_eq, Hdir.
      apply lookup_insert_ne. intros Heq2. apply Hq.
      destruct p, q; cbn in *; subst; exact HP.
    + rewrite lookup_insert_ne by exact Hne. reflexivity.
  - intros d Hd. apply lookup_insert_ne. intros <-. apply (Hd p.2).
    destruct p; exact HP.
Qed.

Lemma io_bind_return {A B} (m : IO A) (k : A -> IO B) env w a w' :
  m env w = (Return a, w') -> io_bind m k env w = k a env w'.
Proof. intros H. unfold io_bind. rewrite H. reflexivity. Qed.

Lemma keeps_same_fs P w w' : fs w' = fs w -> keeps P w w'.
Proof.
  intros H. unfold keeps, read_file. rewrite H. split; [auto|]. split; auto.
Qed.

(** ** Writes that succeed *)

Lemma read_file_insert F out (p : path) files content :
  read_file (mk_world (<[p.1 := <[p.2 := content]> files]> F) out) p = Some content.
Proof. unfold read_file. cbn. rewrite lookup_insert_eq. apply lookup_insert_eq. Qed.

Lemma open_w_ok env w p :
  healthy env p -> is_Some (fs w !! p.1) ->
  exists w', open_w p env w = (Return p, w')
    /\ read_file w' p = Some EmptyString /\ stdout w' = stdout w.
Proof.
  intros [Ho _] [files Hdir]. unfold open_w. rewrite Hdir, Ho.
  eexists. split; [reflexivity|]. split; [apply read_file_insert | reflexivity].
Qed.

Lemma write_ok env w p old chunk :
  healthy env p -> read_file w p = Some old ->
  exists w', write p chunk env w = (Return tt, w')
    /\ read_file w' p = Some (old +:+ chunk) /\ stdout w' = stdout w.
Proof.
  intros [_ Hw] Hold. unfold read_file in Hold. unfold write.
  destruct (fs w !! p.1) as [files|]; [|discriminate].
  rewrite Hold. cbn [default]. rewrite Hw.
  eexists. split; [reflexivity|]. split; [apply read_file_insert | reflexivity].
Qed.

Lemma attempt_ok env w o : env o = None -> attempt o env w = (Return tt, w).
Proof. intros H. unfold attempt. rewrite H. reflexivity. Qed.

Lemma string_app_assoc (a b c : string) : (a +:+ b) +:+ c = a +:+ (b +:+ c).
Proof. induction a as [|x a IH]; simpl; [reflexivity | f_equal; exact IH]. Qed.

Lemma string_app_nil_r (a : string) : a +:+ EmptyString = a.
Proof. induction a as [|x a IH]; simpl; [reflexivity | f_equal; exact IH]. Qed.

Lemma concat_empty_cons (x : string) (xs : list string) :
  String.concat EmptyString (x :: xs) = x +:+ String.concat EmptyString xs.
Proof. destruct xs; cbn; [rewrite string_app_nil_r|]; reflexivity. Qed.

Lemma for_io_write_ok {A} (f : A -> string) (xs : list A) env w p old :
  healthy env p -> read_file w p = Some old ->
  exists w', for_io xs (fun x => write p (f x)) env w = (Return tt, w')
    /\ read_file w' p = Some (old +:+ String.concat EmptyString (List.map f xs))
    /\ stdout w' = stdout w.
Proof.
  intros Hh. revert w old. induction xs as [|x xs IH]; intros w old Hold.
  - exists w. cbn. rewrite string_app_nil_r. auto.
  - cbn [for_io List.map].
    destruct (write_ok env w p old (f x) Hh Hold) as (w1 & E1 & R1 & O1).
    erewrite io_bind_return by exact E1.
    destruct (IH w1 _ R1) as (w2 & E2 & R2 & O2).
    exists w2. split; [exact E2|]. split; [|congruence].
    rewrite R2, concat_empty_cons, string_app_assoc. reflexivity.
Qed.

Lemma silent_ret P {A} (a : A) : silent P (io_ret a).
Proof. intros env w. split; [apply keeps_refl | reflexivity]. Qed.

Lemma silent_raise P {A} e : silent P (@raise A e).
Proof. intros env w. split; [apply keeps_refl | reflexivity]. Qed.

Lemma silent_attempt P o : silent P (attempt o).
Proof.
  intros env w. unfold attempt. destruct (env o); split;
    first [apply keeps_refl | reflexivity].
Qed.

Lemma silent_write (P : path -> Prop) p chunk : P p -> silent P (write p chunk).
Proof.
  intros HP env w. unfold write.
  destruct (fs w !! p.1) as [files|] eqn:Hdir;
    [|split; [apply keeps_refl | reflexivity]].
  destruct (env _); [split; [apply keeps_refl | reflexivity]|].
  split; [|reflexivity]. cbn [snd]. apply keeps_insert; assumption.
Qed.

Lemma silent_open_w (P : path -> Prop) p : P p -> silent P (open_w p).
Proof.
  intros HP env w. unfold open_w.
  destruct (fs w !! p.1) as [files|] eqn:Hdir;
    [|split; [apply keeps_refl | reflexivity]].
  destruct (env _); [split; [apply keeps_refl | reflexivity]|].
  split; [|reflexivity]. cbn [snd]. apply keeps_insert; assumption.
Qed.

Lemma open_w_returns p : returns_only (fun f => f = p) (open_w p).
Proof.
  intros env w a. unfold open_w. destruct (fs w !! p.1); [|discriminate].
  destruct (env _); [discriminate|]. cbn. congruence.
Qed.

Lemma returns_anything {A} (m : IO A) : returns_only (fun _ => True) m.
Proof. intros env w a _. exact I. Qed.

Lemma silent_bind P {A B} (Q : A -> Prop) (m : IO A) (k : A -> IO B) :
  silent P m -> returns_only Q m -> (forall a, Q a -> silent P (k a)) ->
  silent P (io_bind m k).
Proof.
  intros Hm HQ Hk env w. unfold io_bind.
  destruct (Hm env w) as [Hkeep Hout]. specialize (HQ env w).
  destruct (m env w) as [[a|e] w1]; cbn [fst snd] in *.
  - destruct (Hk a (HQ a eq_refl) env w1) as [Hkeep2 Hout2].
    split; [eapply keeps_trans; eassumption | congruence].
  - split; assumption.
Qed.

Lemma silent_seq P {A B} (m : IO A) (k : IO B) :
  silent P m -> silent P k -> silent P (io_bind m (fun _ => k)).
Proof.
  intros Hm Hk. apply silent_bind with (Q := fun _ => True);
    [exact Hm | apply returns_anything | intros; exact Hk].
Qed.

Lemma silent_for_io P {A} (xs : list A) (body : A -> IO unit) :
  (forall x, silent P (body x)) -> silent P (for_io xs body).
Proof.
  intros Hb. induction xs as [|x xs IH]; cbn [for_io].
  - apply silent_ret.
  - apply silent_seq; [apply Hb | exact IH].
Qed.

Lemma silent_try_except P {A} (body : IO A) (handler : exception -> IO A) :
  silent P body -> (forall e, silent P (handler e)) ->
  silent P (try_except body handler).
Proof.
  intros Hb Hh env w. unfold try_except.
  destruct (Hb env w) as [Hkeep Hout].
  destruct (body env w) as [[a|e] w1]; cbn [fst snd] in *.
  - split; assumption.
  - destruct (Hh e env w1) as [Hkeep2 Hout2].
    split; [eapply keeps_trans; eassumption | congruence].
Qed.

Lemma reports_print P l : reports P l (print l).
Proof.
  intros env w. split; [|reflexivity].
  apply (keeps_stdout P w w), keeps_refl.
Qed.

Lemma reports_bind P l {A B} (Q : A -> Prop) (m : IO A) (k : A -> IO B) :
  silent P m -> returns_only Q m -> (forall a, Q a -> reports P l (k a)) ->
  reports P l (io_bind m k).
Proof.
  intros Hm HQ Hk env w. unfold io_bind.
  destruct (Hm env w) as [Hkeep Hout]. specialize (HQ env w).
  destruct (m env w) as [[a|e] w1]; cbn [fst snd] in *.
  - destruct (Hk a (HQ a eq_refl) env w1) as [Hkeep2 Hout2].
    split; [eapply keeps_trans; eassumption | congruence].
  - split; [assumption | rewrite app_nil_r; assumption].
Qed.

Lemma reports_seq P l {A B} (m : IO A) (k : IO B) :
  silent P m -> reports P l k -> reports P l (io_bind m (fun _ => k)).
Proof.
  intros Hm Hk. apply reports_bind with (Q := fun _ => True);
    [exact Hm | apply returns_anything | intros; exact Hk].
Qed.

(** The [try] block of an emitter whose handlers print one line each. *)
Lemma emits_try_except P ok ko (body : IO unit) (handler : exception -> IO unit) :
  reports P ok body -> (forall e, handler e = print (ko e)) ->
  emits P ok ko body (try_except body handler).
Proof.
  intros Hb Hh env w. unfold emitter_step, try_except.
  destruct (Hb env w) as [Hkeep Hout].
  destruct (body env w) as [[[]|e] w1]; cbn [fst snd outcome_line] in *.
  - exists w1. split; [reflexivity|]. split; [exact Hkeep | exact Hout].
  - rewrite Hh. unfold print. eexists. split; [reflexivity|].
    rewrite app_nil_r in Hout. cbn [stdout]. rewrite Hout.
    split; [eapply keeps_stdout; exact Hkeep | reflexivity].
Qed.

(** [os.makedirs]: afterwards the directory exists, and no file changed. *)
Lemma makedirs_spec d env w :
  exists w', makedirs d env w = (Return tt, w')
    /\ is_Some (fs w' !! d) /\ stdout w' = stdout w
    /\ (forall d', is_Some (fs w !! d') -> is_Some (fs w' !! d'))
    /\ (forall p, read_file w' p = read_file w p)
    /\ (forall d', d' <> d -> fs w' !! d' = fs w !! d').
Proof.
  unfold makedirs. destruct (fs w !! d) as [files|] eqn:Hd.
  - exists w. rewrite Hd. repeat split; eauto.
  - eexists. split; [reflexivity|]. cbn. rewrite lookup_insert_eq.
    repeat split; eauto.
    + intros d' Hd'. destruct (decide (d = d')) as [<-|Hne].
      * rewrite lookup_insert_eq. eauto.
      * rewrite lookup_insert_ne by exact Hne. exact Hd'.
    + intros p. unfold read_file. cbn.
      destruct (decide (d = p.1)) as [<-|Hne].
      * rewrite lookup_insert_eq, Hd. apply lookup_empty.
      * rewrite lookup_insert_ne by exact Hne. reflexivity.
    + intros d' Hne. apply lookup_insert_ne. congruence.
Qed.

(** ** The platform *)

Lemma reports_console_print P l : reports P l (console_print l).
Proof.
  intros env w. unfold console_print, io_bind, attempt.
  destruct (env (Print l)); cbn [fst snd].
  - split; [apply keeps_refl | rewrite app_nil_r; reflexivity].
  - split; [|reflexivity]. apply (keeps_stdout P w w), keeps_refl.
Qed.

Lemma console_print_taken env w l :
  takes env l -> console_print l env w = print l env w.
Proof. intros H. unfold console_print, io_bind, attempt. rewrite H. reflexivity. Qed.

Lemma console_print_refused env w l e :
  env (Print l) = Some e -> console_print l env w = (Raise e, w).
Proof. intros H. unfold console_print, io_bind, attempt. rewrite H. reflexivity. Qed.

Lemma os_makedirs_made env w d :
  env (Makedirs d) = None -> os_makedirs d env w = makedirs d env w.
Proof. intros H. unfold os_makedirs, io_bind, attempt. rewrite H. reflexivity. Qed.

(** An emitter on any console, where the console takes the line of the
    handler: the failure of the [try] block is caught and reported. *)
Lemma try_except_step P ok ko (body : IO unit) (handler : exception -> IO unit)
    env w :
  reports P ok body ->
  (forall e w1, handler e env w1 = print (ko e) env w1) ->
  exists w', emitter_step P ok ko body (try_except body handler) env w w'.
Proof.
  intros Hb Hh. unfold emitter_step, try_except.
  destruct (Hb env w) as [Hkeep Hout].
  destruct (body env w) as [[[]|e] w1]; cbn [fst snd outcome_line] in *.
  - exists w1. split; [reflexivity|]. split; [exact Hkeep | exact Hout].
  - rewrite Hh. unfold print. eexists. split; [reflexivity|].
    rewrite app_nil_r in Hout. cbn [stdout]. rewrite Hout.
    split; [eapply keeps_stdout; exact Hkeep | reflexivity].
Qed.

End IOFacts.

(* ================================================================== *)
(** * Properties of the text operations *)
(* ================================================================== *)

Module TextFacts.
Import Py Spec IOFacts.

Lemma contains_app c a b : contains c (a +:+ b) = contains c a || contains c b.
Proof.
  induction a as [|x a IH]; simpl; [reflexivity|].
  rewrite IH. apply orb_assoc.
Qed.

Lemma all_chars_app P a b : all_chars P (a +:+ b) = all_chars P a && all_chars P b.
Proof.
  induction a as [|x a IH]; simpl; [reflexivity|].
  rewrite IH. apply andb_assoc.
Qed.

Lemma all_chars_contains P c s :
  all_chars P s = true -> P c = false -> contains c s = false.
Proof.
  intros Hs Hc. induction s as [|x s IH]; simpl in *; [reflexivity|].
  apply andb_true_iff in Hs as [Hx Hs]. rewrite (IH Hs), orb_false_r.
  destruct (Ascii.eqb_spec x c) as [->|]; [congruence | reflexivity].
Qed.

Lemma all_chars_impl (P Q : ascii -> bool) s :
  (forall c, P c = true -> Q c = true) -> all_chars P s = true -> all_chars Q s = true.
Proof.
  intros HPQ. induction s as [|x s IH]; simpl; [reflexivity|].
  intros H. apply andb_true_iff in H as [Hx Hs].
  rewrite (HPQ _ Hx), (IH Hs). reflexivity.
Qed.

Lemma split_nonempty c s : split c s <> [].
Proof.
  destruct s as [|x s]; simpl; [discriminate|].
  destruct (Ascii.eqb x c); [discriminate|]. destruct (split c s); discriminate.
Qed.

Lemma split_plain c s : contains c s = false -> split c s = [s].
Proof.
  induction s as [|x s IH]; simpl; [reflexivity|].
  intros H. apply orb_false_iff in H as [Hx Hs].
  rewrite Hx, (IH Hs). reflexivity.
Qed.

Lemma split_sep c s t :
  contains c s = false -> split c (s +:+ String c t) = s :: split c t.
Proof.
  induction s as [|x s IH]; simpl.
  - intros _. rewrite Ascii.eqb_refl. reflexivity.
  - intros H. apply orb_false_iff in H as [Hx Hs].
    rewrite Hx, (IH Hs). reflexivity.
Qed.

(** Splitting what [join] made gives the parts back, when no part
    holds the separator. *)
Lemma split_join c parts :
  parts <> [] -> Forall (fun f => contains c f = false) parts ->
  split c (join (String c EmptyString) parts) = parts.
Proof.
  intros Hne Hall. induction Hall as [|f fs Hf Hfs IH]; [congruence|].
  destruct fs as [|f' fs'].
  - simpl. apply split_plain, Hf.
  - change (join (String c EmptyString) (f :: f' :: fs'))
      with (f +:+ String c (join (String c EmptyString) (f' :: fs'))).
    rewrite split_sep by exact Hf. rewrite IH by discriminate. reflexivity.
Qed.

(** A text made of lines that each end in a line feed. *)
Lemma split_lines ls :
  Forall (fun l => contains LF l = false) ls ->
  split LF (String.concat EmptyString (List.map (fun l => l +:+ nl) ls))
  = ls ++ [EmptyString].
Proof.
  intros Hall. induction Hall as [|l ls Hl Hls IH]; [reflexivity|].
  cbn [List.map]. rewrite concat_empty_cons. unfold nl at 1.
  rewrite string_app_assoc. change (String LF EmptyString +:+ ?t) with (String LF t).
  rewrite split_sep by exact Hl. rewrite IH. reflexivity.
Qed.

Lemma last_snoc {A} (l : list A) (x d : A) : List.last (l ++ [x]) d = x.
Proof. induction l as [|y l IH]; [reflexivity|]. simpl. destruct (l ++ [x]) eqn:E;
  [destruct l; discriminate | exact IH]. Qed.

Lemma removelast_snoc {A} (l : list A) (x : A) : removelast (l ++ [x]) = l.
Proof. induction l as [|y l IH]; [reflexivity|]. simpl. destruct (l ++ [x]) eqn:E;
  [destruct l; discriminate | rewrite IH; reflexivity]. Qed.

Lemma lines_of_lines ls :
  Forall (fun l => contains LF l = false) ls ->
  lines (String.concat EmptyString (List.map (fun l => l +:+ nl) ls)) = ls.
Proof.
  intros Hall. unfold lines. rewrite (split_lines ls Hall).
  rewrite last_snoc. cbn. apply removelast_snoc.
Qed.

(** ** The text of numbers, booleans and dates *)

Lemma uint_digits d : all_chars is_digit (NilEmpty.string_of_uint d) = true.
Proof. induction d; simpl; [reflexivity | assumption ..]. Qed.

Lemma str_int_chars z : all_chars is_field_char (str_int z) = true.
Proof.
  assert (Hu : forall d, all_chars is_field_char (NilZero.string_of_uint d) = true).
  { intros d. destruct d; try reflexivity;
      (eapply all_chars_impl; [|apply uint_digits]);
      intros c; unfold is_digit, is_field_char; intros H;
      apply andb_true_iff in H as [H1 H2];
      apply Nat.leb_le in H1, H2;
      (replace (Nat.leb 48 (nat_of_ascii c)) with true by (symmetry; apply Nat.leb_le; lia));
      (replace (Nat.leb (nat_of_ascii c) 58) with true by (symmetry; apply Nat.leb_le; lia));
      reflexivity. }
  unfold str_int. destruct (Z.to_int z) as [d|d]; simpl; [apply Hu|].
  apply Hu.
Qed.

Lemma str_bool_chars b : all_chars is_field_char (str_bool b) = true.
Proof. destruct b; reflexivity. Qed.

(** A field made of field characters holds no comma, no line feed, no
    quote and no carriage return. *)
Lemma field_chars_plain s :
  all_chars is_field_char s = true ->
  contains "," s = false /\ contains LF s = false
  /\ contains DQ s = false /\ contains Pd.CR s = false.
Proof.
  intros H. repeat split; eapply all_chars_contains; try exact H; reflexivity.
Qed.

End TextFacts.

(* ================================================================== *)
(** * The decoder reads back what the encoder writes *)
(* ================================================================== *)

Module JsonFacts.
Import Py Spec IOFacts TextFacts.

(** ** Characters *)

Lemma follows_char c rest :
  follows (String c rest) = true ->
  is_digit c = false /\ starts_fraction (String c rest) = false.
Proof.
  destruct c as [[] [] [] [] [] [] [] []]; cbn; intros H;
    first [discriminate | split; reflexivity].
Qed.

Lemma value_start_char c :
  is_value_start c = true ->
  is_ws c = false /\ Ascii.eqb c "]" = false /\ Ascii.eqb c "}" = false.
Proof.
  destruct c as [[] [] [] [] [] [] [] []]; cbn; intros H;
    first [discriminate | repeat split; reflexivity].
Qed.

Lemma skip_ws_start s : starts_value s -> skip_ws s = s.
Proof.
  intros (c & s' & -> & Hc). apply value_start_char in Hc as (Hws & _).
  simpl. rewrite Hws. reflexivity.
Qed.

Lemma skip_ws_app a t :
  all_chars is_ws a = true ->
  (t = EmptyString \/ exists c t', t = String c t' /\ is_ws c = false) ->
  skip_ws (a +:+ t) = t.
Proof.
  intros Ha Ht. induction a as [|x a IH]; simpl in *.
  - destruct Ht as [->|(c & t' & -> & Hc)]; [reflexivity|].
    simpl. rewrite Hc. reflexivity.
  - apply andb_true_iff in Ha as [Hx Ha]. rewrite Hx. apply IH, Ha.
Qed.

Lemma spaces_ws n : all_chars is_ws (spaces n) = true.
Proof.
  unfold spaces. induction n as [|n IH]; [reflexivity|].
  cbn [repeat]. rewrite concat_empty_cons. exact IH.
Qed.

Lemma newline_indent_ws indent level :
  all_chars is_ws (newline_indent indent level) = true.
Proof.
  destruct indent as [n|]; [|reflexivity]. unfold newline_indent.
  rewrite all_chars_app, spaces_ws. reflexivity.
Qed.

(** ** Strings *)

Lemma scanstring_escape_char c t :
  scanstring (escape_char c +:+ t) = cons_char c (scanstring t).
Proof. destruct c as [[] [] [] [] [] [] [] []]; reflexivity. Qed.

Lemma scanstring_escape s rest :
  scanstring (escape_string s +:+ String DQ rest) = Some (s, rest).
Proof.
  induction s as [|c s IH]; [reflexivity|].
  cbn [escape_string]. rewrite string_app_assoc, scanstring_escape_char, IH.
  reflexivity.
Qed.

Lemma scanstring_encoded s rest :
  exists t, encode_basestring_ascii s +:+ rest = String DQ t
            /\ scanstring t = Some (s, rest).
Proof.
  exists (escape_string s +:+ String DQ rest). split.
  - unfold encode_basestring_ascii, quote. rewrite !string_app_assoc. reflexivity.
  - apply scanstring_escape.
Qed.

(** ** Integers *)

Lemma span_digits_all s rest :
  all_chars is_digit s = true ->
  (rest = EmptyString \/ exists c r, rest = String c r /\ is_digit c = false) ->
  span_digits (s +:+ rest) = (s, rest).
Proof.
  intros Hs Hr. induction s as [|x s IH]; simpl in *.
  - destruct Hr as [->|(c & r & -> & Hc)]; [reflexivity|].
    simpl. rewrite Hc. reflexivity.
  - apply andb_true_iff in Hs as [Hx Hs]. rewrite Hx, (IH Hs). reflexivity.
Qed.

Lemma follows_ends rest :
  follows rest = true ->
  (rest = EmptyString \/ exists c r, rest = String c r /\ is_digit c = false)
  /\ starts_fraction rest = false.
Proof.
  destruct rest as [|c r]; [intros _; split; [left|]; reflexivity|].
  intros H. apply follows_char in H as [Hd Hf]. split; [right; eauto | exact Hf].
Qed.

(** The digits of a positive number start with a digit other than 0. *)
Lemma pos_digits_head p :
  exists c s, NilEmpty.string_of_uint (Pos.to_uint p) = String c s
              /\ is_digit c = true /\ Ascii.eqb c "0" = false.
Proof.
  pose proof (DecimalPos.Unsigned.to_uint_nonzero p) as Hnz.
  pose proof (DecimalPos.Unsigned.to_of (Pos.to_uint p)) as Hn.
  rewrite DecimalPos.Unsigned.of_to in Hn. cbn [N.to_uint] in Hn.
  destruct (Pos.to_uint p) as [|d|d|d|d|d|d|d|d|d|d] eqn:E;
    try (eexists _, _; split; [reflexivity | split; reflexivity]).
  - exfalso. apply (DecimalPos.Unsigned.to_uint_nonnil p). exact E.
  - exfalso. rewrite DecimalFacts.unorm_D0 in Hn.
    destruct d as [|d|d|d|d|d|d|d|d|d|d]; [apply Hnz; reflexivity | ..];
      match type of Hn with
      | ?l = unorm ?u =>
          pose proof (DecimalFacts.nb_digits_unorm u ltac:(discriminate)) as Hle;
          rewrite <- Hn in Hle; cbn [nb_digits] in Hle; lia
      end.
Qed.

Lemma pos_digits_value p :
  int_of_digits (NilEmpty.string_of_uint (Pos.to_uint p)) = Some (Z.pos p).
Proof.
  unfold int_of_digits. rewrite NilEmpty.usu. f_equal.
  unfold Z.of_uint. rewrite DecimalPos.Unsigned.of_to. reflexivity.
Qed.

Lemma scan_nat_pos p rest :
  follows rest = true ->
  scan_nat (NilEmpty.string_of_uint (Pos.to_uint p) +:+ rest) = Some (Z.pos p, rest).
Proof.
  intros Hf. apply follows_ends in Hf as [Hend Hfrac].
  destruct (pos_digits_head p) as (c & s & Hs & Hd & H0).
  pose proof (uint_digits (Pos.to_uint p)) as Hall.
  pose proof (pos_digits_value p) as Hval.
  pose proof (span_digits_all _ rest Hall Hend) as Hspan.
  rewrite Hs in *. unfold scan_nat. cbn [String.append] in *.
  rewrite H0, Hd, Hspan, Hfrac, Hval. reflexivity.
Qed.

Lemma scan_number_str_int z rest :
  follows rest = true -> scan_number (str_int z +:+ rest) = Some (z, rest).
Proof.
  intros Hf. unfold str_int. destruct z as [|p|p]; cbn [Z.to_int NilZero.string_of_int].
  - cbn. destruct (follows_ends rest Hf) as [_ ->]. reflexivity.
  - assert (Hs : NilZero.string_of_uint (Pos.to_uint p)
                 = NilEmpty.string_of_uint (Pos.to_uint p)).
    { pose proof (DecimalPos.Unsigned.to_uint_nonnil p).
      destruct (Pos.to_uint p); [congruence | reflexivity ..]. }
    rewrite Hs. destruct (pos_digits_head p) as (c & s & Hc & Hd & H0).
    pose proof (scan_nat_pos p rest Hf) as Hscan. rewrite Hc in *.
    unfold scan_number. cbn [String.append] in *.
    replace (Ascii.eqb c "-") with false; [exact Hscan|].
    destruct c as [[] [] [] [] [] [] [] []]; first [discriminate | reflexivity].
  - assert (Hs : NilZero.string_of_uint (Pos.to_uint p)
                 = NilEmpty.string_of_uint (Pos.to_uint p)).
    { pose proof (DecimalPos.Unsigned.to_uint_nonnil p).
      destruct (Pos.to_uint p); [congruence | reflexivity ..]. }
    rewrite Hs. unfold scan_number. cbn [String.append]. cbn [Ascii.eqb Bool.eqb].
    rewrite (scan_nat_pos p rest Hf). reflexivity.
Qed.

Lemma str_int_start z :
  exists c s, str_int z = String c s
              /\ (is_digit c = true \/ c = "-"%char).
Proof.
  unfold str_int. destruct z as [|p|p]; cbn [Z.to_int NilZero.string_of_int].
  - eexists _, _. split; [reflexivity | left; reflexivity].
  - destruct (pos_digits_head p) as (c & s & Hc & Hd & _).
    pose proof (DecimalPos.Unsigned.to_uint_nonnil p).
    exists c, s. split; [|left; exact Hd].
    rewrite <- Hc. destruct (Pos.to_uint p); [congruence | reflexivity ..].
  - eexists _, _. split; [reflexivity | right; reflexivity].
Qed.

(** ** The shape of encoded values *)

Lemma jvalue_nested_ind (P : jvalue -> Prop) :
  P JNull -> (forall b, P (JBool b)) -> (forall z, P (JInt z)) ->
  (forall s, P (JStr s)) ->
  (forall items, Forall P items -> P (JList items)) ->
  (forall members, Forall (fun kv => P kv.2) members -> P (JDict members)) ->
  forall v, P v.
Proof.
  intros Hnull Hbool Hint Hstr Hlist Hdict. fix IH 1.
  intros [|b|z|s|items|members]; [exact Hnull | apply Hbool | apply Hint | apply Hstr | |].
  - apply Hlist. induction items as [|x items IHl]; constructor; [apply IH | exact IHl].
  - apply Hdict. induction members as [|[k x] members IHl]; constructor;
      [apply IH | exact IHl].
Qed.

Lemma starts_value_app a b : starts_value a -> starts_value (a +:+ b).
Proof. intros (c & s' & -> & Hc). exists c, (s' +:+ b). split; [reflexivity | exact Hc]. Qed.

Lemma starts_value_ws s :
  starts_value s ->
  s = EmptyString \/ exists c t', s = String c t' /\ is_ws c = false.
Proof.
  intros (c & s' & -> & Hc). right. exists c, s'. split; [reflexivity|].
  apply value_start_char, Hc.
Qed.

Lemma encode_start indent level v : starts_value (encode indent level v).
Proof.
  destruct v as [|[]|z|s|[|x items]|[|kv members]];
    try (eexists _, _; split; [reflexivity | reflexivity]).
  destruct (str_int_start z) as (c & s & Hs & Hc). exists c, s.
  split; [exact Hs|]. destruct Hc as [Hd|Hm].
  - unfold is_value_start. rewrite Hd. reflexivity.
  - rewrite Hm. reflexivity.
Qed.

Lemma join_start sep x xs : starts_value x -> starts_value (join sep (x :: xs)).
Proof.
  intros H. destruct xs as [|y ys]; [exact H|].
  change (join sep (x :: y :: ys)) with (x +:+ sep +:+ join sep (y :: ys)).
  apply starts_value_app, H.
Qed.

(** The separator of two items is a comma followed by white space. *)
Lemma separator_shape indent level :
  exists ws, item_separator indent +:+ newline_indent indent level = String "," ws
             /\ all_chars is_ws ws = true.
Proof.
  destruct indent as [n|].
  - exists (newline_indent (Some n) level). split; [reflexivity|].
    apply newline_indent_ws.
  - exists " ". split; reflexivity.
Qed.

Lemma follows_closing indent level c rest :
  Ascii.eqb c "]" || Ascii.eqb c "}" = true ->
  follows (newline_indent indent level +:+ String c rest) = true
  /\ skip_ws (newline_indent indent level +:+ String c rest) = String c rest.
Proof.
  intros Hc. split.
  - destruct indent as [n|]; [reflexivity|]. cbn.
    apply orb_true_iff in Hc as [-> | ->]; rewrite ?orb_true_r; reflexivity.
  - apply skip_ws_app; [apply newline_indent_ws|]. right. exists c, rest.
    split; [reflexivity|].
    destruct c as [[] [] [] [] [] [] [] []]; first [discriminate | reflexivity].
Qed.

(** ** Dictionaries with distinct keys *)

Lemma dict_set_fresh d k v :
  ~ In k (List.map fst d) -> dict_set d k v = d ++ [(k, v)].
Proof.
  induction d as [|[k' v'] d IH]; [reflexivity|]. cbn [List.map fst In dict_set].
  intros H. destruct (String.eqb_spec k' k) as [->|Hne]; [tauto|].
  rewrite IH by tauto. reflexivity.
Qed.

Lemma dict_of_pairs_distinct members :
  List.NoDup (List.map fst members) -> dict_of_pairs members = members.
Proof.
  unfold dict_of_pairs.
  assert (H : forall acc, List.NoDup (List.map fst (acc ++ members)) ->
            fold_left (fun d kv => dict_set d kv.1 kv.2) members acc = acc ++ members).
  { induction members as [|[k v] members IH]; intros acc Hnd.
    - symmetry. apply app_nil_r.
    - cbn [fold_left fst snd]. rewrite dict_set_fresh.
      + rewrite IH; rewrite <- app_assoc; [reflexivity | exact Hnd].
      + rewrite List.map_app in Hnd. cbn [List.map fst] in Hnd.
        apply NoDup_remove_2 in Hnd. intros Hin. apply Hnd.
        apply in_or_app. left. exact Hin. }
  intros Hnd. apply (H [] Hnd).
Qed.

(** ** One step of the decoder *)

Lemma scan_once_string fuel t :
  scan_once (S fuel) (String DQ t)
  = match scanstring t with
    | Some (str, rest) => Some (JStr str, rest)
    | None => None
    end.
Proof. reflexivity. Qed.

Lemma scan_once_number fuel c s :
  is_digit c = true \/ c = "-"%char ->
  scan_once (S fuel) (String c s)
  = match scan_number (String c s) with
    | Some (z, rest) => Some (JInt z, rest)
    | None => None
    end.
Proof.
  intros [H| ->]; [|reflexivity].
  destruct c as [[] [] [] [] [] [] [] []]; first [discriminate | reflexivity].
Qed.

Lemma scan_once_list fuel rest body :
  skip_ws rest = body -> starts_value body ->
  scan_once (S fuel) (String "[" rest)
  = match array_items fuel body with
    | Some (items, rest') => Some (JList items, rest')
    | None => None
    end.
Proof.
  intros Hs (c & t & Hb & Hc). apply value_start_char in Hc as (_ & Hc & _).
  cbn. rewrite Hs, Hb, Hc. reflexivity.
Qed.

Lemma scan_once_dict fuel rest body :
  skip_ws rest = body -> starts_value body ->
  scan_once (S fuel) (String "{" rest)
  = match object_items fuel body with
    | Some (pairs, rest') => Some (JDict (dict_of_pairs pairs), rest')
    | None => None
    end.
Proof.
  intros Hs (c & t & Hb & Hc). apply value_start_char in Hc as (_ & _ & Hc).
  cbn. rewrite Hs, Hb, Hc. reflexivity.
Qed.

Lemma array_items_step fuel s :
  array_items (S fuel) s
  = match scan_once fuel s with
    | Some (v, rest) =>
        match skip_ws rest with
        | String c rest' =>
            if Ascii.eqb c "]" then Some ([v], rest')
            else if Ascii.eqb c "," then
              match array_items fuel (skip_ws rest') with
              | Some (vs, rest'') => Some (v :: vs, rest'')
              | None => None
              end
            else None
        | EmptyString => None
        end
    | None => None
    end.
Proof. reflexivity. Qed.

Lemma object_items_step fuel t :
  object_items (S fuel) (String DQ t)
  = match scanstring t with
    | Some (key, rest1) =>
        match skip_ws rest1 with
        | String c rest2 =>
            if Ascii.eqb c ":" then
              match scan_once fuel (skip_ws rest2) with
              | Some (v, rest3) =>
                  match skip_ws rest3 with
                  | String d rest4 =>
                      if Ascii.eqb d "}" then Some ([(key, v)], rest4)
                      else if Ascii.eqb d "," then
                        match object_items fuel (skip_ws rest4) with
                        | Some (kvs, rest5) => Some ((key, v) :: kvs, rest5)
                        | None => None
                        end
                      else None
                  | EmptyString => None
                  end
              | None => None
              end
            else None
        | EmptyString => None
        end
    | None => None
    end.
Proof. reflexivity. Qed.

Lemma array_items_last fuel s v r rest :
  scan_once fuel s = Some (v, r) -> skip_ws r = String "]" rest ->
  array_items (S fuel) s = Some ([v], rest).
Proof. intros H1 H2. rewrite array_items_step, H1, H2. reflexivity. Qed.

Lemma array_items_more fuel s v r :
  scan_once fuel s = Some (v, String "," r) ->
  array_items (S fuel) s
  = match array_items fuel (skip_ws r) with
    | Some (vs, rest) => Some (v :: vs, rest)
    | None => None
    end.
Proof. intros H. rewrite array_items_step, H. reflexivity. Qed.

Lemma object_items_last fuel t key r2 v r3 rest :
  scanstring t = Some (key, String ":" r2) ->
  scan_once fuel (skip_ws r2) = Some (v, r3) -> skip_ws r3 = String "}" rest ->
  object_items (S fuel) (String DQ t) = Some ([(key, v)], rest).
Proof.
  intros H1 H2 H3. rewrite object_items_step, H1.
  change (skip_ws (String ":" r2)) with (String ":" r2). cbv iota beta.
  change (Ascii.eqb ":" ":") with true. cbv iota. rewrite H2, H3. reflexivity.
Qed.

Lemma object_items_more fuel t key r2 v r4 :
  scanstring t = Some (key, String ":" r2) ->
  scan_once fuel (skip_ws r2) = Some (v, String "," r4) ->
  object_items (S fuel) (String DQ t)
  = match object_items fuel (skip_ws r4) with
    | Some (kvs, rest) => Some ((key, v) :: kvs, rest)
    | None => None
    end.
Proof.
  intros H1 H2. rewrite object_items_step, H1.
  change (skip_ws (String ":" r2)) with (String ":" r2). cbv iota beta.
  change (Ascii.eqb ":" ":") with true. cbv iota. rewrite H2. reflexivity.
Qed.

(** ** Reading back an encoded value *)

Lemma array_items_encode indent level items :
  Forall reads_back items -> items <> [] ->
  forall fuel rest,
    (length items + list_max (List.map need items) <= fuel)%nat ->
    array_items fuel
      (join (item_separator indent +:+ newline_indent indent (S level))
            (List.map (encode indent (S level)) items)
       +:+ newline_indent indent level +:+ String "]" rest)
    = Some (items, rest).
Proof.
  intros Hall. induction Hall as [|x xs Hx Hxs IH]; [congruence|].
  intros _ fuel rest Hfuel. cbn [length List.map list_max fold_right] in Hfuel.
  destruct fuel as [|fuel]; [lia|].
  destruct (follows_closing indent level "]" rest eq_refl) as [Hfol Hskip].
  destruct xs as [|y ys].
  - cbn [List.map join String.concat].
    eapply array_items_last; [|exact Hskip].
    apply Hx; [exact Hfol | cbn in Hfuel; lia].
  - cbn [List.map].
    change (join ?sep (?a :: ?b :: ?l)) with (a +:+ sep +:+ join sep (b :: l)).
    destruct (separator_shape indent (S level)) as (ws & Hsep & Hws).
    specialize (IH ltac:(discriminate) fuel rest). cbn [List.map] in IH.
    rewrite Hsep in *. rewrite !string_app_assoc. cbn [String.append].
    erewrite array_items_more by (apply Hx; [reflexivity | lia]).
    rewrite skip_ws_app;
      [| exact Hws
       | apply starts_value_ws, starts_value_app, join_start, encode_start ].
    rewrite IH; [reflexivity|]. unfold list_max in *. cbn [List.map] in *. lia.
Qed.

Lemma object_items_encode indent level members :
  Forall (fun kv => reads_back kv.2) members -> members <> [] ->
  forall fuel rest,
    (length members
     + list_max (List.map (fun kv => match kv with (_, x) => need x end) members)
     <= fuel)%nat ->
    object_items fuel
      (join (item_separator indent +:+ newline_indent indent (S level))
            (List.map (fun kv => match kv with
                                 | (k, x) => encode_basestring_ascii k
                                             +:+ key_separator
                                             +:+ encode indent (S level) x
                                 end) members)
       +:+ newline_indent indent level +:+ String "}" rest)
    = Some (members, rest).
Proof.
  intros Hall. induction Hall as [|[k x] xs Hx Hxs IH]; [congruence|].
  intros _ fuel rest Hfuel. cbn [length List.map list_max fold_right] in Hfuel.
  cbn [snd] in Hx.
  destruct fuel as [|fuel]; [lia|].
  destruct (follows_closing indent level "}" rest eq_refl) as [Hfol Hskip].
  destruct xs as [|[k' y] ys].
  - cbn [List.map join String.concat]. rewrite !string_app_assoc.
    unfold key_separator. cbn [String.append].
    match goal with
    | |- object_items _ (encode_basestring_ascii k +:+ ?r) = _ =>
        destruct (scanstring_encoded k r) as (t & -> & Hscan)
    end.
    eapply object_items_last; [exact Hscan | | exact Hskip].
    change (skip_ws (String " " ?r)) with (skip_ws r).
    rewrite (skip_ws_start _ (starts_value_app _ _ (encode_start _ _ _))).
    apply Hx; [exact Hfol | lia].
  - cbn [List.map].
    change (join ?sep (?a :: ?b :: ?l)) with (a +:+ sep +:+ join sep (b :: l)).
    destruct (separator_shape indent (S level)) as (ws & Hsep & Hws).
    specialize (IH ltac:(discriminate) fuel rest). cbn [List.map] in IH.
    rewrite Hsep in *. rewrite !string_app_assoc.
    unfold key_separator at 1. cbn [String.append].
    match goal with
    | |- object_items _ (encode_basestring_ascii k +:+ ?r) = _ =>
        destruct (scanstring_encoded k r) as (t & -> & Hscan)
    end.
    erewrite object_items_more;
      [| exact Hscan
       | change (skip_ws (String " " ?r)) with (skip_ws r);
         rewrite (skip_ws_start _ (starts_value_app _ _ (encode_start _ _ _)));
         apply Hx; [reflexivity | lia] ].
    rewrite skip_ws_app; [| exact Hws |].
    + rewrite IH; [reflexivity|]. unfold list_max in *. cbn [List.map] in *. lia.
    + apply starts_value_ws, starts_value_app, join_start.
      unfold encode_basestring_ascii, quote. rewrite !string_app_assoc.
      eexists _, _. split; reflexivity.
Qed.

Lemma distinct_list items :
  distinct_keys (JList items) -> Forall distinct_keys items.
Proof.
  cbn [distinct_keys]. induction items as [|x items IH]; [constructor|].
  intros [Hx Hl]. constructor; [exact Hx | apply IH, Hl].
Qed.

Lemma distinct_dict members :
  distinct_keys (JDict members) ->
  List.NoDup (List.map fst members) /\ Forall (fun kv => distinct_keys kv.2) members.
Proof.
  cbn [distinct_keys]. intros [Hnd Hall]. split; [exact Hnd|]. clear Hnd.
  induction members as [|[k x] members IH]; [constructor|].
  destruct Hall as [Hx Hl]. constructor; [exact Hx | apply IH, Hl].
Qed.

Lemma Forall_modus {A} (P Q : A -> Prop) l :
  Forall (fun x => P x -> Q x) l -> Forall P l -> Forall Q l.
Proof.
  induction 1 as [|x l Hx _ IH]; intros HP; [constructor|].
  apply Forall_cons in HP as [HPx HPl]. constructor; auto.
Qed.

(** The decoder reads back every encoded value whose dictionaries have
    distinct keys. *)
Theorem scan_encode (v : jvalue) : distinct_keys v -> reads_back v.
Proof.
  induction v as [|b|z|s|items IH|members IH] using jvalue_nested_ind; intros Hd.
  - intros indent level rest [|fuel] _ Hn; [cbn in Hn; lia | reflexivity].
  - intros indent level rest [|fuel] _ Hn; [cbn in Hn; lia|]. destruct b; reflexivity.
  - intros indent level rest [|fuel] Hf Hn; [cbn in Hn; lia|]. cbn [encode].
    pose proof (scan_number_str_int z rest Hf) as Hscan.
    destruct (str_int_start z) as (c & s & Hs & Hc). rewrite Hs in *.
    cbn [String.append] in *. rewrite scan_once_number by exact Hc.
    rewrite Hscan. reflexivity.
  - intros indent level rest [|fuel] _ Hn; [cbn in Hn; lia|]. cbn [encode].
    destruct (scanstring_encoded s rest) as (t & -> & Hscan).
    rewrite scan_once_string, Hscan. reflexivity.
  - pose proof (Forall_modus _ _ _ IH (distinct_list _ Hd)) as Hitems.
    intros indent level rest [|fuel] Hf Hn; [cbn in Hn; lia|].
    destruct items as [|x items]; [reflexivity|].
    cbn [need] in Hn. cbn [encode]. rewrite !string_app_assoc.
    cbn [String.append].
    match goal with
    | |- scan_once _ (String "[" (?ws +:+ ?body)) = _ =>
        assert (Hstart : starts_value body)
          by (apply starts_value_app, join_start, encode_start);
        pose proof (skip_ws_app ws body (newline_indent_ws _ _)
                      (starts_value_ws _ Hstart)) as Hskip
    end.
    rewrite (scan_once_list fuel _ _ Hskip Hstart).
    rewrite array_items_encode;
      [reflexivity | exact Hitems | discriminate | lia].
  - destruct (distinct_dict _ Hd) as [Hnd Hvals].
    pose proof (Forall_modus _ _ _ IH Hvals) as Hitems.
    intros indent level rest [|fuel] Hf Hn; [cbn in Hn; lia|].
    destruct members as [|[k x] members]; [reflexivity|].
    cbn [need] in Hn. cbn [encode]. rewrite !string_app_assoc.
    cbn [String.append].
    match goal with
    | |- scan_once _ (String "{" (?ws +:+ ?body)) = _ =>
        assert (Hstart : starts_value body)
          by (apply starts_value_app, join_start;
              unfold encode_basestring_ascii, quote; rewrite !string_app_assoc;
              eexists _, _; split; reflexivity);
        pose proof (skip_ws_app ws body (newline_indent_ws _ _)
                      (starts_value_ws _ Hstart)) as Hskip
    end.
    rewrite (scan_once_dict fuel _ _ Hskip Hstart).
    rewrite object_items_encode;
      [ rewrite (dict_of_pairs_distinct _ Hnd); reflexivity
      | exact Hitems | discriminate | lia ].
Qed.

(** ** Enough fuel *)

Lemma length_app a b : String.length (a +:+ b) = (String.length a + String.length b)%nat.
Proof. induction a as [|x a IH]; simpl; [reflexivity | rewrite IH; reflexivity]. Qed.

Lemma join_need_bound {A} (m : A -> nat) (e : A -> string) sep xs :
  (1 <= String.length sep)%nat ->
  Forall (fun a => (m a <= String.length (e a))%nat) xs -> xs <> [] ->
  (length xs + list_max (List.map m xs)
   <= S (String.length (join sep (List.map e xs))))%nat.
Proof.
  intros Hsep Hall. induction Hall as [|x xs Hx Hxs IH]; [congruence|]. intros _.
  destruct xs as [|y ys].
  - cbn. lia.
  - specialize (IH ltac:(discriminate)). cbn [List.map] in *.
    change (join ?s (?a :: ?b :: ?l)) with (a +:+ s +:+ join s (b :: l)).
    rewrite !length_app. unfold list_max in *. cbn [fold_right length] in *. lia.
Qed.

Lemma need_le_length indent level v :
  (need v <= String.length (encode indent level v))%nat.
Proof.
  revert level.
  induction v as [|b|z|s|items IH|members IH] using jvalue_nested_ind; intros level.
  - cbn. lia.
  - destruct b; cbn; lia.
  - destruct (str_int_start z) as (c & s & Hs & _). cbn [encode need]. rewrite Hs.
    cbn. lia.
  - cbn. lia.
  - destruct items as [|x items]; [cbn; lia|]. cbn [need encode].
    destruct (separator_shape indent (S level)) as (ws & Hsep & _).
    pose proof (join_need_bound need (encode indent (S level))
                  (item_separator indent +:+ newline_indent indent (S level))
                  (x :: items)) as Hb.
    rewrite Hsep in Hb at 1. specialize (Hb ltac:(cbn; lia)).
    rewrite !length_app. cbn [String.length].
    assert (Hall : Forall (fun a => (need a <= String.length (encode indent (S level) a))%nat)
                          (x :: items))
      by (eapply Forall_impl; [exact IH|]; cbn; intros a Ha; apply Ha).
    specialize (Hb Hall ltac:(discriminate)). lia.
  - destruct members as [|[k x] members]; [cbn; lia|]. cbn [need encode].
    destruct (separator_shape indent (S level)) as (ws & Hsep & _).
    pose proof (join_need_bound
                  (fun kv : string * jvalue => match kv with (_, x) => need x end)
                  (fun kv : string * jvalue =>
                     match kv with
                     | (k, x) => encode_basestring_ascii k +:+ key_separator
                                 +:+ encode indent (S level) x
                     end)
                  (item_separator indent +:+ newline_indent indent (S level))
                  ((k, x) :: members)) as Hb.
    rewrite Hsep in Hb at 1. specialize (Hb ltac:(cbn; lia)).
    rewrite !length_app. cbn [String.length].
    assert (Hall : Forall (fun kv : string * jvalue =>
                             (match kv with (_, x) => need x end
                              <= String.length
                                   (match kv with
                                    | (k, x) => encode_basestring_ascii k +:+ key_separator
                                                +:+ encode indent (S level) x
                                    end))%nat) ((k, x) :: members)).
    { eapply Forall_impl; [exact IH|]. cbv beta. intros [k' x'] Ha. cbn [snd] in Ha.
      rewrite !length_app. specialize (Ha (S level)). lia. }
    specialize (Hb Hall ltac:(discriminate)). lia.
Qed.

(** [json.loads] reads back what [json.dumps] wrote, with or without
    indentation. *)
Theorem loads_encode indent (v : jvalue) :
  distinct_keys v -> loads (encode indent 0 v) = Some v.
Proof.
  intros Hd. unfold loads.
  rewrite (skip_ws_start _ (encode_start indent 0%nat v)).
  pose proof (scan_encode v Hd indent 0%nat EmptyString
                (2 * String.length (encode indent 0 v) + 2)%nat eq_refl) as H.
  rewrite string_app_nil_r in H. rewrite H; [reflexivity|].
  pose proof (need_le_length indent 0%nat v). lia.
Qed.

End JsonFacts.

(* ================================================================== *)
(** * The runs of [create_test_files.py] *)
(* ================================================================== *)

Module CreateRun.
Import Py Spec IOFacts CreateTestFiles.

(** The listing loop on a console that takes the lines of the listing. *)
Lemma listing_print_on (say : line -> IO unit) (d : string)
    (suffixes names : list string) env F out :
  (forall file n w, say (Listed file n) env w = print (Listed file n) env w) ->
  for_io names
    (fun file =>
       if existsb (endswith file) suffixes
       then fun env w => say (Listed file (getsize w (d, file))) env w
       else io_ret tt) env (mk_world F out)
  = (Return tt,
     mk_world F (out ++ listing (mk_world F out) d names suffixes)).
Proof.
  intros Hsay. revert out. induction names as [|x xs IH]; intros out.
  - cbn. rewrite app_nil_r. reflexivity.
  - cbn [for_io]. unfold io_bind, listing. cbn [List.filter].
    destruct (existsb (endswith x) suffixes).
    + rewrite Hsay. unfold print at 1. cbn [fs stdout]. rewrite IH. cbn [List.map].
      rewrite <- app_assoc. reflexivity.
    + unfold io_ret at 1. rewrite IH. reflexivity.
Qed.

Lemma listing_print (d : string) (suffixes names : list string) env F out :
  for_io names
    (fun file =>
       if existsb (endswith file) suffixes
       then fun env w => print (Listed file (getsize w (d, file))) env w
       else io_ret tt) env (mk_world F out)
  = (Return tt,
     mk_world F (out ++ listing (mk_world F out) d names suffixes)).
Proof. apply (listing_print_on print). reflexivity. Qed.

Lemma report_on_spec (say : line -> IO unit) env w :
  (forall file n w, say (Listed file n) env w = print (Listed file n) env w) ->
  report_on say env w
  = (Return tt,
     mk_world (fs w) (stdout w ++ listing w out_dir (sorted (listdir w out_dir))
                                          listed_suffixes)).
Proof. intros H. unfold report_on. destruct w as [F out]. apply listing_print_on, H. Qed.

Lemma report_spec env w :
  report env w
  = (Return tt,
     mk_world (fs w) (stdout w ++ listing w out_dir (sorted (listdir w out_dir))
                                          listed_suffixes)).
Proof. apply report_on_spec. reflexivity. Qed.

(** The [try] blocks, on any console whose [print] writes its line when
    it returns and nothing when it raises. *)
Section Console.
Variable say : line -> IO unit.
Hypothesis say_reports : forall P l, reports P l (say l).

Lemma jsonl_block_reports data :
  reports (only "sample.jsonl") (Generated "sample.jsonl") (jsonl_block_on say data).
Proof.
  eapply reports_bind; [apply silent_open_w; reflexivity | apply open_w_returns |].
  intros f ->. apply reports_seq; [|apply say_reports].
  apply silent_for_io. intros r. apply silent_write. reflexivity.
Qed.

Lemma ndjson_block_reports data :
  reports (only "sample.ndjson") (Generated "sample.ndjson") (ndjson_block_on say data).
Proof.
  eapply reports_bind; [apply silent_open_w; reflexivity | apply open_w_returns |].
  intros f ->. apply reports_seq; [|apply say_reports].
  apply silent_for_io. intros r. apply silent_write. reflexivity.
Qed.

Lemma csv_block_reports data :
  reports (only "sample.csv") (Generated "sample.csv") (csv_block_on say data).
Proof.
  eapply reports_bind; [apply silent_open_w; reflexivity | apply open_w_returns |].
  intros f ->. apply reports_seq; [apply silent_write; reflexivity|].
  apply reports_seq; [|apply say_reports].
  apply silent_for_io. intros r. apply silent_write. reflexivity.
Qed.

Lemma json_block_reports data :
  reports (only "sample.json") (Generated "sample.json") (json_block_on say data).
Proof.
  eapply reports_bind; [apply silent_open_w; reflexivity | apply open_w_returns |].
  intros f ->. apply reports_seq; [apply silent_attempt|].
  apply reports_seq; [apply silent_write; reflexivity | apply say_reports].
Qed.

(** Every run in which nothing fails outside the [try] blocks: the
    directory is made, the four emitters run in turn, each returning
    after one status line, and the script reaches its end. *)
Lemma run_completes_on (mk : string -> IO unit) (g : rng) (env : faults) (w : world) :
  (forall w, mk out_dir env w = makedirs out_dir env w) ->
  (forall s w, say (Text s) env w = print (Text s) env w) ->
  (forall file n w, say (Listed file n) env w = print (Listed file n) env w) ->
  (forall what e w, say (Failed what e) env w = print (Failed what e) env w) ->
  create_completes_on say mk g env w.
Proof.
  intros Hmk Htext Hlisted Hfailed.
  unfold create_completes_on, run_on, main_on. cbv zeta.
  destruct (makedirs_spec out_dir env w) as (wm & E0 & Hdir & Hout0 & Hd0 & Hf0 & Ho0).
  rewrite <- Hmk in E0.
  erewrite io_bind_return by exact E0.
  erewrite io_bind_return by (rewrite Htext; reflexivity).
  set (w0 := mk_world (fs wm) (stdout wm ++ [Text "Generating test files..."])).
  destruct (try_except_step _ _ (Failed "JSONL") _
              (fun e => say (Failed "JSONL" e)) env w0
              (jsonl_block_reports (data g)) (fun e w1 => Hfailed _ e w1)) as (w1 & S1).
  erewrite io_bind_return by apply S1.
  destruct (try_except_step _ _ (Failed "NDJSON") _
              (fun e => say (Failed "NDJSON" e)) env w1
              (ndjson_block_reports (data g)) (fun e w1 => Hfailed _ e w1)) as (w2 & S2).
  erewrite io_bind_return by apply S2.
  destruct (try_except_step _ _ (Failed "CSV") _
              (fun e => say (Failed "CSV" e)) env w2
              (csv_block_reports (data g)) (fun e w1 => Hfailed _ e w1)) as (w3 & S3).
  erewrite io_bind_return by apply S3.
  destruct (try_except_step _ _ (Failed "JSON") _
              (fun e => say (Failed "JSON" e)) env w3
              (json_block_reports (data g)) (fun e w1 => Hfailed _ e w1)) as (w4 & S4).
  erewrite io_bind_return by apply S4.
  erewrite io_bind_return by (rewrite Htext; reflexivity).
  erewrite io_bind_return by (rewrite Htext; reflexivity).
  erewrite io_bind_return by (apply report_on_spec, Hlisted).
  erewrite io_bind_return by (rewrite Htext; reflexivity).
  erewrite io_bind_return by (rewrite Htext; reflexivity).
  rewrite Htext.
  exists w0, w1, w2, w3, w4.
  split. { unfold prepared. subst w0. cbn [fs stdout]. rewrite Hout0.
           repeat split; assumption. }
  split; [exact S1|]. split; [exact S2|]. split; [exact S3|]. split; [exact S4|].
  unfold print, create_closing. cbn [fs stdout exit_status].
  rewrite <- !app_assoc. reflexivity.
Qed.

End Console.

Lemma emit_jsonl_emits data :
  emits (only "sample.jsonl") (Generated "sample.jsonl") (Failed "JSONL")
        (jsonl_block data) (emit_jsonl data).
Proof.
  apply emits_try_except; [|reflexivity].
  apply jsonl_block_reports. intros P l. apply reports_print.
Qed.

Lemma emit_ndjson_emits data :
  emits (only "sample.ndjson") (Generated "sample.ndjson") (Failed "NDJSON")
        (ndjson_block data) (emit_ndjson data).
Proof.
  apply emits_try_except; [|reflexivity].
  apply ndjson_block_reports. intros P l. apply reports_print.
Qed.

Lemma emit_csv_emits data :
  emits (only "sample.csv") (Generated "sample.csv") (Failed "CSV")
        (csv_block data) (emit_csv data).
Proof.
  apply emits_try_except; [|reflexivity].
  apply csv_block_reports. intros P l. apply reports_print.
Qed.

Lemma emit_json_emits data :
  emits (only "sample.json") (Generated "sample.json") (Failed "JSON")
        (json_block data) (emit_json data).
Proof.
  apply emits_try_except; [|reflexivity].
  apply json_block_reports. intros P l. apply reports_print.
Qed.

(** Every run on a console that takes every line: the directory is made,
    the four emitters run in turn, each returning after one status line,
    and the script reaches its end. *)
Lemma run_completes (g : rng) (env : faults) (w : world) :
  create_run_completes g env w.
Proof.
  apply (run_completes_on print (fun P l => reports_print P l) makedirs g env w);
    reflexivity.
Qed.

(** The script with every failure point, where nothing fails outside
    the [try] blocks and the console takes the lines of the handlers. *)
Lemma script_completes (g : rng) (env : faults) (w : world) :
  frame_works env -> handlers_report env ->
  create_completes_on console_print os_makedirs g env w.
Proof.
  intros (Hmk & Htext & Hlisted) (Hfailed & _).
  apply (run_completes_on console_print (fun P l => reports_console_print P l)).
  - intros w1. apply os_makedirs_made, Hmk.
  - intros s w1. apply console_print_taken, Htext.
  - intros file n w1. apply console_print_taken, Hlisted.
  - intros what e w1. apply console_print_taken, Hfailed.
Qed.

Lemma keeps_only name (outputs : list path) w w' :
  In (out_dir, name) outputs -> keeps (only name) w w' ->
  keeps (fun p => In p outputs) w w'.
Proof. intros Hq. apply keeps_weaken. intros p ->. exact Hq. Qed.

Lemma keeps_read name (p : path) w w' :
  keeps (only name) w w' -> p <> (out_dir, name) -> read_file w' p = read_file w p.
Proof. intros (_ & F & _) Hne. apply F. exact Hne. Qed.

Lemma keeps_dir P w w' d : keeps P w w' -> is_Some (fs w !! d) -> is_Some (fs w' !! d).
Proof. intros (D & _) H. auto. Qed.

Lemma read_file_fs w w' p : fs w' = fs w -> read_file w' p = read_file w p.
Proof. intros H. unfold read_file. rewrite H. reflexivity. Qed.

(** What a run leaves alone. *)
Lemma run_keeps (g : rng) (env : faults) (w : world) :
  let w' := (run g env w).1 in
  is_Some (fs w' !! out_dir)
  /\ (forall p, ~ In p create_outputs -> read_file w' p = read_file w p)
  /\ (forall d, d <> out_dir -> fs w' !! d = fs w !! d)
  /\ (forall d, is_Some (fs w !! d) -> is_Some (fs w' !! d)).
Proof.
  destruct (run_completes g env w)
    as (w0 & w1 & w2 & w3 & w4 & (Hdir & Hf0 & Ho0 & Hd0 & _)
        & (_ & K1 & _) & (_ & K2 & _) & (_ & K3 & _) & (_ & K4 & _) & Hrun).
  cbv zeta. rewrite Hrun. cbn [fst].
  apply (keeps_only _ create_outputs) in K1; [|cbn; tauto].
  apply (keeps_only _ create_outputs) in K2; [|cbn; tauto].
  apply (keeps_only _ create_outputs) in K3; [|cbn; tauto].
  apply (keeps_only _ create_outputs) in K4; [|cbn; tauto].
  pose proof (keeps_trans _ _ _ _ K1 (keeps_trans _ _ _ _ K2
               (keeps_trans _ _ _ _ K3 K4))) as (KD & KF & KO).
  unfold create_closing, read_file in *. cbn [fs].
  split; [apply KD, Hdir|]. split; [|split].
  - intros p Hp. rewrite (KF p Hp). apply Hf0.
  - intros d Hne. rewrite KO; [apply Ho0, Hne|].
    intros n Hin. apply Hne. unfold out_dir. cbn in Hin.
    destruct Hin as [H|[H|[H|[H|[]]]]]; congruence.
  - intros d Hd. apply KD, Hd0, Hd.
Qed.

(** ** The files of the emitters that meet no failure *)

(** The [try] block of the JSON Lines emitter, on any console: the file
    is written in full before the success line is printed. *)
Lemma jsonl_block_writes (say : line -> IO unit) data env w :
  healthy env (out_dir, "sample.jsonl") -> is_Some (fs w !! out_dir) ->
  exists w2,
    jsonl_block_on say data env w = say (Generated "sample.jsonl") env w2
    /\ read_file w2 (out_dir, "sample.jsonl") = Some (jsonl_text data)
    /\ stdout w2 = stdout w.
Proof.
  intros Hh Hdir. unfold jsonl_block_on.
  destruct (open_w_ok env w _ Hh Hdir) as (w1 & E1 & R1 & O1).
  erewrite io_bind_return by exact E1.
  destruct (for_io_write_ok (fun r => dumps (to_json r) +:+ nl) data env w1 _ _ Hh R1)
    as (w2 & E2 & R2 & O2).
  erewrite io_bind_return by exact E2.
  exists w2. split; [reflexivity|]. split; [exact R2 | congruence].
Qed.

Lemma emit_jsonl_ok data env w :
  healthy env (out_dir, "sample.jsonl") -> is_Some (fs w !! out_dir) ->
  read_file (emit_jsonl data env w).2 (out_dir, "sample.jsonl")
  = Some (jsonl_text data).
Proof.
  intros Hh Hdir. unfold emit_jsonl, emit_jsonl_on, try_except.
  destruct (jsonl_block_writes print data env w Hh Hdir) as (w2 & -> & R2 & _).
  exact R2.
Qed.

Lemma emit_ndjson_ok data env w :
  healthy env (out_dir, "sample.ndjson") -> is_Some (fs w !! out_dir) ->
  read_file (emit_ndjson data env w).2 (out_dir, "sample.ndjson")
  = Some (jsonl_text data).
Proof.
  intros Hh Hdir. unfold emit_ndjson, emit_ndjson_on, ndjson_block_on, try_except.
  destruct (open_w_ok env w _ Hh Hdir) as (w1 & E1 & R1 & _).
  erewrite io_bind_return by exact E1.
  destruct (for_io_write_ok (fun r => dumps (to_json r) +:+ nl) data env w1 _ _ Hh R1)
    as (w2 & E2 & R2 & _).
  erewrite io_bind_return by exact E2. exact R2.
Qed.

Lemma emit_csv_ok data env w :
  healthy env (out_dir, "sample.csv") -> is_Some (fs w !! out_dir) ->
  read_file (emit_csv data env w).2 (out_dir, "sample.csv") = Some (csv_text data).
Proof.
  intros Hh Hdir. unfold emit_csv, emit_csv_on, csv_block_on, try_except.
  destruct (open_w_ok env w _ Hh Hdir) as (w1 & E1 & R1 & _).
  erewrite io_bind_return by exact E1.
  destruct (write_ok env w1 _ _ csv_header Hh R1) as (w2 & E2 & R2 & _).
  erewrite io_bind_return by exact E2.
  destruct (for_io_write_ok csv_line data env w2 _ _ Hh R2) as (w3 & E3 & R3 & _).
  erewrite io_bind_return by exact E3. exact R3.
Qed.

Lemma emit_json_ok data env w :
  healthy env (out_dir, "sample.json") -> env (Call "json.dump") = None ->
  is_Some (fs w !! out_dir) ->
  read_file (emit_json data env w).2 (out_dir, "sample.json") = Some (json_text data).
Proof.
  intros Hh Hcall Hdir. unfold emit_json, emit_json_on, json_block_on, try_except.
  destruct (open_w_ok env w _ Hh Hdir) as (w1 & E1 & R1 & _).
  erewrite io_bind_return by exact E1.
  erewrite io_bind_return by (apply attempt_ok; exact Hcall).
  destruct (write_ok env w1 _ _ (json_text data) Hh R1) as (w2 & E2 & R2 & _).
  erewrite io_bind_return by exact E2. exact R2.
Qed.

Lemma run_jsonl g env w :
  healthy env (out_dir, "sample.jsonl") ->
  read_file (run g env w).1 (out_dir, "sample.jsonl") = Some (jsonl_text (data g)).
Proof.
  intros Hh.
  destruct (run_completes g env w)
    as (w0 & w1 & w2 & w3 & w4 & (D0 & _)
        & (E1 & K1 & _) & (E2 & K2 & _) & (E3 & K3 & _) & (E4 & K4 & _) & Hrun).
  rewrite Hrun. cbn [fst]. rewrite (read_file_fs w4) by reflexivity.
  rewrite (keeps_read _ _ _ _ K4) by discriminate.
  rewrite (keeps_read _ _ _ _ K3) by discriminate.
  rewrite (keeps_read _ _ _ _ K2) by discriminate.
  pose proof (emit_jsonl_ok (data g) env w0 Hh D0) as H. rewrite E1 in H. exact H.
Qed.

Lemma run_ndjson g env w :
  healthy env (out_dir, "sample.ndjson") ->
  read_file (run g env w).1 (out_dir, "sample.ndjson") = Some (jsonl_text (data g)).
Proof.
  intros Hh.
  destruct (run_completes g env w)
    as (w0 & w1 & w2 & w3 & w4 & (D0 & _)
        & (E1 & K1 & _) & (E2 & K2 & _) & (E3 & K3 & _) & (E4 & K4 & _) & Hrun).
  rewrite Hrun. cbn [fst]. rewrite (read_file_fs w4) by reflexivity.
  rewrite (keeps_read _ _ _ _ K4) by discriminate.
  rewrite (keeps_read _ _ _ _ K3) by discriminate.
  pose proof (keeps_dir _ _ _ _ K1 D0) as D1.
  pose proof (emit_ndjson_ok (data g) env w1 Hh D1) as H. rewrite E2 in H. exact H.
Qed.

Lemma run_csv g env w :
  healthy env (out_dir, "sample.csv") ->
  read_file (run g env w).1 (out_dir, "sample.csv") = Some (csv_text (data g)).
Proof.
  intros Hh.
  destruct (run_completes g env w)
    as (w0 & w1 & w2 & w3 & w4 & (D0 & _)
        & (E1 & K1 & _) & (E2 & K2 & _) & (E3 & K3 & _) & (E4 & K4 & _) & Hrun).
  rewrite Hrun. cbn [fst]. rewrite (read_file_fs w4) by reflexivity.
  rewrite (keeps_read _ _ _ _ K4) by discriminate.
  pose proof (keeps_dir _ _ _ _ K2 (keeps_dir _ _ _ _ K1 D0)) as D2.
  pose proof (emit_csv_ok (data g) env w2 Hh D2) as H. rewrite E3 in H. exact H.
Qed.

Lemma run_json g env w :
  healthy env (out_dir, "sample.json") -> env (Call "json.dump") = None ->
  read_file (run g env w).1 (out_dir, "sample.json") = Some (json_text (data g)).
Proof.
  intros Hh Hc.
  destruct (run_completes g env w)
    as (w0 & w1 & w2 & w3 & w4 & (D0 & _)
        & (E1 & K1 & _) & (E2 & K2 & _) & (E3 & K3 & _) & (E4 & K4 & _) & Hrun).
  rewrite Hrun. cbn [fst]. rewrite (read_file_fs w4) by reflexivity.
  pose proof (keeps_dir _ _ _ _ K3 (keeps_dir _ _ _ _ K2 (keeps_dir _ _ _ _ K1 D0)))
    as D3.
  pose proof (emit_json_ok (data g) env w3 Hh Hc D3) as H. rewrite E4 in H. exact H.
Qed.

End CreateRun.

(* ================================================================== *)
(** * The runs of [generate_test_files.py] *)
(* ================================================================== *)

Module GenerateRun.
Import Py Pd Spec IOFacts GenerateTestFiles.
Import CreateRun(listing_print, keeps_only, keeps_read, keeps_dir, read_file_fs).

Lemma DataFrame_data (g : rng) env w :
  DataFrame (data g) env w = (Return (data g), w).
Proof.
  destruct (DatasetFacts.generate_columns g) as (p1 & p2 & p3 & ->).
  unfold DataFrame.
  cbn [col_id col_name col_age col_salary col_department col_is_active col_join_date].
  unfold Np.randint, Np.choice. rewrite !BuilderFacts.draws_length. reflexivity.
Qed.

Lemma gen_report_on_spec (say : line -> IO unit) env w :
  (forall file n w, say (Listed file n) env w = print (Listed file n) env w) ->
  report_on say env w
  = (Return tt,
     mk_world (fs w) (stdout w ++ listing w out_dir (listdir w out_dir) listed_suffixes)).
Proof.
  intros H. unfold report_on. destruct w as [F out].
  apply CreateRun.listing_print_on, H.
Qed.

Lemma gen_report_spec env w :
  report env w
  = (Return tt,
     mk_world (fs w) (stdout w ++ listing w out_dir (listdir w out_dir) listed_suffixes)).
Proof. apply gen_report_on_spec. reflexivity. Qed.

Lemma get_engine_silent P : silent P get_engine.
Proof.
  apply silent_try_except; [apply silent_attempt|].
  intros e. destruct (is_ImportError e); [|apply silent_raise].
  apply silent_try_except; [apply silent_attempt|].
  intros e'. destruct (is_ImportError e'); apply silent_raise.
Qed.

Lemma to_parquet_silent (P : path -> Prop) lib df p :
  P p -> silent P (to_parquet lib df p).
Proof.
  intros HP. apply silent_seq; [apply get_engine_silent|].
  apply silent_seq; [apply silent_attempt|].
  eapply silent_bind; [apply silent_open_w; exact HP | apply open_w_returns |].
  intros f ->. apply silent_write. exact HP.
Qed.

Lemma to_csv_silent (P : path -> Prop) df p : P p -> silent P (to_csv df p).
Proof.
  intros HP. apply silent_seq; [apply silent_attempt|].
  eapply silent_bind; [apply silent_open_w; exact HP | apply open_w_returns |].
  intros f ->. apply silent_write. exact HP.
Qed.

Lemma writer_silent (P : path -> Prop) lib p records :
  P p -> silent P (Fastavro.writer lib p records).
Proof.
  intros HP. apply silent_seq; [apply silent_attempt|].
  apply silent_seq; [apply silent_write; exact HP|].
  apply silent_seq; [apply silent_attempt | apply silent_write; exact HP].
Qed.

(** The [try] blocks, on any console whose [print] writes its line when
    it returns and nothing when it raises. *)
Section Console.
Variable say : line -> IO unit.
Hypothesis say_reports : forall P l, reports P l (say l).

Lemma parquet_block_reports lib df :
  reports (only "sample.parquet") (Generated "sample.parquet")
          (parquet_block_on say lib df).
Proof.
  apply reports_seq; [apply to_parquet_silent; reflexivity | apply say_reports].
Qed.

Lemma gen_jsonl_block_reports df :
  reports (only "sample.jsonl") (Generated "sample.jsonl") (jsonl_block_on say df).
Proof.
  eapply reports_bind; [apply silent_open_w; reflexivity | apply open_w_returns |].
  intros f ->. apply reports_seq; [|apply say_reports].
  apply silent_for_io. intros r. apply silent_write. reflexivity.
Qed.

Lemma gen_csv_block_reports df :
  reports (only "sample.csv") (Generated "sample.csv") (csv_block_on say df).
Proof.
  apply reports_seq; [apply to_csv_silent; reflexivity | apply say_reports].
Qed.

Lemma arrow_block_reports lib df :
  reports (only "sample.arrow") (Generated "sample.arrow") (arrow_block_on say lib df).
Proof.
  do 4 (apply reports_seq; [apply silent_attempt|]).
  eapply reports_bind; [apply silent_open_w; reflexivity | apply open_w_returns |].
  intros f ->.
  apply reports_seq; [apply silent_write; reflexivity | apply say_reports].
Qed.

Lemma avro_block_reports lib df :
  reports (only "sample.avro") (Generated "sample.avro") (avro_block_on say lib df).
Proof.
  apply reports_seq; [apply silent_attempt|]. cbv zeta.
  eapply reports_bind; [apply silent_open_w; reflexivity | apply open_w_returns |].
  intros f ->.
  apply reports_seq; [apply writer_silent; reflexivity | apply say_reports].
Qed.

(** Every run in which nothing fails outside the [try] blocks: the
    directory is made, the five emitters run in turn, each returning
    after one status line, and the script reaches its end. *)
Lemma gen_run_completes_on (mk : string -> IO unit) (lib : codecs) (g : rng)
    (env : faults) (w : world) :
  (forall w, mk out_dir env w = makedirs out_dir env w) ->
  (forall s w, say (Text s) env w = print (Text s) env w) ->
  (forall file n w, say (Listed file n) env w = print (Listed file n) env w) ->
  (forall what e w, say (Failed what e) env w = print (Failed what e) env w) ->
  (forall what w, say (Skipped what) env w = print (Skipped what) env w) ->
  generate_completes_on say mk lib g env w.
Proof.
  intros Hmk Htext Hlisted Hfailed Hskipped.
  assert (Hhandled : forall skip what e w1,
             (if is_ImportError e then say (Skipped skip) else say (Failed what e))
               env w1
             = print (skipped_or_failed skip what e) env w1).
  { intros skip what e w1. unfold skipped_or_failed.
    destruct (is_ImportError e); [apply Hskipped | apply Hfailed]. }
  unfold generate_completes_on, run_on, main_on. cbv zeta.
  destruct (makedirs_spec out_dir env w) as (wm & E0 & Hdir & Hout0 & Hd0 & Hf0 & Ho0).
  rewrite <- Hmk in E0.
  erewrite io_bind_return by exact E0.
  erewrite io_bind_return by apply DataFrame_data.
  erewrite io_bind_return by (rewrite Htext; reflexivity).
  set (w0 := mk_world (fs wm) (stdout wm ++ [Text "Generating test files..."])).
  set (df := data g).
  destruct (try_except_step _ _ (Failed "Parquet") _
              (fun e => say (Failed "Parquet" e)) env w0
              (parquet_block_reports lib df) (fun e w1 => Hfailed _ e w1)) as (w1 & S1).
  erewrite io_bind_return by apply S1.
  destruct (try_except_step _ _ (Failed "JSONL") _
              (fun e => say (Failed "JSONL" e)) env w1
              (gen_jsonl_block_reports df) (fun e w1 => Hfailed _ e w1)) as (w2 & S2).
  erewrite io_bind_return by apply S2.
  destruct (try_except_step _ _ (Failed "CSV") _
              (fun e => say (Failed "CSV" e)) env w2
              (gen_csv_block_reports df) (fun e w1 => Hfailed _ e w1)) as (w3 & S3).
  erewrite io_bind_return by apply S3.
  destruct (try_except_step _ _ (skipped_or_failed arrow_skip "Arrow") _
              (fun e => if is_ImportError e
                        then say (Skipped arrow_skip) else say (Failed "Arrow" e))
              env w3 (arrow_block_reports lib df)
              (fun e w1 => Hhandled _ _ e w1)) as (w4 & S4).
  erewrite io_bind_return by apply S4.
  destruct (try_except_step _ _ (skipped_or_failed avro_skip "Avro") _
              (fun e => if is_ImportError e
                        then say (Skipped avro_skip) else say (Failed "Avro" e))
              env w4 (avro_block_reports lib df)
              (fun e w1 => Hhandled _ _ e w1)) as (w5 & S5).
  erewrite io_bind_return by apply S5.
  erewrite io_bind_return by (rewrite Htext; reflexivity).
  erewrite io_bind_return by (rewrite Htext; reflexivity).
  erewrite io_bind_return by (rewrite Htext; reflexivity).
  rewrite (gen_report_on_spec say) by exact Hlisted.
  exists w0, w1, w2, w3, w4, w5.
  split. { unfold prepared. subst w0. cbn [fs stdout]. rewrite Hout0.
           repeat split; assumption. }
  split; [exact S1|]. split; [exact S2|]. split; [exact S3|]. split; [exact S4|].
  split; [exact S5|].
  unfold generate_closing. cbn [fs stdout exit_status].
  rewrite <- !app_assoc. reflexivity.
Qed.

End Console.

Lemma gen_emit_parquet_emits lib df :
  emits (only "sample.parquet") (Generated "sample.parquet") (Failed "Parquet")
        (parquet_block lib df) (emit_parquet lib df).
Proof.
  apply emits_try_except; [|reflexivity].
  apply parquet_block_reports. intros P l. apply reports_print.
Qed.

Lemma gen_emit_jsonl_emits df :
  emits (only "sample.jsonl") (Generated "sample.jsonl") (Failed "JSONL")
        (jsonl_block df) (emit_jsonl df).
Proof.
  apply emits_try_except; [|reflexivity].
  apply gen_jsonl_block_reports. intros P l. apply reports_print.
Qed.

Lemma gen_emit_csv_emits df :
  emits (only "sample.csv") (Generated "sample.csv") (Failed "CSV")
        (csv_block df) (emit_csv df).
Proof.
  apply emits_try_except; [|reflexivity].
  apply gen_csv_block_reports. intros P l. apply reports_print.
Qed.

Lemma gen_emit_arrow_emits lib df :
  emits (only "sample.arrow") (Generated "sample.arrow")
        (skipped_or_failed arrow_skip "Arrow")
        (arrow_block lib df) (emit_arrow lib df).
Proof.
  apply emits_try_except;
    [|intros e; unfold skipped_or_failed; destruct (is_ImportError e); reflexivity].
  apply arrow_block_reports. intros P l. apply reports_print.
Qed.

Lemma gen_emit_avro_emits lib df :
  emits (only "sample.avro") (Generated "sample.avro")
        (skipped_or_failed avro_skip "Avro")
        (avro_block lib df) (emit_avro lib df).
Proof.
  apply emits_try_except;
    [|intros e; unfold skipped_or_failed; destruct (is_ImportError e); reflexivity].
  apply avro_block_reports. intros P l. apply reports_print.
Qed.

(** Every run on a console that takes every line: the directory is made,
    the five emitters run in turn, each returning after one status line,
    and the script reaches its end. *)
Lemma gen_run_completes (lib : codecs) (g : rng) (env : faults) (w : world) :
  generate_run_completes lib g env w.
Proof.
  apply (gen_run_completes_on print (fun P l => reports_print P l) makedirs lib g env w);
    reflexivity.
Qed.

(** The script with every failure point, where nothing fails outside
    the [try] blocks and the console takes the lines of the handlers. *)
Lemma gen_script_completes (lib : codecs) (g : rng) (env : faults) (w : world) :
  frame_works env -> handlers_report env ->
  generate_completes_on console_print os_makedirs lib g env w.
Proof.
  intros (Hmk & Htext & Hlisted) (Hfailed & Hskipped).
  apply (gen_run_completes_on console_print (fun P l => reports_console_print P l)).
  - intros w1. apply os_makedirs_made, Hmk.
  - intros s w1. apply console_print_taken, Htext.
  - intros file n w1. apply console_print_taken, Hlisted.
  - intros what e w1. apply console_print_taken, Hfailed.
  - intros what w1. apply console_print_taken, Hskipped.
Qed.

(** What a run leaves alone. *)
Lemma gen_run_keeps (lib : codecs) (g : rng) (env : faults) (w : world) :
  let w' := (run lib g env w).1 in
  is_Some (fs w' !! out_dir)
  /\ (forall p, ~ In p generate_outputs -> read_file w' p = read_file w p)
  /\ (forall d, d <> out_dir -> fs w' !! d = fs w !! d)
  /\ (forall d, is_Some (fs w !! d) -> is_Some (fs w' !! d)).
Proof.
  destruct (gen_run_completes lib g env w)
    as (w0 & w1 & w2 & w3 & w4 & w5 & (Hdir & Hf0 & Ho0 & Hd0 & _)
        & (_ & K1 & _) & (_ & K2 & _) & (_ & K3 & _) & (_ & K4 & _) & (_ & K5 & _)
        & Hrun).
  cbv zeta. rewrite Hrun. cbn [fst].
  apply (keeps_only _ generate_outputs) in K1; [|cbn; tauto].
  apply (keeps_only _ generate_outputs) in K2; [|cbn; tauto].
  apply (keeps_only _ generate_outputs) in K3; [|cbn; tauto].
  apply (keeps_only _ generate_outputs) in K4; [|cbn; tauto].
  apply (keeps_only _ generate_outputs) in K5; [|cbn; tauto].
  pose proof (keeps_trans _ _ _ _ K1 (keeps_trans _ _ _ _ K2
               (keeps_trans _ _ _ _ K3 (keeps_trans _ _ _ _ K4 K5))))
    as (KD & KF & KO).
  unfold generate_closing, read_file in *. cbn [fs].
  split; [apply KD, Hdir|]. split; [|split].
  - intros p Hp. rewrite (KF p Hp). apply Hf0.
  - intros d Hne. rewrite KO; [apply Ho0, Hne|].
    intros n Hin. apply Hne. unfold out_dir. cbn in Hin.
    destruct Hin as [H|[H|[H|[H|[H|[]]]]]]; congruence.
  - intros d Hd. apply KD, Hd0, Hd.
Qed.

Lemma gen_emit_csv_ok df env w :
  healthy env (out_dir, "sample.csv") -> env (Call "DataFrame.to_csv") = None ->
  is_Some (fs w !! out_dir) ->
  read_file (emit_csv df env w).2 (out_dir, "sample.csv") = Some (to_csv_text df).
Proof.
  intros Hh Hcall Hdir.
  destruct (open_w_ok env w _ Hh Hdir) as (w1 & E1 & R1 & _).
  destruct (write_ok env w1 _ _ (to_csv_text df) Hh R1) as (w2 & E2 & R2 & _).
  assert (E : to_csv df (out_dir, "sample.csv") env w = (Return tt, w2)).
  { unfold to_csv. erewrite io_bind_return by (apply attempt_ok; exact Hcall).
    erewrite io_bind_return by exact E1. exact E2. }
  unfold emit_csv, emit_csv_on, csv_block_on, try_except.
  erewrite io_bind_return by exact E.
  exact R2.
Qed.

Lemma gen_run_csv lib g env w :
  healthy env (out_dir, "sample.csv") -> env (Call "DataFrame.to_csv") = None ->
  read_file (run lib g env w).1 (out_dir, "sample.csv") = Some (to_csv_text (data g)).
Proof.
  intros Hh Hc.
  destruct (gen_run_completes lib g env w)
    as (w0 & w1 & w2 & w3 & w4 & w5 & (D0 & _)
        & (E1 & K1 & _) & (E2 & K2 & _) & (E3 & K3 & _) & (E4 & K4 & _) & (E5 & K5 & _)
        & Hrun).
  rewrite Hrun. cbn [fst]. rewrite (read_file_fs w5) by reflexivity.
  rewrite (keeps_read _ _ _ _ K5) by discriminate.
  rewrite (keeps_read _ _ _ _ K4) by discriminate.
  pose proof (keeps_dir _ _ _ _ K2 (keeps_dir _ _ _ _ K1 D0)) as D2.
  pose proof (gen_emit_csv_ok (data g) env w2 Hh Hc D2) as H. rewrite E3 in H. exact H.
Qed.

End GenerateRun.

(* ================================================================== *)
(** * The CSV files *)
(* ================================================================== *)

Module CsvFacts.
Import Py Spec IOFacts TextFacts BuilderFacts DatasetFacts.

(** ** Texts made of plain fields *)

Lemma plain_no_sep c fields :
  is_field_char c = false -> plain_fields fields ->
  Forall (fun f => contains c f = false) fields.
Proof.
  intros Hc H. eapply Forall_impl; [exact H|]. cbn.
  intros f Hf. eapply all_chars_contains; eassumption.
Qed.

Lemma join_plain c fields :
  is_field_char c = false -> is_field_char "," = false ->
  c <> ","%char ->
  plain_fields fields -> contains c (join "," fields) = false.
Proof.
  intros Hc _ Hne H. induction H as [|f fs Hf Hfs IH]; [reflexivity|].
  destruct fs as [|f' fs'].
  - simpl. eapply all_chars_contains; eassumption.
  - change (join "," (f :: f' :: fs')) with (f +:+ String "," (join "," (f' :: fs'))).
    rewrite contains_app. rewrite (all_chars_contains _ _ _ Hf Hc).
    cbn [contains orb]. rewrite IH. destruct (Ascii.eqb_spec "," c); [congruence | reflexivity].
Qed.

(** The layout of a text built from rows of seven plain fields. *)
Lemma layout_of_rows (rows : list (list string)) :
  Forall (fun fields =>
            length fields = 7%nat /\ plain_fields fields
            /\ (nth 5 fields EmptyString = "True" \/ nth 5 fields EmptyString = "False")
            /\ is_iso8601 (nth 6 fields EmptyString) = true) rows ->
  csv_layout
    (header +:+ nl
     +:+ String.concat EmptyString (List.map (fun fields => join "," fields +:+ nl) rows))
    rows.
Proof.
  intros Hrows.
  assert (Htext : header +:+ nl +:+ String.concat EmptyString
                    (List.map (fun fields => join "," fields +:+ nl) rows)
                  = String.concat EmptyString
                      (List.map (fun l => l +:+ nl) (header :: List.map (join ",") rows))).
  { cbn [List.map]. rewrite concat_empty_cons, string_app_assoc, List.map_map.
    reflexivity. }
  assert (Hlines : lines (header +:+ nl +:+ String.concat EmptyString
                    (List.map (fun fields => join "," fields +:+ nl) rows))
                   = header :: List.map (join ",") rows).
  { rewrite Htext. apply lines_of_lines. constructor; [reflexivity|].
    apply Forall_map. eapply Forall_impl; [exact Hrows|]. cbn.
    intros fields (_ & Hp & _).
    apply join_plain; [reflexivity | reflexivity | discriminate | exact Hp]. }
  split; [exact Hlines|]. split; [rewrite Hlines; exact Htext|].
  eapply Forall_impl; [exact Hrows|]. cbn.
  intros fields (Hlen & Hp & Hb & Hd). repeat split; try assumption.
  apply (split_join ","%char).
  - destruct fields; [discriminate | discriminate].
  - apply plain_no_sep; [reflexivity | exact Hp].
Qed.

(** ** The CSV file of [create_test_files.py] *)

Lemma create_csv_line r :
  CreateTestFiles.csv_line r = join "," (create_fields r) +:+ nl.
Proof.
  unfold CreateTestFiles.csv_line, create_fields, join. cbn [String.concat].
  rewrite !string_app_assoc. reflexivity.
Qed.

Lemma create_csv_text data :
  csv_text data
  = header +:+ nl
    +:+ String.concat EmptyString
          (List.map (fun fields => join "," fields +:+ nl) (List.map create_fields data)).
Proof.
  unfold csv_text. rewrite List.map_map.
  change CreateTestFiles.csv_header with (header +:+ nl).
  rewrite string_app_assoc. do 3 f_equal.
  apply map_ext. intros r. apply create_csv_line.
Qed.

Lemma Forall2_Forall_In {A B} (R : A -> B -> Prop) xs ys :
  Forall2 R xs ys -> Forall (fun y => exists x, In x xs /\ R x y) ys.
Proof.
  induction 1 as [|x y xs ys Hxy _ IH]; constructor.
  - exists x. split; [left; reflexivity | exact Hxy].
  - eapply Forall_impl; [exact IH|]. cbn. intros b (a & Ha & Hab).
    exists a. split; [right; exact Ha | exact Hab].
Qed.

Lemma person_chars i : all_chars is_field_char ("Person_" +:+ str_int i) = true.
Proof. rewrite all_chars_app, str_int_chars. reflexivity. Qed.

Lemma create_dates_ok :
  forallb (fun i =>
             let s := isoformat (add_days CreateTestFiles.start_date i) in
             all_chars is_field_char s && is_iso8601 s) (range 1 101) = true.
Proof. vm_compute. reflexivity. Qed.

Lemma department_chars d :
  In d ["Engineering"; "Marketing"; "Sales"; "HR"] -> all_chars is_field_char d = true.
Proof. intros [<-|[<-|[<-|[<-|[]]]]]; reflexivity. Qed.

Lemma create_rows_ok (g : rng) :
  Forall (fun fields =>
            length fields = 7%nat /\ plain_fields fields
            /\ (nth 5 fields EmptyString = "True" \/ nth 5 fields EmptyString = "False")
            /\ is_iso8601 (nth 6 fields EmptyString) = true)
         (List.map create_fields (CreateTestFiles.data g)).
Proof.
  apply Forall_map.
  eapply Forall_impl; [apply (Forall2_Forall_In _ _ _ (data_built g))|]. cbn.
  intros r (i & Hi & _ & Hname & _ & _ & Hdep & Hdate).
  pose proof create_dates_ok as Hd. rewrite forallb_forall in Hd.
  specialize (Hd i Hi). cbn zeta in Hd. apply andb_true_iff in Hd as [Hd1 Hd2].
  split; [reflexivity|]. split.
  - unfold plain_fields, create_fields. rewrite Hname, Hdate.
    repeat constructor;
      first [apply str_int_chars | apply person_chars | apply str_bool_chars
            | apply department_chars; exact Hdep | exact Hd1].
  - unfold create_fields. cbn [nth]. rewrite Hdate.
    split; [destruct (CreateTestFiles.is_active r); [left|right]; reflexivity | exact Hd2].
Qed.

Lemma create_csv_layout (g : rng) :
  csv_layout (csv_text (CreateTestFiles.data g))
             (List.map create_fields (CreateTestFiles.data g)).
Proof. rewrite create_csv_text. apply layout_of_rows, create_rows_ok. Qed.

(** ** The CSV file of [generate_test_files.py] *)

Lemma csv_field_plain f : all_chars is_field_char f = true -> Pd.csv_field f = f.
Proof.
  intros H. destruct (field_chars_plain f H) as (H1 & H2 & H3 & H4).
  unfold Pd.csv_field. rewrite H1, H2, H3, H4. reflexivity.
Qed.

Lemma csv_row_plain fields :
  plain_fields fields -> Pd.csv_row fields = join "," fields +:+ nl.
Proof.
  intros H. unfold Pd.csv_row. f_equal. f_equal.
  induction H as [|f fs Hf _ IH]; [reflexivity|].
  cbn [List.map]. rewrite (csv_field_plain f Hf), IH. reflexivity.
Qed.

Lemma zip_fields_rows ids : forall names ages sals deps acts dates,
  Pd.zip_fields (List.map str_int ids) names (List.map str_int ages)
                (List.map str_int sals) deps (List.map str_bool acts)
                (List.map date_isoformat dates)
  = List.map generate_fields (Pd.zip_rows ids names ages sals deps acts dates).
Proof.
  induction ids as [|i ids IH];
    intros [|n names] [|a ages] [|s sals] [|d deps] [|b acts] [|t dates];
    try reflexivity.
  cbn [List.map Pd.zip_fields Pd.zip_rows]. rewrite IH. reflexivity.
Qed.

Lemma generate_dates_ok :
  forallb (fun t => at_midnight_date t)
          (firstn 100 (Pd.date_range "2020-01-01" 100)) = true.
Proof. vm_compute. reflexivity. Qed.

Lemma generate_rows_ok (g : rng) :
  Forall (fun fields =>
            length fields = 7%nat /\ plain_fields fields
            /\ (nth 5 fields EmptyString = "True" \/ nth 5 fields EmptyString = "False")
            /\ is_iso8601 (nth 6 fields EmptyString) = true)
         (List.map generate_fields (Pd.iterrows (GenerateTestFiles.data g))).
Proof.
  apply Forall_map.
  destruct (generate_rows g) as (_ & Hn & _ & _ & Hd & _ & Ht). cbn zeta in *.
  destruct (generate_columns g) as (p1 & p2 & p3 & Hdf).
  set (rows := Pd.iterrows (GenerateTestFiles.data g)) in *.
  rewrite Hdf in Hn, Hd, Ht. cbn [Pd.col_name Pd.col_department Pd.col_join_date] in *.
  assert (Hnames : Forall (fun r => all_chars is_field_char (Pd.name r) = true) rows).
  { apply Forall_map_inv with (P := fun s => all_chars is_field_char s = true).
    rewrite Hn. apply Forall_map. apply Forall_forall. intros i _. apply person_chars. }
  assert (Hdeps : Forall (fun r => all_chars is_field_char (Pd.department r) = true) rows).
  { apply Forall_map_inv with (P := fun s => all_chars is_field_char s = true).
    rewrite Hd. apply draws_Forall. intros p. apply department_chars.
    apply choice_In. discriminate. }
  assert (Hdates : Forall (fun r => at_midnight_date (Pd.join_date r) = true) rows).
  { apply Forall_map_inv with (P := fun t => at_midnight_date t = true).
    rewrite Ht. apply Forall_forall. intros t Hin.
    pose proof generate_dates_ok as H. rewrite forallb_forall in H.
    apply H. apply list_elem_of_In. exact Hin. }
  rewrite Forall_forall in Hnames, Hdeps, Hdates. apply Forall_forall.
  intros r Hr. specialize (Hnames r Hr). specialize (Hdeps r Hr).
  specialize (Hdates r Hr). unfold at_midnight_date in Hdates.
  apply andb_true_iff in Hdates as [Hd1 Hd2].
  apply andb_true_iff in Hd1 as [_ Hd1].
  split; [reflexivity|]. split.
  - unfold plain_fields, generate_fields.
    repeat constructor;
      first [apply str_int_chars | apply str_bool_chars | assumption].
  - unfold generate_fields. cbn [nth].
    split; [destruct (Pd.is_active r); [left|right]; reflexivity | exact Hd2].
Qed.

Lemma generate_csv_text (g : rng) :
  Pd.to_csv_text (GenerateTestFiles.data g)
  = header +:+ nl
    +:+ String.concat EmptyString
          (List.map (fun fields => join "," fields +:+ nl)
                    (List.map generate_fields (Pd.iterrows (GenerateTestFiles.data g)))).
Proof.
  pose proof (generate_rows_ok g) as Hok.
  destruct (generate_columns g) as (p1 & p2 & p3 & Hdf). rewrite Hdf in *.
  unfold Pd.to_csv_text, Pd.iterrows in *.
  cbn [Pd.col_id Pd.col_name Pd.col_age Pd.col_salary Pd.col_department
       Pd.col_is_active Pd.col_join_date] in *.
  unfold Pd.format_dates.
  replace (forallb Pd.at_midnight (firstn 100 (Pd.date_range "2020-01-01" 100)))
    with true by (vm_compute; reflexivity).
  rewrite zip_fields_rows.
  change (Pd.csv_row Pd.columns) with (header +:+ nl).
  rewrite string_app_assoc. do 3 f_equal.
  apply map_ext_Forall. eapply Forall_impl; [exact Hok|]. cbn.
  intros fields (_ & Hp & _). apply csv_row_plain, Hp.
Qed.

Lemma generate_csv_layout (g : rng) :
  csv_layout (Pd.to_csv_text (GenerateTestFiles.data g))
             (List.map generate_fields (Pd.iterrows (GenerateTestFiles.data g))).
Proof. rewrite generate_csv_text. apply layout_of_rows, generate_rows_ok. Qed.

End CsvFacts.

(* ================================================================== *)
(** * Further properties of the tables *)
(* ================================================================== *)

Module TableFacts.
Import Py Spec BuilderFacts DatasetFacts.

Lemma map_eq_Forall {A B C} (f : A -> C) (h : A -> B) (k : B -> C) (l : list A) :
  List.map f l = List.map k (List.map h l) -> Forall (fun x => f x = k (h x)) l.
Proof.
  induction l as [|x l IH]; cbn [List.map]; intros H; [constructor|].
  injection H as Hx Hl. constructor; [exact Hx | apply IH, Hl].
Qed.

Lemma map_eq_Forall2 {A B C} (f : A -> C) (k : B -> C) (l1 : list A) (l2 : list B) :
  List.map f l1 = List.map k l2 -> Forall2 (fun a b => f a = k b) l1 l2.
Proof.
  revert l2. induction l1 as [|x l1 IH]; intros [|y l2] H; cbn [List.map] in H;
    try discriminate; [constructor|].
  injection H as Hx Hl. constructor; [exact Hx | apply IH, Hl].
Qed.

Lemma generate_departments (g : rng) :
  Forall (fun r => In (Pd.department r) ["Engineering"; "Marketing"; "Sales"; "HR"])
         (Pd.iterrows (GenerateTestFiles.data g)).
Proof.
  destruct (generate_rows g) as (_ & _ & _ & _ & Hd & _). cbv zeta in Hd.
  destruct (generate_columns g) as (p1 & p2 & p3 & Hdf).
  remember (Pd.iterrows (GenerateTestFiles.data g)) as rows eqn:Hrows.
  rewrite Hdf in Hd. cbn [Pd.col_department] in Hd.
  apply Forall_map_inv
    with (P := fun d => In d ["Engineering"; "Marketing"; "Sales"; "HR"]).
  rewrite Hd. apply draws_Forall. intros p. apply choice_In. discriminate.
Qed.

Lemma generate_names (g : rng) :
  Forall (fun r => Pd.name r = "Person_" +:+ str_int (Pd.id r))
         (Pd.iterrows (GenerateTestFiles.data g)).
Proof.
  destruct (generate_rows g) as (Hi & Hn & _). cbv zeta in Hi, Hn.
  destruct (generate_columns g) as (p1 & p2 & p3 & Hdf).
  remember (Pd.iterrows (GenerateTestFiles.data g)) as rows eqn:Hrows.
  rewrite Hdf in Hi, Hn. cbn [Pd.col_id Pd.col_name] in Hi, Hn.
  apply map_eq_Forall with (k := fun i => "Person_" +:+ str_int i).
  rewrite Hi. exact Hn.
Qed.

Lemma generate_column_lengths (g : rng) :
  let df := GenerateTestFiles.data g in
  length (Pd.col_id df) = 100%nat /\ length (Pd.col_name df) = 100%nat
  /\ length (Pd.col_age df) = 100%nat /\ length (Pd.col_salary df) = 100%nat
  /\ length (Pd.col_department df) = 100%nat
  /\ length (Pd.col_is_active df) = 100%nat
  /\ length (Pd.col_join_date df) = 100%nat.
Proof.
  destruct (generate_columns g) as (p1 & p2 & p3 & Hdf). cbv zeta. rewrite Hdf.
  cbn [Pd.col_id Pd.col_name Pd.col_age Pd.col_salary Pd.col_department
       Pd.col_is_active Pd.col_join_date].
  unfold Np.randint, Np.choice. rewrite !draws_length. repeat split.
Qed.

(** The pairs of id and join date of the two tables, record by record. *)
Lemma create_id_dates (g : rng) :
  List.map (fun r => (CreateTestFiles.id r, CreateTestFiles.join_date r))
           (CreateTestFiles.data g)
  = List.map (fun i => (i, isoformat (add_days CreateTestFiles.start_date i)))
             (range 1 101).
Proof.
  pose proof (data_built g) as H.
  induction H as [|i r ixs rs Hir _ IH]; cbn [List.map]; [reflexivity|].
  destruct Hir as (Hid & _ & _ & _ & _ & Hdate).
  rewrite Hid, Hdate, IH. reflexivity.
Qed.

Lemma map_pair_combine {A B C} (f : A -> B) (h : A -> C) (l : list A) :
  List.map (fun x => (f x, h x)) l = combine (List.map f l) (List.map h l).
Proof. induction l as [|x l IH]; cbn; [reflexivity | rewrite IH; reflexivity]. Qed.

Lemma shifted_dates :
  combine (range 1 101)
          (List.map (fun t => isoformat (add_days t 1))
                    (firstn 100 (Pd.date_range "2020-01-01" 100)))
  = List.map (fun i => (i, isoformat (add_days CreateTestFiles.start_date i)))
             (range 1 101).
Proof. vm_compute. reflexivity. Qed.

Lemma generate_id_dates (g : rng) :
  List.map (fun r => (Pd.id r, isoformat (add_days (Pd.join_date r) 1)))
           (Pd.iterrows (GenerateTestFiles.data g))
  = List.map (fun i => (i, isoformat (add_days CreateTestFiles.start_date i)))
             (range 1 101).
Proof.
  destruct (generate_rows g) as (Hi & _ & _ & _ & _ & _ & Ht). cbv zeta in Hi, Ht.
  destruct (generate_columns g) as (p1 & p2 & p3 & Hdf).
  remember (Pd.iterrows (GenerateTestFiles.data g)) as rows eqn:Hrows.
  rewrite Hdf in Hi, Ht. cbn [Pd.col_id Pd.col_join_date] in Hi, Ht.
  rewrite (map_pair_combine Pd.id (fun r => isoformat (add_days (Pd.join_date r) 1))).
  rewrite <- (List.map_map Pd.join_date (fun t => isoformat (add_days t 1))).
  rewrite Hi, Ht. apply shifted_dates.
Qed.

End TableFacts.

(* ================================================================== *)
(** * The JSON Lines files *)
(* ================================================================== *)

Module JsonLinesFacts.
Import Py Spec IOFacts TextFacts JsonFacts.

(** ** The compact encoding holds no line feed *)

Lemma escape_char_one_line c : contains LF (escape_char c) = false.
Proof. destruct c as [[] [] [] [] [] [] [] []]; reflexivity. Qed.

Lemma escape_string_one_line s : contains LF (escape_string s) = false.
Proof.
  induction s as [|c s IH]; [reflexivity|]. cbn [escape_string].
  rewrite contains_app, escape_char_one_line, IH. reflexivity.
Qed.

Lemma basestring_one_line s : contains LF (encode_basestring_ascii s) = false.
Proof.
  unfold encode_basestring_ascii. rewrite !contains_app, escape_string_one_line.
  reflexivity.
Qed.

Lemma contains_join c sep xs :
  contains c sep = false -> Forall (fun x => contains c x = false) xs ->
  contains c (join sep xs) = false.
Proof.
  intros Hsep Hall. induction Hall as [|x xs Hx Hxs IH]; [reflexivity|].
  destruct xs as [|y ys]; [exact Hx|].
  change (join sep (x :: y :: ys)) with (x +:+ sep +:+ join sep (y :: ys)).
  rewrite !contains_app, Hx, Hsep, IH. reflexivity.
Qed.

(** [json.dumps(v)] without indent is one line, whatever [v] holds. *)
Lemma encode_one_line (v : jvalue) :
  forall level, contains LF (encode None level v) = false.
Proof.
  induction v as [|b|z|s|items IH|members IH] using jvalue_nested_ind; intros level.
  - reflexivity.
  - destruct b; reflexivity.
  - cbn [encode]. eapply all_chars_contains; [apply str_int_chars | reflexivity].
  - apply basestring_one_line.
  - destruct items as [|x items]; [reflexivity|]. cbn [encode newline_indent].
    rewrite !contains_app. rewrite contains_join; [reflexivity | reflexivity |].
    apply Forall_map. eapply Forall_impl; [exact IH|]. cbv beta. intros a Ha. apply Ha.
  - destruct members as [|kv members]; [reflexivity|]. cbn [encode newline_indent].
    rewrite !contains_app. rewrite contains_join; [reflexivity | reflexivity |].
    apply Forall_map. eapply Forall_impl; [exact IH|]. cbv beta.
    intros [k x] Ha. cbn [snd] in Ha.
    rewrite !contains_app, basestring_one_line, Ha. reflexivity.
Qed.

(** A text of encoded values, one per line, splits into the encodings. *)
Lemma lines_of_dumps {A} (f : A -> jvalue) (xs : list A) :
  lines (String.concat EmptyString (List.map (fun x => dumps (f x) +:+ nl) xs))
  = List.map (fun x => dumps (f x)) xs.
Proof.
  rewrite <- (List.map_map (fun x => dumps (f x)) (fun l => l +:+ nl)).
  apply lines_of_lines. apply Forall_map, Forall_forall. intros x _.
  apply encode_one_line.
Qed.

Lemma Forall2_map_self {A B} (R : B -> A -> Prop) (f : A -> B) (xs : list A) :
  (forall x, R (f x) x) -> Forall2 R (List.map f xs) xs.
Proof. intros H. induction xs as [|x xs IH]; cbn; constructor; auto. Qed.

(** ** The records of the two scripts *)

Lemma record_distinct (r : CreateTestFiles.record) :
  distinct_keys (CreateTestFiles.to_json r).
Proof.
  cbn. split; [|tauto].
  repeat (constructor; [cbn; intuition discriminate|]). constructor.
Qed.

Lemma row_distinct (r : Pd.row) : distinct_keys (GenerateTestFiles.row_dict r).
Proof.
  cbn. split; [|tauto].
  repeat (constructor; [cbn; intuition discriminate|]). constructor.
Qed.

Lemma records_distinct (data : list CreateTestFiles.record) :
  distinct_keys (JList (List.map CreateTestFiles.to_json data)).
Proof.
  cbn [distinct_keys]. induction data as [|r data IH]; [exact I|].
  cbn [List.map]. split; [apply record_distinct | exact IH].
Qed.

(** ** The JSON Lines file of [generate_test_files.py] *)

Lemma gen_emit_jsonl_ok df env w :
  healthy env (GenerateTestFiles.out_dir, "sample.jsonl") ->
  is_Some (fs w !! GenerateTestFiles.out_dir) ->
  read_file (GenerateTestFiles.emit_jsonl df env w).2
            (GenerateTestFiles.out_dir, "sample.jsonl")
  = Some (rows_jsonl_text df).
Proof.
  intros Hh Hdir.
  unfold GenerateTestFiles.emit_jsonl, GenerateTestFiles.emit_jsonl_on,
    GenerateTestFiles.jsonl_block_on, try_except.
  destruct (open_w_ok env w _ Hh Hdir) as (w1 & E1 & R1 & _).
  erewrite io_bind_return by exact E1.
  destruct (for_io_write_ok (fun r => dumps (GenerateTestFiles.row_dict r) +:+ nl)
              (Pd.iterrows df) env w1 _ _ Hh R1) as (w2 & E2 & R2 & _).
  erewrite io_bind_return by exact E2. exact R2.
Qed.

Lemma gen_run_jsonl lib g env w :
  healthy env (GenerateTestFiles.out_dir, "sample.jsonl") ->
  read_file (GenerateTestFiles.run lib g env w).1
            (GenerateTestFiles.out_dir, "sample.jsonl")
  = Some (rows_jsonl_text (GenerateTestFiles.data g)).
Proof.
  intros Hh.
  destruct (GenerateRun.gen_run_completes lib g env w)
    as (w0 & w1 & w2 & w3 & w4 & w5 & (D0 & _)
        & (E1 & K1 & _) & (E2 & K2 & _) & (E3 & K3 & _) & (E4 & K4 & _) & (E5 & K5 & _)
        & Hrun).
  rewrite Hrun. cbn [fst]. rewrite (CreateRun.read_file_fs w5) by reflexivity.
  rewrite (CreateRun.keeps_read _ _ _ _ K5) by discriminate.
  rewrite (CreateRun.keeps_read _ _ _ _ K4) by discriminate.
  rewrite (CreateRun.keeps_read _ _ _ _ K3) by discriminate.
  pose proof (CreateRun.keeps_dir _ _ _ _ K1 D0) as D1.
  pose proof (gen_emit_jsonl_ok (GenerateTestFiles.data g) env w1 Hh D1) as H.
  rewrite E2 in H. exact H.
Qed.

End JsonLinesFacts.

(* ================================================================== *)
(** * Emitters that meet a failure *)
(* ================================================================== *)

Module FailureFacts.
Import Py Spec IOFacts.

Lemma open_w_fails env w p e :
  is_Some (fs w !! p.1) -> env (Open p) = Some e -> open_w p env w = (Raise e, w).
Proof. intros [files Hdir] He. unfold open_w. rewrite Hdir, He. reflexivity. Qed.

Lemma open_w_opens env w p :
  env (Open p) = None -> is_Some (fs w !! p.1) ->
  exists w', open_w p env w = (Return p, w')
    /\ read_file w' p = Some EmptyString /\ stdout w' = stdout w.
Proof.
  intros Ho [files Hdir]. unfold open_w. rewrite Hdir, Ho.
  eexists. split; [reflexivity|]. split; [apply read_file_insert | reflexivity].
Qed.

Lemma write_fails env w p old chunk e :
  read_file w p = Some old -> env (Write p (String.length old)) = Some e ->
  write p chunk env w = (Raise e, w).
Proof.
  intros Hold He. unfold read_file in Hold. unfold write.
  destruct (fs w !! p.1) as [files|]; [|discriminate].
  cbv zeta. rewrite Hold. change (default EmptyString (Some old)) with old.
  rewrite He. reflexivity.
Qed.

Lemma write_at env w p old chunk :
  read_file w p = Some old -> env (Write p (String.length old)) = None ->
  exists w', write p chunk env w = (Return tt, w')
    /\ read_file w' p = Some (old +:+ chunk) /\ stdout w' = stdout w.
Proof.
  intros Hold Hw. unfold read_file in Hold. unfold write.
  destruct (fs w !! p.1) as [files|]; [|discriminate].
  cbv zeta. rewrite Hold. change (default EmptyString (Some old)) with old.
  rewrite Hw. eexists. split; [reflexivity|].
  split; [apply read_file_insert | reflexivity].
Qed.

(** An emitter whose [try] block starts by opening its file, when the
    opening fails: the handler prints its line and no file changes. *)
Lemma step_open_fails P ok ko p (k : path -> IO unit) env w w' e :
  emitter_step P ok ko (io_bind (open_w p) k)
               (try_except (io_bind (open_w p) k) (fun e => print (ko e))) env w w' ->
  is_Some (fs w !! p.1) -> env (Open p) = Some e ->
  fs w' = fs w /\ stdout w' = stdout w ++ [ko e].
Proof.
  intros (E & _ & _) Hdir He.
  unfold try_except, io_bind in E. rewrite (open_w_fails env w p e Hdir He) in E.
  unfold print in E. injection E as <-. split; reflexivity.
Qed.

Lemma step_stdout P ok ko block m env w w' l :
  emitter_step P ok ko block m env w w' -> In l (stdout w) -> In l (stdout w').
Proof. intros (_ & _ & ->) H. apply in_or_app. left. exact H. Qed.

Lemma step_dir P ok ko block m env w w' d :
  emitter_step P ok ko block m env w w' ->
  is_Some (fs w !! d) -> is_Some (fs w' !! d).
Proof. intros (_ & (D & _) & _) H. auto. Qed.

Lemma step_read name ok ko block m env w w' (p : path) :
  emitter_step (only name) ok ko block m env w w' -> p <> ("test-files", name) ->
  read_file w' p = read_file w p.
Proof. intros (_ & (_ & F & _) & _) Hne. apply F. exact Hne. Qed.

Lemma last_line_in {A} (l : list A) (x : A) : In x (l ++ [x]).
Proof. apply in_or_app. right. left. reflexivity. Qed.

Lemma create_closing_in g w l :
  In l (stdout w) -> In l (stdout (create_closing g w)).
Proof. intros H. unfold create_closing. cbn [stdout]. apply in_or_app. left. exact H. Qed.

Lemma generate_closing_in w l :
  In l (stdout w) -> In l (stdout (generate_closing w)).
Proof. intros H. unfold generate_closing. cbn [stdout]. apply in_or_app. left. exact H. Qed.

Lemma read_same_fs w w' p : fs w' = fs w -> read_file w' p = read_file w p.
Proof. intros H. unfold read_file. rewrite H. reflexivity. Qed.

(** ** [create_test_files.py] *)

(** The CSV emitter when the file opens and the first write fails. *)
Lemma csv_first_write_fails data env w w' e :
  emitter_step (only "sample.csv") (Generated "sample.csv") (Failed "CSV")
    (CreateTestFiles.csv_block data) (CreateTestFiles.emit_csv data) env w w' ->
  is_Some (fs w !! "test-files") ->
  env (Open ("test-files", "sample.csv")) = None ->
  env (Write ("test-files", "sample.csv") 0%nat) = Some e ->
  read_file w' ("test-files", "sample.csv") = Some EmptyString
  /\ stdout w' = stdout w ++ [Failed "CSV" e].
Proof.
  intros (E & _ & _) Hdir Ho Hw.
  unfold CreateTestFiles.emit_csv, CreateTestFiles.emit_csv_on,
    CreateTestFiles.csv_block_on, try_except in E.
  destruct (open_w_opens env w ("test-files", "sample.csv") Ho Hdir)
    as (w1 & E1 & R1 & O1).
  unfold CreateTestFiles.out_dir in E.
  rewrite (io_bind_return _ _ _ _ _ _ E1) in E.
  unfold io_bind at 1 in E.
  rewrite (write_fails env w1 _ EmptyString _ e R1 Hw) in E.
  unfold print in E. injection E as <-. cbn [stdout]. rewrite O1.
  split; [exact R1 | reflexivity].
Qed.

(** ** [generate_test_files.py] *)

Lemma parquet_without_engine lib df env w m1 m2 :
  env (Import "pyarrow") = Some (ImportError m1) ->
  env (Import "fastparquet") = Some (ImportError m2) ->
  GenerateTestFiles.emit_parquet lib df env w
  = (Return tt,
     mk_world (fs w)
       (stdout w
        ++ [Failed "Parquet"
              (ImportError
                 "Unable to find a usable engine; tried using: 'pyarrow', 'fastparquet'.")])).
Proof.
  intros H1 H2.
  unfold GenerateTestFiles.emit_parquet, GenerateTestFiles.emit_parquet_on,
    GenerateTestFiles.parquet_block_on,
    Pd.to_parquet, Pd.get_engine, try_except, io_bind, attempt.
  rewrite H1. cbn [is_ImportError]. rewrite H2. reflexivity.
Qed.

Lemma arrow_without_pyarrow lib df env w m :
  env (Import "pyarrow") = Some (ImportError m) ->
  GenerateTestFiles.emit_arrow lib df env w
  = (Return tt, mk_world (fs w) (stdout w ++ [Skipped arrow_skip])).
Proof.
  intros H.
  unfold GenerateTestFiles.emit_arrow, GenerateTestFiles.emit_arrow_on,
    GenerateTestFiles.arrow_block_on,
    try_except, io_bind, attempt.
  rewrite H. reflexivity.
Qed.

Lemma avro_without_fastavro lib df env w m :
  env (Import "fastavro") = Some (ImportError m) ->
  GenerateTestFiles.emit_avro lib df env w
  = (Return tt, mk_world (fs w) (stdout w ++ [Skipped avro_skip])).
Proof.
  intros H.
  unfold GenerateTestFiles.emit_avro, GenerateTestFiles.emit_avro_on,
    GenerateTestFiles.avro_block_on, try_except, io_bind, attempt.
  rewrite H. reflexivity.
Qed.

(** The Avro emitter opens its file before it hands it to the writer:
    a writer that refuses the schema leaves the file empty. *)
Lemma avro_schema_refused lib df env w e :
  is_Some (fs w !! "test-files") ->
  env (Import "fastavro") = None ->
  env (Open ("test-files", "sample.avro")) = None ->
  env (Call "fastavro.parse_schema") = Some e ->
  exists w',
    GenerateTestFiles.emit_avro lib df env w = (Return tt, w')
    /\ read_file w' ("test-files", "sample.avro") = Some EmptyString
    /\ stdout w' = stdout w ++ [skipped_or_failed avro_skip "Avro" e].
Proof.
  intros Hdir Hi Ho Hc.
  destruct (open_w_opens env w ("test-files", "sample.avro") Ho Hdir)
    as (w1 & E1 & R1 & O1).
  unfold GenerateTestFiles.emit_avro, GenerateTestFiles.emit_avro_on,
    GenerateTestFiles.avro_block_on, try_except.
  unfold GenerateTestFiles.out_dir.
  rewrite (io_bind_return _ _ _ _ _ _ (attempt_ok env w _ Hi)). cbv zeta.
  rewrite (io_bind_return _ _ _ _ _ _ E1).
  unfold Fastavro.writer.
  unfold io_bind at 1. unfold io_bind at 1. unfold attempt at 1. rewrite Hc.
  unfold skipped_or_failed, arrow_skip, avro_skip.
  destruct (is_ImportError e); unfold print; eexists;
    (split; [reflexivity|]); cbn [stdout]; rewrite O1; (split; [exact R1 | reflexivity]).
Qed.

(** A writer that refuses a record leaves the header of the container in
    the file. *)
Lemma avro_record_refused lib df env w e :
  is_Some (fs w !! "test-files") ->
  env (Import "fastavro") = None ->
  env (Open ("test-files", "sample.avro")) = None ->
  env (Call "fastavro.parse_schema") = None ->
  env (Write ("test-files", "sample.avro") 0%nat) = None ->
  env (Call "fastavro.write_record") = Some e ->
  exists w',
    GenerateTestFiles.emit_avro lib df env w = (Return tt, w')
    /\ read_file w' ("test-files", "sample.avro") = Some (Pd.avro_header lib)
    /\ stdout w' = stdout w ++ [skipped_or_failed avro_skip "Avro" e].
Proof.
  intros Hdir Hi Ho Hs Hw Hc.
  destruct (open_w_opens env w ("test-files", "sample.avro") Ho Hdir)
    as (w1 & E1 & R1 & O1).
  destruct (write_at env w1 _ EmptyString (Pd.avro_header lib) R1 Hw)
    as (w2 & E2 & R2 & O2).
  unfold GenerateTestFiles.emit_avro, GenerateTestFiles.emit_avro_on,
    GenerateTestFiles.avro_block_on, try_except.
  unfold GenerateTestFiles.out_dir.
  rewrite (io_bind_return _ _ _ _ _ _ (attempt_ok env w _ Hi)). cbv zeta.
  rewrite (io_bind_return _ _ _ _ _ _ E1).
  unfold Fastavro.writer.
  unfold io_bind at 1.
  rewrite (io_bind_return _ _ _ _ _ _ (attempt_ok env w1 _ Hs)).
  rewrite (io_bind_return _ _ _ _ _ _ E2).
  unfold io_bind at 1. unfold attempt at 1. rewrite Hc.
  unfold skipped_or_failed, arrow_skip, avro_skip.
  destruct (is_ImportError e); unfold print; eexists;
    (split; [reflexivity|]); cbn [stdout]; rewrite O2, O1;
    (split; [exact R2 | reflexivity]).
Qed.

End FailureFacts.

(* ================================================================== *)
(** * The listing of the generated files *)
(* ================================================================== *)

Module ListingFacts.
Import Py Spec.

(** ** The order of [sorted] *)










(** ** [os.listdir] *)



(** ** What the scripts print *)





(** ** The dates of the two CSV files *)

Lemma create_dates_have_time :
  forallb (fun i => contains "T" (isoformat (add_days CreateTestFiles.start_date i)))
          (range 1 101) = true.
Proof. vm_compute. reflexivity. Qed.

Lemma generate_dates_have_no_time :
  forallb (fun i => negb (contains "T"
                            (date_isoformat
                               (add_days (mk_datetime 2020 1 1 0 0 0) (i - 1)))))
          (range 1 101) = true.
Proof. vm_compute. reflexivity. Qed.

Lemma create_date_field g r :
  In r (CreateTestFiles.data g) -> contains "T" (CreateTestFiles.join_date r) = true.
Proof.
  intros Hr. apply (List.in_map CreateTestFiles.join_date) in Hr.
  rewrite DatasetFacts.create_join_dates in Hr.
  apply List.in_map_iff in Hr. destruct Hr as (i & <- & Hi).
  exact (proj1 (List.forallb_forall _ _) create_dates_have_time i Hi).
Qed.

Lemma generate_date_field g row :
  In row (Pd.iterrows (GenerateTestFiles.data g)) ->
  contains "T" (date_isoformat (Pd.join_date row)) = false.
Proof.
  intros Hr. apply (List.in_map Pd.join_date) in Hr.
  rewrite DatasetFacts.generate_join_dates in Hr.
  apply List.in_map_iff in Hr. destruct Hr as (i & <- & Hi).
  apply negb_true_iff.
  exact (proj1 (List.forallb_forall _ _) generate_dates_have_no_time i Hi).
Qed.

End ListingFacts.

(* ================================================================== *)
(** * The layout of [sample.json] *)
(* ================================================================== *)

Module JsonLayoutFacts.
Import Py Spec IOFacts TextFacts.

(** A field character is written as it is. *)
Lemma escape_char_plain c : is_field_char c = true -> escape_char c = String c EmptyString.
Proof.
  destruct c as [[] [] [] [] [] [] [] []]; vm_compute; intros H;
    first [discriminate H | reflexivity].
Qed.

Lemma escape_string_plain s :
  all_chars is_field_char s = true -> escape_string s = s.
Proof.
  induction s as [|c s IH]; cbn [all_chars escape_string]; [reflexivity|].
  intros H. apply andb_true_iff in H as [Hc Hs].
  rewrite (escape_char_plain c Hc), (IH Hs). reflexivity.
Qed.

Lemma quoted_plain s :
  all_chars is_field_char s = true -> encode_basestring_ascii s = quoted s.
Proof.
  intros H. unfold encode_basestring_ascii, quoted.
  rewrite (escape_string_plain s H). reflexivity.
Qed.

Lemma join_app sep (a b : list string) :
  a <> [] -> b <> [] -> join sep (a ++ b) = join sep a +:+ sep +:+ join sep b.
Proof.
  intros Ha Hb. induction a as [|x a IH]; [congruence|].
  destruct a as [|y a].
  - destruct b as [|z b]; [congruence|]. reflexivity.
  - change (join sep ((x :: y :: a) ++ b))
      with (x +:+ sep +:+ join sep ((y :: a) ++ b)).
    rewrite IH by discriminate.
    change (join sep (x :: y :: a)) with (x +:+ sep +:+ join sep (y :: a)).
    rewrite !string_app_assoc. reflexivity.
Qed.

(** The text of one object, at its place in the array. *)
Lemma object_text (r : CreateTestFiles.record) (last : bool) :
  plain_fields (create_fields r) ->
  margin 1 +:+ encode (Some 2%nat) 1 (CreateTestFiles.to_json r)
  +:+ (if last then EmptyString else ",")
  = join nl (object_lines r last).
Proof.
  intros H. unfold plain_fields in H. rewrite List.Forall_forall in H.
  assert (Hn : all_chars is_field_char (CreateTestFiles.name r) = true)
    by (apply H; cbn; tauto).
  assert (Hd : all_chars is_field_char (CreateTestFiles.department r) = true)
    by (apply H; cbn; tauto).
  assert (Ht : all_chars is_field_char (CreateTestFiles.join_date r) = true)
    by (apply H; cbn; tauto).
  unfold CreateTestFiles.to_json, object_lines, member_line.
  cbn [encode List.map].
  rewrite (quoted_plain _ Hn), (quoted_plain _ Hd), (quoted_plain _ Ht).
  generalize (str_int (CreateTestFiles.id r)) as a.
  generalize (str_int (CreateTestFiles.age r)) as b.
  generalize (str_int (CreateTestFiles.salary r)) as c.
  generalize (CreateTestFiles.name r) as n.
  generalize (CreateTestFiles.department r) as d.
  generalize (CreateTestFiles.join_date r) as t.
  generalize (CreateTestFiles.is_active r) as act.
  intros act t d n c b a.
  unfold quoted, join, margin, newline_indent, item_separator, key_separator,
    encode_basestring_ascii, spaces.
  cbn [String.concat repeat Nat.mul Nat.add escape_string].
  destruct last, act; rewrite !string_app_assoc; reflexivity.
Qed.

Lemma array_lines_cons r r' rest :
  array_lines (r :: r' :: rest) = object_lines r false ++ array_lines (r' :: rest).
Proof. reflexivity. Qed.

Lemma array_lines_nonempty rs : rs <> [] -> array_lines rs <> [].
Proof.
  destruct rs as [|r [|r' rest]]; [congruence | discriminate | discriminate].
Qed.

(** The items of the array, each on its lines. *)
Lemma array_text (rs : list CreateTestFiles.record) :
  rs <> [] -> Forall (fun r => plain_fields (create_fields r)) rs ->
  margin 1
  +:+ join ("," +:+ nl +:+ margin 1)
           (List.map (encode (Some 2%nat) 1) (List.map CreateTestFiles.to_json rs))
  = join nl (array_lines rs).
Proof.
  intros Hne Hall. induction Hall as [|r rs Hr Hrs IH]; [congruence|].
  destruct rs as [|r' rest].
  - cbn [List.map array_lines]. rewrite <- (object_text r true Hr).
    unfold join at 1. cbn [String.concat]. rewrite string_app_nil_r. reflexivity.
  - rewrite array_lines_cons, join_app by (try apply array_lines_nonempty; discriminate).
    rewrite <- IH by discriminate. rewrite <- (object_text r false Hr).
    change (join ("," +:+ nl +:+ margin 1)
              (List.map (encode (Some 2%nat) 1)
                 (List.map CreateTestFiles.to_json (r :: r' :: rest))))
      with (encode (Some 2%nat) 1 (CreateTestFiles.to_json r)
            +:+ ("," +:+ nl +:+ margin 1)
            +:+ join ("," +:+ nl +:+ margin 1)
                  (List.map (encode (Some 2%nat) 1)
                     (List.map CreateTestFiles.to_json (r' :: rest)))).
    rewrite !string_app_assoc. reflexivity.
Qed.

(** The text [json.dump(data, f, indent=2)] writes, line by line. *)
Lemma array_layout_text (rs : list CreateTestFiles.record) :
  rs <> [] -> Forall (fun r => plain_fields (create_fields r)) rs ->
  json_text rs = join nl (["["] ++ array_lines rs ++ ["]"]).
Proof.
  intros Hne Hall.
  rewrite join_app by (try discriminate; destruct (array_lines rs); discriminate).
  rewrite join_app by (try apply array_lines_nonempty; try discriminate; exact Hne).
  rewrite <- (array_text rs Hne Hall).
  unfold json_text, dumps_indent.
  destruct rs as [|r rest]; [congruence|].
  cbn [List.map encode].
  unfold newline_indent, item_separator, spaces, margin, join.
  cbn [String.concat repeat Nat.mul Nat.add].
  rewrite !string_app_assoc. reflexivity.
Qed.

Lemma plain_one_line s : all_chars is_field_char s = true -> contains LF s = false.
Proof. intros H. apply (field_chars_plain s H). Qed.

Lemma object_one_line (r : CreateTestFiles.record) (last : bool) :
  plain_fields (create_fields r) ->
  Forall (fun l => contains LF l = false) (object_lines r last).
Proof.
  intros H. unfold plain_fields in H. rewrite List.Forall_forall in H.
  assert (Hn : contains LF (CreateTestFiles.name r) = false)
    by (apply plain_one_line, H; cbn; tauto).
  assert (Hd : contains LF (CreateTestFiles.department r) = false)
    by (apply plain_one_line, H; cbn; tauto).
  assert (Ht : contains LF (CreateTestFiles.join_date r) = false)
    by (apply plain_one_line, H; cbn; tauto).
  assert (Hi : forall z, contains LF (str_int z) = false)
    by (intros z; apply plain_one_line, str_int_chars).
  unfold object_lines, member_line, quoted.
  repeat constructor; rewrite ?contains_app, ?Hn, ?Hd, ?Ht, ?Hi;
    destruct last; destruct (CreateTestFiles.is_active r); reflexivity.
Qed.

Lemma array_one_line (rs : list CreateTestFiles.record) :
  Forall (fun r => plain_fields (create_fields r)) rs ->
  Forall (fun l => contains LF l = false) (array_lines rs).
Proof.
  induction 1 as [|r rs Hr Hrs IH]; [constructor|].
  destruct rs as [|r' rest]; [apply object_one_line, Hr|].
  rewrite array_lines_cons. apply Forall_app. split; [apply object_one_line, Hr | exact IH].
Qed.

(** The file of the JSON emitter has the layout of the spec. *)
Lemma create_json_layout (g : rng) :
  json_layout (json_text (CreateTestFiles.data g)) (CreateTestFiles.data g).
Proof.
  assert (Hall : Forall (fun r => plain_fields (create_fields r))
                        (CreateTestFiles.data g)).
  { pose proof (CsvFacts.create_rows_ok g) as H.
    apply List.Forall_forall. intros r Hr. rewrite List.Forall_forall in H.
    apply (H (create_fields r)). apply List.in_map, Hr. }
  assert (Hne : CreateTestFiles.data g <> []).
  { intros E. pose proof (DatasetFacts.create_length g) as L. rewrite E in L.
    discriminate L. }
  assert (Hsplit : split LF (json_text (CreateTestFiles.data g))
                   = ["["] ++ array_lines (CreateTestFiles.data g) ++ ["]"]).
  { rewrite (array_layout_text _ Hne Hall). apply split_join; [discriminate|].
    apply Forall_app. split; [repeat constructor|].
    apply Forall_app. split; [apply array_one_line, Hall | repeat constructor]. }
  split; [exact Hsplit|]. rewrite Hsplit. apply array_layout_text; assumption.
Qed.

End JsonLayoutFacts.

(* ================================================================== *)
(** * Runs on a console that refuses a line *)
(* ================================================================== *)

Module ConsoleFacts.
Import Py Spec IOFacts.

Lemma io_bind_returned {A B} (m : IO A) (k : A -> IO B) env w b w' :
  io_bind m k env w = (Return b, w') ->
  exists a w1, m env w = (Return a, w1) /\ k a env w1 = (Return b, w').
Proof.
  unfold io_bind. destruct (m env w) as [[a|e] w1]; [|discriminate].
  intros H. exists a, w1. split; [reflexivity | exact H].
Qed.

Lemma console_print_returned l env w (u : unit) w' :
  console_print l env w = (Return u, w') -> stdout w' = stdout w ++ [l].
Proof.
  unfold console_print, io_bind, attempt, print.
  destruct (env (Print l)); [discriminate|].
  intros H. injection H as _ <-. reflexivity.
Qed.

(** The handler of the first emitter cannot print its line: the
    exception leaves the emitter and ends the run. *)
Lemma refused_report_ends_the_run (g : rng) (env : faults) (w : world)
    (e e' : exception) :
  env (Makedirs "test-files") = None ->
  takes env (Text "Generating test files...") ->
  healthy env ("test-files", "sample.jsonl") ->
  env (Print (Generated "sample.jsonl")) = Some e ->
  env (Print (Failed "JSONL" e)) = Some e' ->
  exists w',
    CreateTestFiles.run_script g env w = (w', 1)
    /\ stdout w' = stdout w ++ [Text "Generating test files..."]
    /\ read_file w' ("test-files", "sample.jsonl")
       = Some (jsonl_text (CreateTestFiles.data g))
    /\ forall p, p <> ("test-files", "sample.jsonl") -> read_file w' p = read_file w p.
Proof.
  intros Hmk Htext Hh He He'.
  unfold CreateTestFiles.run_script, CreateTestFiles.run_on, CreateTestFiles.main_on.
  cbv zeta.
  destruct (makedirs_spec CreateTestFiles.out_dir env w)
    as (wm & E0 & Hdir & Hout0 & Hd0 & Hf0 & Ho0).
  rewrite <- (os_makedirs_made env w CreateTestFiles.out_dir Hmk) in E0.
  erewrite io_bind_return by exact E0.
  erewrite io_bind_return by (rewrite (console_print_taken _ _ _ Htext); reflexivity).
  set (w0 := mk_world (fs wm) (stdout wm ++ [Text "Generating test files..."])).
  assert (D0 : is_Some (fs w0 !! CreateTestFiles.out_dir)) by exact Hdir.
  pose proof (CreateRun.jsonl_block_reports console_print
                (fun P l => reports_console_print P l)
                (CreateTestFiles.data g) env w0) as [K _].
  destruct (CreateRun.jsonl_block_writes console_print (CreateTestFiles.data g)
              env w0 Hh D0) as (w2 & E & R2 & O2).
  rewrite (console_print_refused env w2 _ e He) in E.
  rewrite E in K. cbn [snd] in K.
  unfold io_bind at 1. unfold CreateTestFiles.emit_jsonl_on, try_except.
  rewrite E, (console_print_refused env w2 _ e' He').
  exists w2. split; [reflexivity|]. split.
  { rewrite O2. subst w0. cbn [stdout]. rewrite Hout0. reflexivity. }
  split; [exact R2|].
  intros p Hp. destruct K as (_ & F & _). rewrite (F p Hp).
  subst w0. unfold read_file. cbn [fs]. apply Hf0.
Qed.

End ConsoleFacts.

(* ================================================================== *)
(** * The properties of the two scripts *)
(* ================================================================== *)

Import Py Spec.

Lemma range_distinct (lo hi : Z) : List.NoDup (range lo hi).
Proof.
  unfold range. apply Finite.Injective_map_NoDup; [|apply List.seq_NoDup].
  intros a b H. lia.
Qed.

(** C1: in both scripts the ids of the 100 generated records are the
    integers 1..100, in this order, without gap or repetition. *)
Theorem ids_are_one_to_N (g : rng) :
  List.map CreateTestFiles.id (CreateTestFiles.data g) = range 1 101
  /\ Pd.col_id (GenerateTestFiles.data g) = range 1 101
  /\ List.map Pd.id (Pd.iterrows (GenerateTestFiles.data g)) = range 1 101
  /\ length (CreateTestFiles.data g) = 100%nat
  /\ length (Pd.iterrows (GenerateTestFiles.data g)) = 100%nat
  /\ range 1 101 = List.map Z.of_nat (seq 1 100)
  /\ List.NoDup (range 1 101).
Proof.
  split; [apply DatasetFacts.create_ids|].
  split; [destruct (DatasetFacts.generate_columns g) as (p1 & p2 & p3 & ->); reflexivity|].
  split; [apply DatasetFacts.generate_ids|].
  split; [apply DatasetFacts.create_length|].
  split.
  { rewrite <- (List.length_map Pd.id), DatasetFacts.generate_ids. reflexivity. }
  split; [vm_compute; reflexivity | apply range_distinct].
Qed.

(** In [create_test_files.py] the age and the salary of every record lie
    in the inclusive ranges, and every value of the ranges is the outcome
    of some draw. *)
Lemma create_age_salary_inclusive :
  (forall g, Forall (fun r => 18 <= CreateTestFiles.age r <= 80
                              /\ 30000 <= CreateTestFiles.salary r <= 150000)
                    (CreateTestFiles.data g))
  /\ (forall v, 18 <= v <= 80 ->
        (randint 18 80 (constant_rng (Z.to_nat (v - 18))) 0%nat).1 = v)
  /\ (forall v, 30000 <= v <= 150000 ->
        (randint 30000 150000 (constant_rng (Z.to_nat (v - 30000))) 0%nat).1 = v).
Proof.
  split; [apply DatasetFacts.create_ranges|].
  split; intros v Hv; apply BuilderFacts.randint_reaches; exact Hv.
Qed.

(** C2: in [generate_test_files.py] the upper ends are never drawn: every
    age is below 80 and every salary below 150000, whatever the draws,
    because [np.random.randint] excludes its [high] argument. *)
Theorem generate_age_salary_exclude_upper_end (g : rng) :
  Forall (fun r => 18 <= Pd.age r < 80 /\ 30000 <= Pd.salary r < 150000)
         (Pd.iterrows (GenerateTestFiles.data g)).
Proof. apply DatasetFacts.generate_ranges. Qed.

(** In [create_test_files.py] record 1 joins the day after the epoch. *)
Lemma create_first_join_date (g : rng) :
  exists r rest,
    CreateTestFiles.data g = r :: rest
    /\ CreateTestFiles.id r = 1 /\ CreateTestFiles.name r = "Person_1"
    /\ CreateTestFiles.join_date r = "2020-01-02T00:00:00".
Proof.
  pose proof (DatasetFacts.data_built g) as H.
  change (range 1 101) with (1 :: range 2 101) in H.
  destruct (CreateTestFiles.data g) as [|r rest]; [inversion H|].
  inversion H as [|? ? ? ? Hr Hrest]; subst.
  exists r, rest. split; [reflexivity|].
  destruct Hr as (H1 & H2 & _ & _ & _ & H6).
  split; [exact H1|]. split; [exact H2 | exact H6].
Qed.

Lemma first_id : range 1 101 = 1 :: range 2 101.
Proof. vm_compute. reflexivity. Qed.

Lemma first_name :
  List.map (fun i => "Person_" +:+ str_int i) (range 1 101)
  = "Person_1" :: List.map (fun i => "Person_" +:+ str_int i) (range 2 101).
Proof. vm_compute. reflexivity. Qed.

Lemma first_date :
  firstn 100 (Pd.date_range "2020-01-01" 100)
  = mk_datetime 2020 1 1 0 0 0
    :: List.map (fun k => add_days (mk_datetime 2020 1 1 0 0 0) (Z.of_nat k)) (seq 1 99).
Proof. vm_compute. reflexivity. Qed.

(** C3: in [generate_test_files.py] record 1 joins on the epoch itself,
    2020-01-01, and not on the day after it. *)
Theorem generate_first_join_date_is_epoch (g : rng) :
  exists r rest,
    Pd.iterrows (GenerateTestFiles.data g) = r :: rest
    /\ Pd.id r = 1 /\ Pd.name r = "Person_1"
    /\ Pd.join_date r = mk_datetime 2020 1 1 0 0 0
    /\ isoformat (Pd.join_date r) = "2020-01-01T00:00:00"
    /\ Pd.join_date r <> add_days (mk_datetime 2020 1 1 0 0 0) 1.
Proof.
  destruct (DatasetFacts.generate_rows g) as (Hi & Hn & _ & _ & _ & _ & Ht).
  cbv zeta in *.
  destruct (DatasetFacts.generate_columns g) as (p1 & p2 & p3 & Hdf).
  remember (Pd.iterrows (GenerateTestFiles.data g)) as rows eqn:Hrows.
  rewrite Hdf in Hi, Hn, Ht. cbn [Pd.col_id Pd.col_name Pd.col_join_date] in Hi, Hn, Ht.
  rewrite first_id in Hi. rewrite first_name in Hn. rewrite first_date in Ht.
  destruct rows as [|r rest]; [discriminate Hi|].
  cbn [List.map] in Hi, Hn, Ht. exists r, rest. split; [reflexivity|].
  injection Hi as Hi _. injection Hn as Hn _. injection Ht as Ht _.
  split; [exact Hi|]. split; [exact Hn|]. split; [exact Ht|].
  rewrite Ht. split; [vm_compute; reflexivity | vm_compute; discriminate].
Qed.

(** C4: when the modules of the columnar formats cannot be imported, the
    Parquet emitter prints the failure line, with the [ImportError] of
    pandas, where the Arrow and the Avro emitters print their skip
    lines. *)
Theorem parquet_reports_failure_not_skip (lib : Pd.codecs) (df : Pd.dataframe)
    (w : world) :
  stdout (GenerateTestFiles.emit_parquet lib df no_columnar_libraries w).2
  = stdout w
    ++ [Failed "Parquet"
          (ImportError
             "Unable to find a usable engine; tried using: 'pyarrow', 'fastparquet'.")]
  /\ stdout (GenerateTestFiles.emit_arrow lib df no_columnar_libraries w).2
     = stdout w ++ [Skipped arrow_skip]
  /\ stdout (GenerateTestFiles.emit_avro lib df no_columnar_libraries w).2
     = stdout w ++ [Skipped avro_skip].
Proof. repeat split. Qed.

(** C5, as amended: in a run of either script where nothing fails
    outside the [try] blocks (the directory can be made and the console
    takes the progress, listing and summary lines) and the console takes
    the line each handler prints, whatever fails inside a [try] block, an
    import, an operation on the file, a library call or the [print] of
    the success line, is caught by the handler of that emitter and
    reported by its status line; every emitter of the script runs in
    turn, the script reaches its end and the exit status is 0. *)
Theorem emitter_failures_never_abort (lib : Pd.codecs) (g : rng) (env : faults)
    (w : world) :
  frame_works env -> handlers_report env ->
  create_completes_on console_print os_makedirs g env w
  /\ (CreateTestFiles.run_script g env w).2 = 0
  /\ generate_completes_on console_print os_makedirs lib g env w
  /\ (GenerateTestFiles.run_script lib g env w).2 = 0.
Proof.
  intros Hf Hh.
  pose proof (CreateRun.script_completes g env w Hf Hh) as Hc.
  pose proof (GenerateRun.gen_script_completes lib g env w Hf Hh) as Hg.
  split; [exact Hc|]. split.
  { destruct Hc as (w0 & w1 & w2 & w3 & w4 & _ & _ & _ & _ & _ & Hrun).
    unfold CreateTestFiles.run_script. rewrite Hrun. reflexivity. }
  split; [exact Hg|].
  destruct Hg as (w0 & w1 & w2 & w3 & w4 & w5 & _ & _ & _ & _ & _ & _ & Hrun).
  unfold GenerateTestFiles.run_script. rewrite Hrun. reflexivity.
Qed.

Lemma emitter_failures_never_abort_witness :
  create_completes_on console_print os_makedirs sample_rng success_lines_refused
                      sample_world
  /\ (CreateTestFiles.run_script sample_rng success_lines_refused sample_world).2 = 0
  /\ generate_completes_on console_print os_makedirs sample_codecs sample_rng
                           success_lines_refused sample_world
  /\ (GenerateTestFiles.run_script sample_codecs sample_rng success_lines_refused
        sample_world).2 = 0.
Proof.
  apply (emitter_failures_never_abort sample_codecs sample_rng success_lines_refused
           sample_world).
  - split; [reflexivity|]. split; intros; reflexivity.
  - split; intros; reflexivity.
Defined.

(** C5, as stated, fails where the console has no character for the
    marks of the status lines: in [create_test_files.py] the first
    emitter writes its file, the [print] of its success line raises, the
    [print] of its handler raises in turn, and the run stops there: the
    other three emitters never run and the exit status is 1. *)
Lemma refused_status_line_aborts_the_run :
  (CreateTestFiles.run_script sample_rng console_without_marks sample_world).2 = 1
  /\ stdout (CreateTestFiles.run_script sample_rng console_without_marks
               sample_world).1
     = [Text "Generating test files..."]
  /\ (forall name, In name ["sample.ndjson"; "sample.csv"; "sample.json"] ->
        read_file (CreateTestFiles.run_script sample_rng console_without_marks
                     sample_world).1 ("test-files", name) = None)
  /\ ~ (create_completes_on console_print os_makedirs sample_rng
          console_without_marks sample_world
        /\ (CreateTestFiles.run_script sample_rng console_without_marks
              sample_world).2 = 0).
Proof.
  destruct (ConsoleFacts.refused_report_ends_the_run sample_rng console_without_marks
              sample_world
              (ValueError "'ascii' codec can't encode character")
              (ValueError "'ascii' codec can't encode character"))
    as (w' & Hrun & Hout & _ & Hother);
    [reflexivity | reflexivity | split; [reflexivity | intros k; reflexivity]
    | reflexivity | reflexivity |].
  rewrite Hrun. cbn [fst snd]. split; [reflexivity|]. split; [exact Hout|].
  split.
  - intros name Hin. rewrite Hother.
    + cbn [In] in Hin. destruct Hin as [<- | [<- | [<- | []]]]; reflexivity.
    + intros E. injection E as ->. cbn [In] in Hin.
      destruct Hin as [H | [H | [H | []]]]; discriminate H.
  - intros [_ H]. discriminate H.
Qed.

Lemma healthy_no_faults (p : path) : healthy no_faults p.
Proof. split; [reflexivity | intros k; reflexivity]. Defined.

(** C6: the [sample.csv] an emitter of either script writes without
    failure is the header line followed by one comma-joined line per
    record, in the order of the records, whose sixth field is [True] or
    [False] and whose seventh is the ISO-8601 text of the join date. *)
Theorem sample_csv_layout (lib : Pd.codecs) (g : rng) (env : faults) (w : world) :
  healthy env ("test-files", "sample.csv") ->
  env (Call "DataFrame.to_csv") = None ->
  (exists text,
      read_file (CreateTestFiles.run g env w).1 ("test-files", "sample.csv")
      = Some text
      /\ csv_layout text (List.map create_fields (CreateTestFiles.data g)))
  /\ (exists text,
         read_file (GenerateTestFiles.run lib g env w).1 ("test-files", "sample.csv")
         = Some text
         /\ csv_layout text
              (List.map generate_fields (Pd.iterrows (GenerateTestFiles.data g)))).
Proof.
  intros Hh Hcall. split.
  - exists (csv_text (CreateTestFiles.data g)).
    split; [apply CreateRun.run_csv, Hh | apply CsvFacts.create_csv_layout].
  - exists (Pd.to_csv_text (GenerateTestFiles.data g)).
    split; [apply GenerateRun.gen_run_csv; assumption | apply CsvFacts.generate_csv_layout].
Qed.

Lemma sample_csv_layout_witness :
  (exists text,
      read_file (CreateTestFiles.run sample_rng no_faults sample_world).1
                ("test-files", "sample.csv") = Some text
      /\ csv_layout text (List.map create_fields (CreateTestFiles.data sample_rng)))
  /\ (exists text,
         read_file (GenerateTestFiles.run sample_codecs sample_rng no_faults
                                          sample_world).1
                   ("test-files", "sample.csv") = Some text
         /\ csv_layout text
              (List.map generate_fields
                        (Pd.iterrows (GenerateTestFiles.data sample_rng)))).
Proof.
  apply (sample_csv_layout sample_codecs sample_rng no_faults sample_world).
  - apply healthy_no_faults.
  - reflexivity.
Defined.

Lemma create_json_distinct (data : list CreateTestFiles.record) :
  distinct_keys (JList (List.map CreateTestFiles.to_json data)).
Proof.
  cbn [distinct_keys]. induction data as [|r data IH]; [exact I|].
  cbn [List.map]. split; [|exact IH].
  cbn. split; [|tauto].
  repeat (constructor; [cbn; intuition discriminate|]). constructor.
Qed.

(** C7: the [sample.json] the emitter writes without failure is one JSON
    array of the 100 record objects, encoded with an indent of 2: the
    brackets of the array stand alone on the first and the last line, each
    object follows with its braces two spaces in and one member per line
    four spaces in, with a comma after every item but the last; decoding
    the file and encoding the result with the same indent gives the same
    text. *)
Theorem sample_json_round_trip (g : rng) (env : faults) (w : world) :
  healthy env ("test-files", "sample.json") ->
  env (Call "json.dump") = None ->
  exists text items,
    read_file (CreateTestFiles.run g env w).1 ("test-files", "sample.json") = Some text
    /\ items = List.map CreateTestFiles.to_json (CreateTestFiles.data g)
    /\ length items = 100%nat
    /\ text = dumps_indent 2 (JList items)
    /\ json_layout text (CreateTestFiles.data g)
    /\ loads text = Some (JList items)
    /\ (forall v, loads text = Some v -> dumps_indent 2 v = text).
Proof.
  intros Hh Hcall.
  exists (json_text (CreateTestFiles.data g)),
         (List.map CreateTestFiles.to_json (CreateTestFiles.data g)).
  assert (Hloads : loads (json_text (CreateTestFiles.data g))
                   = Some (JList (List.map CreateTestFiles.to_json
                                           (CreateTestFiles.data g))))
    by (apply JsonFacts.loads_encode, create_json_distinct).
  split; [apply CreateRun.run_json; assumption|]. split; [reflexivity|].
  split; [rewrite List.length_map; apply DatasetFacts.create_length|].
  split; [reflexivity|]. split; [apply JsonLayoutFacts.create_json_layout|].
  split; [exact Hloads|].
  intros v Hv. rewrite Hloads in Hv. injection Hv as <-. reflexivity.
Qed.

Lemma sample_json_round_trip_witness :
  exists text items,
    read_file (CreateTestFiles.run sample_rng no_faults sample_world).1
              ("test-files", "sample.json") = Some text
    /\ items = List.map CreateTestFiles.to_json (CreateTestFiles.data sample_rng)
    /\ length items = 100%nat
    /\ text = dumps_indent 2 (JList items)
    /\ json_layout text (CreateTestFiles.data sample_rng)
    /\ loads text = Some (JList items)
    /\ (forall v, loads text = Some v -> dumps_indent 2 v = text).
Proof.
  apply (sample_json_round_trip sample_rng no_faults sample_world).
  - apply healthy_no_faults.
  - reflexivity.
Defined.

(** C8: a run of either script leaves the directory [test-files] in
    existence, whether it existed before or not, and leaves every file
    other than the [sample] files it writes, in this directory or
    another, with the bytes it had. *)
Theorem unrelated_files_untouched (lib : Pd.codecs) (g : rng) (env : faults)
    (w : world) (p : path) :
  ~ In p create_outputs -> ~ In p generate_outputs ->
  is_Some (fs (CreateTestFiles.run g env w).1 !! "test-files")
  /\ read_file (CreateTestFiles.run g env w).1 p = read_file w p
  /\ is_Some (fs (GenerateTestFiles.run lib g env w).1 !! "test-files")
  /\ read_file (GenerateTestFiles.run lib g env w).1 p = read_file w p.
Proof.
  intros Hc Hg.
  destruct (CreateRun.run_keeps g env w) as (D1 & F1 & _).
  destruct (GenerateRun.gen_run_keeps lib g env w) as (D2 & F2 & _).
  split; [exact D1|]. split; [apply F1, Hc|]. split; [exact D2 | apply F2, Hg].
Qed.

Lemma unrelated_files_untouched_witness :
  is_Some (fs (CreateTestFiles.run sample_rng no_faults sample_world).1 !! "test-files")
  /\ read_file (CreateTestFiles.run sample_rng no_faults sample_world).1
               ("test-files", "notes.txt")
     = read_file sample_world ("test-files", "notes.txt")
  /\ is_Some (fs (GenerateTestFiles.run sample_codecs sample_rng no_faults
                                        sample_world).1 !! "test-files")
  /\ read_file (GenerateTestFiles.run sample_codecs sample_rng no_faults
                                      sample_world).1 ("test-files", "notes.txt")
     = read_file sample_world ("test-files", "notes.txt").
Proof.
  apply (unrelated_files_untouched sample_codecs sample_rng no_faults sample_world
           ("test-files", "notes.txt")).
  - cbn. intros [H|[H|[H|[H|[]]]]]; discriminate H.
  - cbn. intros [H|[H|[H|[H|[H|[]]]]]]; discriminate H.
Defined.

(** The directory is made when it is absent. *)
Lemma output_directory_created (lib : Pd.codecs) (g : rng) (env : faults) :
  is_Some (fs (CreateTestFiles.run g env (mk_world ∅ [])).1 !! "test-files")
  /\ is_Some (fs (GenerateTestFiles.run lib g env (mk_world ∅ [])).1 !! "test-files").
Proof.
  destruct (CreateRun.run_keeps g env (mk_world ∅ [])) as (D1 & _).
  destruct (GenerateRun.gen_run_keeps lib g env (mk_world ∅ [])) as (D2 & _).
  split; [exact D1 | exact D2].
Qed.

(** C9: in [create_test_files.py], when neither emitter meets a failure,
    [sample.ndjson] holds the same bytes as [sample.jsonl]: the
    [json.dumps] of each record followed by a line feed, in the order of
    the records. *)
Theorem ndjson_equals_jsonl (g : rng) (env : faults) (w : world) :
  healthy env ("test-files", "sample.jsonl") ->
  healthy env ("test-files", "sample.ndjson") ->
  let w' := (CreateTestFiles.run g env w).1 in
  read_file w' ("test-files", "sample.ndjson")
  = read_file w' ("test-files", "sample.jsonl")
  /\ read_file w' ("test-files", "sample.jsonl")
     = Some (String.concat EmptyString
               (List.map (fun r => dumps (CreateTestFiles.to_json r) +:+ nl)
                         (CreateTestFiles.data g))).
Proof.
  intros H1 H2. cbv zeta.
  pose proof (CreateRun.run_jsonl g env w H1) as R1.
  pose proof (CreateRun.run_ndjson g env w H2) as R2.
  unfold CreateTestFiles.out_dir in *. rewrite R1, R2. split; reflexivity.
Qed.

Lemma ndjson_equals_jsonl_witness :
  let w' := (CreateTestFiles.run sample_rng no_faults sample_world).1 in
  read_file w' ("test-files", "sample.ndjson")
  = read_file w' ("test-files", "sample.jsonl")
  /\ read_file w' ("test-files", "sample.jsonl")
     = Some (String.concat EmptyString
               (List.map (fun r => dumps (CreateTestFiles.to_json r) +:+ nl)
                         (CreateTestFiles.data sample_rng))).
Proof.
  apply (ndjson_equals_jsonl sample_rng no_faults sample_world);
    apply healthy_no_faults.
Defined.

(** C10: in [create_test_files.py] no field of a record holds a comma or
    a line feed, whatever the draws; so the [sample.csv] the emitter
    writes without failure has 101 lines of 7 comma-separated fields
    each. *)
Theorem csv_fields_hold_no_separator (g : rng) (env : faults) (w : world) :
  healthy env ("test-files", "sample.csv") ->
  Forall (fun r => length (create_fields r) = 7%nat
                   /\ Forall (fun f => contains "," f = false
                                       /\ contains LF f = false)
                             (create_fields r))
         (CreateTestFiles.data g)
  /\ exists text,
       read_file (CreateTestFiles.run g env w).1 ("test-files", "sample.csv")
       = Some text
       /\ length (lines text) = 101%nat
       /\ Forall (fun l => length (split "," l) = 7%nat) (lines text).
Proof.
  intros Hh. split.
  - pose proof (CsvFacts.create_rows_ok g) as H.
    apply Forall_map in H. eapply Forall_impl; [exact H|]. cbv beta.
    intros r (Hlen & Hp & _). split; [exact Hlen|].
    eapply Forall_impl; [exact Hp|]. cbv beta. intros f Hf.
    destruct (TextFacts.field_chars_plain f Hf) as (H1 & H2 & _).
    split; assumption.
  - exists (csv_text (CreateTestFiles.data g)).
    split; [apply CreateRun.run_csv, Hh|].
    destruct (CsvFacts.create_csv_layout g) as (Hlines & _ & Hrows).
    rewrite Hlines. split.
    + cbn [length]. rewrite !List.length_map, DatasetFacts.create_length.
      reflexivity.
    + constructor; [reflexivity|]. apply Forall_map.
      eapply Forall_impl; [exact Hrows|]. cbv beta.
      intros fields (Hlen & Hsplit & _). rewrite Hsplit. exact Hlen.
Qed.

Lemma csv_fields_hold_no_separator_witness :
  Forall (fun r => length (create_fields r) = 7%nat
                   /\ Forall (fun f => contains "," f = false
                                       /\ contains LF f = false)
                             (create_fields r))
         (CreateTestFiles.data sample_rng)
  /\ exists text,
       read_file (CreateTestFiles.run sample_rng no_faults sample_world).1
                 ("test-files", "sample.csv") = Some text
       /\ length (lines text) = 101%nat
       /\ Forall (fun l => length (split "," l) = 7%nat) (lines text).
Proof.
  apply (csv_fields_hold_no_separator sample_rng no_faults sample_world).
  apply healthy_no_faults.
Defined.

(* ================================================================== *)
(** * Further properties of the two scripts *)
(* ================================================================== *)

(** X1: in both scripts the department of every record is one of
    Engineering, Marketing, Sales and HR, whatever the draws. *)
Theorem departments_come_from_the_list (g : rng) :
  Forall (fun r => In (CreateTestFiles.department r)
                      ["Engineering"; "Marketing"; "Sales"; "HR"])
         (CreateTestFiles.data g)
  /\ Forall (fun r => In (Pd.department r)
                         ["Engineering"; "Marketing"; "Sales"; "HR"])
            (Pd.iterrows (GenerateTestFiles.data g)).
Proof.
  split; [|apply TableFacts.generate_departments].
  pose proof (DatasetFacts.data_built g) as H.
  induction H as [|i r ixs rs Hir _ IH]; constructor; [|exact IH].
  apply Hir.
Qed.

(** X2: in both scripts the name of every record is [Person_] followed
    by the decimal text of its id. *)
Theorem names_follow_ids (g : rng) :
  Forall (fun r => CreateTestFiles.name r
                   = "Person_" +:+ str_int (CreateTestFiles.id r))
         (CreateTestFiles.data g)
  /\ Forall (fun r => Pd.name r = "Person_" +:+ str_int (Pd.id r))
            (Pd.iterrows (GenerateTestFiles.data g)).
Proof.
  split; [|apply TableFacts.generate_names].
  pose proof (DatasetFacts.data_built g) as H.
  induction H as [|i r ixs rs Hir _ IH]; constructor; [|exact IH].
  destruct Hir as (Hid & Hname & _). rewrite Hid. exact Hname.
Qed.

(** X11: record by record the two scripts agree on the id and disagree
    by one day on the join date: the join date of a record of
    [create_test_files.py] is the ISO text of the day after the join
    date of the row of [generate_test_files.py] with the same position,
    whatever the draws of either run. *)
Theorem join_dates_differ_by_one_day (g g' : rng) :
  Forall2 (fun r row =>
             CreateTestFiles.id r = Pd.id row
             /\ CreateTestFiles.join_date r
                = isoformat (add_days (Pd.join_date row) 1))
          (CreateTestFiles.data g) (Pd.iterrows (GenerateTestFiles.data g')).
Proof.
  pose proof (TableFacts.create_id_dates g) as H1.
  pose proof (TableFacts.generate_id_dates g') as H2.
  rewrite <- H2 in H1. apply TableFacts.map_eq_Forall2 in H1.
  eapply Forall2_impl; [exact H1|]. cbv beta.
  intros r row H. injection H as Hid Hdate. split; assumption.
Qed.

(** X15: the seven columns of the frame of [generate_test_files.py] have
    100 entries each, so [pd.DataFrame] accepts them; the slice [[:100]]
    of the dates drops nothing, and [iterrows] yields 100 rows whose
    fields are the entries of the columns. *)
Theorem frame_is_rectangular (g : rng) (env : faults) (w : world) :
  let df := GenerateTestFiles.data g in
  Pd.DataFrame df env w = (Return df, w)
  /\ length (Pd.col_id df) = 100%nat /\ length (Pd.col_name df) = 100%nat
  /\ length (Pd.col_age df) = 100%nat /\ length (Pd.col_salary df) = 100%nat
  /\ length (Pd.col_department df) = 100%nat
  /\ length (Pd.col_is_active df) = 100%nat
  /\ length (Pd.col_join_date df) = 100%nat
  /\ Pd.col_join_date df = Pd.date_range "2020-01-01" 100
  /\ length (Pd.iterrows df) = 100%nat
  /\ List.map Pd.id (Pd.iterrows df) = Pd.col_id df
  /\ List.map Pd.name (Pd.iterrows df) = Pd.col_name df
  /\ List.map Pd.age (Pd.iterrows df) = Pd.col_age df
  /\ List.map Pd.salary (Pd.iterrows df) = Pd.col_salary df
  /\ List.map Pd.department (Pd.iterrows df) = Pd.col_department df
  /\ List.map Pd.is_active (Pd.iterrows df) = Pd.col_is_active df
  /\ List.map Pd.join_date (Pd.iterrows df) = Pd.col_join_date df.
Proof.
  cbv zeta.
  destruct (TableFacts.generate_column_lengths g) as (L1 & L2 & L3 & L4 & L5 & L6 & L7).
  destruct (DatasetFacts.generate_rows g) as (R1 & R2 & R3 & R4 & R5 & R6 & R7).
  cbv zeta in *.
  split; [apply GenerateRun.DataFrame_data|].
  split; [exact L1|]. split; [exact L2|].
  split; [exact L3|]. split; [exact L4|]. split; [exact L5|]. split; [exact L6|].
  split; [exact L7|].
  split.
  { destruct (DatasetFacts.generate_columns g) as (p1 & p2 & p3 & ->).
    cbn [Pd.col_join_date]. apply firstn_all2. apply Nat.leb_le.
    vm_compute. reflexivity. }
  split; [rewrite <- (List.length_map Pd.id), R1; exact L1|].
  repeat split; assumption.
Qed.

(** X3: the [sample.jsonl] that [create_test_files.py] writes without
    failure has one line per record, in the order of the records; the
    line of a record is its [json.dumps], it decodes to the record, and
    the keys of the decoded object are the columns of the CSV header, in
    the same order. *)
Theorem jsonl_lines_decode_to_records (g : rng) (env : faults) (w : world) :
  healthy env ("test-files", "sample.jsonl") ->
  exists text,
    read_file (CreateTestFiles.run g env w).1 ("test-files", "sample.jsonl")
    = Some text
    /\ lines text
       = List.map (fun r => dumps (CreateTestFiles.to_json r)) (CreateTestFiles.data g)
    /\ length (lines text) = 100%nat
    /\ Forall2 (fun line r => loads line = Some (CreateTestFiles.to_json r)
                              /\ keys (CreateTestFiles.to_json r) = split "," header)
               (lines text) (CreateTestFiles.data g).
Proof.
  intros Hh. exists (jsonl_text (CreateTestFiles.data g)).
  split; [apply CreateRun.run_jsonl, Hh|].
  unfold jsonl_text. rewrite JsonLinesFacts.lines_of_dumps.
  split; [reflexivity|].
  split; [rewrite List.length_map; apply DatasetFacts.create_length|].
  apply JsonLinesFacts.Forall2_map_self. intros r. split; [|reflexivity].
  apply (JsonFacts.loads_encode None), JsonLinesFacts.record_distinct.
Qed.

Lemma jsonl_lines_decode_to_records_witness :
  exists text,
    read_file (CreateTestFiles.run sample_rng no_faults sample_world).1
              ("test-files", "sample.jsonl") = Some text
    /\ lines text
       = List.map (fun r => dumps (CreateTestFiles.to_json r))
                  (CreateTestFiles.data sample_rng)
    /\ length (lines text) = 100%nat
    /\ Forall2 (fun line r => loads line = Some (CreateTestFiles.to_json r)
                              /\ keys (CreateTestFiles.to_json r) = split "," header)
               (lines text) (CreateTestFiles.data sample_rng).
Proof.
  apply (jsonl_lines_decode_to_records sample_rng no_faults sample_world).
  apply healthy_no_faults.
Defined.

(** X4: the [sample.jsonl] that [generate_test_files.py] writes without
    failure has one line per row of the frame, in the order of the rows;
    the line of a row decodes to the [dict] of the row, whose keys are
    the columns and whose [join_date] is the [isoformat()] text of the
    timestamp. *)
Theorem rows_jsonl_lines_decode_to_rows (lib : Pd.codecs) (g : rng) (env : faults)
    (w : world) :
  healthy env ("test-files", "sample.jsonl") ->
  exists text,
    read_file (GenerateTestFiles.run lib g env w).1 ("test-files", "sample.jsonl")
    = Some text
    /\ length (lines text) = 100%nat
    /\ Forall2 (fun line row =>
                  exists members,
                    loads line = Some (JDict members)
                    /\ List.map fst members = Pd.columns
                    /\ List.map snd members
                       = [JInt (Pd.id row); JStr (Pd.name row); JInt (Pd.age row);
                          JInt (Pd.salary row); JStr (Pd.department row);
                          JBool (Pd.is_active row);
                          JStr (isoformat (Pd.join_date row))])
               (lines text) (Pd.iterrows (GenerateTestFiles.data g)).
Proof.
  intros Hh. exists (rows_jsonl_text (GenerateTestFiles.data g)).
  split; [apply JsonLinesFacts.gen_run_jsonl, Hh|].
  unfold rows_jsonl_text. rewrite JsonLinesFacts.lines_of_dumps.
  split.
  { rewrite List.length_map, <- (List.length_map Pd.id), DatasetFacts.generate_ids.
    reflexivity. }
  apply JsonLinesFacts.Forall2_map_self. intros row.
  eexists. split.
  - apply (JsonFacts.loads_encode None (GenerateTestFiles.row_dict row)),
          JsonLinesFacts.row_distinct.
  - split; reflexivity.
Qed.

Lemma rows_jsonl_lines_decode_to_rows_witness :
  exists text,
    read_file (GenerateTestFiles.run sample_codecs sample_rng no_faults sample_world).1
              ("test-files", "sample.jsonl") = Some text
    /\ length (lines text) = 100%nat
    /\ Forall2 (fun line row =>
                  exists members,
                    loads line = Some (JDict members)
                    /\ List.map fst members = Pd.columns
                    /\ List.map snd members
                       = [JInt (Pd.id row); JStr (Pd.name row); JInt (Pd.age row);
                          JInt (Pd.salary row); JStr (Pd.department row);
                          JBool (Pd.is_active row);
                          JStr (isoformat (Pd.join_date row))])
               (lines text) (Pd.iterrows (GenerateTestFiles.data sample_rng)).
Proof.
  apply (rows_jsonl_lines_decode_to_rows sample_codecs sample_rng no_faults
           sample_world).
  apply healthy_no_faults.
Defined.

(** X14: when [create_test_files.py] writes [sample.json] and
    [sample.jsonl] without failure, the two files hold the same objects:
    [sample.json] decodes to the list of the values the lines of
    [sample.jsonl] decode to, in the same order. *)
Theorem json_and_jsonl_hold_the_same_objects (g : rng) (env : faults) (w : world) :
  healthy env ("test-files", "sample.json") ->
  env (Call "json.dump") = None ->
  healthy env ("test-files", "sample.jsonl") ->
  exists array_text lines_text items,
    read_file (CreateTestFiles.run g env w).1 ("test-files", "sample.json")
    = Some array_text
    /\ read_file (CreateTestFiles.run g env w).1 ("test-files", "sample.jsonl")
       = Some lines_text
    /\ loads array_text = Some (JList items)
    /\ Forall2 (fun line item => loads line = Some item) (lines lines_text) items.
Proof.
  intros Hj Hcall Hl.
  exists (json_text (CreateTestFiles.data g)), (jsonl_text (CreateTestFiles.data g)),
         (List.map CreateTestFiles.to_json (CreateTestFiles.data g)).
  split; [apply CreateRun.run_json; assumption|].
  split; [apply CreateRun.run_jsonl, Hl|].
  split; [apply JsonFacts.loads_encode, JsonLinesFacts.records_distinct|].
  unfold jsonl_text. rewrite JsonLinesFacts.lines_of_dumps.
  induction (CreateTestFiles.data g) as [|r data IH]; cbn [List.map]; constructor;
    [|exact IH].
  apply (JsonFacts.loads_encode None), JsonLinesFacts.record_distinct.
Qed.

Lemma json_and_jsonl_hold_the_same_objects_witness :
  exists array_text lines_text items,
    read_file (CreateTestFiles.run sample_rng no_faults sample_world).1
              ("test-files", "sample.json") = Some array_text
    /\ read_file (CreateTestFiles.run sample_rng no_faults sample_world).1
                 ("test-files", "sample.jsonl") = Some lines_text
    /\ loads array_text = Some (JList items)
    /\ Forall2 (fun line item => loads line = Some item) (lines lines_text) items.
Proof.
  apply (json_and_jsonl_hold_the_same_objects sample_rng no_faults sample_world).
  - apply healthy_no_faults.
  - reflexivity.
  - apply healthy_no_faults.
Defined.

(** X7: in [create_test_files.py], when opening the file of an emitter
    fails with an exception [e], the file is left as it was before the
    run and the line of the failure, with the name of the format and
    [e], is printed. *)
Theorem failed_open_leaves_the_file (g : rng) (env : faults) (w : world)
    (name what : string) (e : exception) :
  In (name, what) [("sample.jsonl", "JSONL"); ("sample.ndjson", "NDJSON");
                   ("sample.csv", "CSV"); ("sample.json", "JSON")] ->
  env (Open ("test-files", name)) = Some e ->
  let w' := (CreateTestFiles.run g env w).1 in
  read_file w' ("test-files", name) = read_file w ("test-files", name)
  /\ In (Failed what e) (stdout w').
Proof.
  intros Hin He.
  destruct (CreateRun.run_completes g env w)
    as (w0 & w1 & w2 & w3 & w4 & (D0 & R0 & _) & S1 & S2 & S3 & S4 & Hrun).
  cbv zeta. rewrite Hrun. cbn [fst].
  rewrite (CreateRun.read_file_fs w4) by reflexivity.
  pose proof (FailureFacts.step_dir _ _ _ _ _ _ _ _ _ S1 D0) as D1.
  pose proof (FailureFacts.step_dir _ _ _ _ _ _ _ _ _ S2 D1) as D2.
  pose proof (FailureFacts.step_dir _ _ _ _ _ _ _ _ _ S3 D2) as D3.
  cbn [In] in Hin.
  destruct Hin as [Hn | [Hn | [Hn | [Hn | []]]]]; injection Hn as <- <-.
  - destruct (FailureFacts.step_open_fails _ _ _ ("test-files", "sample.jsonl") _
                _ _ _ e S1 D0 He) as [F O].
    split.
    + rewrite (FailureFacts.step_read _ _ _ _ _ _ _ _ _ S4) by discriminate.
      rewrite (FailureFacts.step_read _ _ _ _ _ _ _ _ _ S3) by discriminate.
      rewrite (FailureFacts.step_read _ _ _ _ _ _ _ _ _ S2) by discriminate.
      rewrite (FailureFacts.read_same_fs _ _ _ F). apply R0.
    + apply FailureFacts.create_closing_in.
      eapply FailureFacts.step_stdout; [exact S4|].
      eapply FailureFacts.step_stdout; [exact S3|].
      eapply FailureFacts.step_stdout; [exact S2|].
      rewrite O. apply FailureFacts.last_line_in.
  - destruct (FailureFacts.step_open_fails _ _ _ ("test-files", "sample.ndjson") _
                _ _ _ e S2 D1 He) as [F O].
    split.
    + rewrite (FailureFacts.step_read _ _ _ _ _ _ _ _ _ S4) by discriminate.
      rewrite (FailureFacts.step_read _ _ _ _ _ _ _ _ _ S3) by discriminate.
      rewrite (FailureFacts.read_same_fs _ _ _ F).
      rewrite (FailureFacts.step_read _ _ _ _ _ _ _ _ _ S1) by discriminate.
      apply R0.
    + apply FailureFacts.create_closing_in.
      eapply FailureFacts.step_stdout; [exact S4|].
      eapply FailureFacts.step_stdout; [exact S3|].
      rewrite O. apply FailureFacts.last_line_in.
  - destruct (FailureFacts.step_open_fails _ _ _ ("test-files", "sample.csv") _
                _ _ _ e S3 D2 He) as [F O].
    split.
    + rewrite (FailureFacts.step_read _ _ _ _ _ _ _ _ _ S4) by discriminate.
      rewrite (FailureFacts.read_same_fs _ _ _ F).
      rewrite (FailureFacts.step_read _ _ _ _ _ _ _ _ _ S2) by discriminate.
      rewrite (FailureFacts.step_read _ _ _ _ _ _ _ _ _ S1) by discriminate.
      apply R0.
    + apply FailureFacts.create_closing_in.
      eapply FailureFacts.step_stdout; [exact S4|].
      rewrite O. apply FailureFacts.last_line_in.
  - destruct (FailureFacts.step_open_fails _ _ _ ("test-files", "sample.json") _
                _ _ _ e S4 D3 He) as [F O].
    split.
    + rewrite (FailureFacts.read_same_fs _ _ _ F).
      rewrite (FailureFacts.step_read _ _ _ _ _ _ _ _ _ S3) by discriminate.
      rewrite (FailureFacts.step_read _ _ _ _ _ _ _ _ _ S2) by discriminate.
      rewrite (FailureFacts.step_read _ _ _ _ _ _ _ _ _ S1) by discriminate.
      apply R0.
    + apply FailureFacts.create_closing_in.
      rewrite O. apply FailureFacts.last_line_in.
Qed.

Lemma failed_open_leaves_the_file_witness :
  let w' := (CreateTestFiles.run sample_rng (open_fails (OSError "Permission denied"))
               stale_world).1 in
  read_file w' ("test-files", "sample.csv") = read_file stale_world ("test-files", "sample.csv")
  /\ In (Failed "CSV" (OSError "Permission denied")) (stdout w').
Proof.
  apply (failed_open_leaves_the_file sample_rng
           (open_fails (OSError "Permission denied")) stale_world
           "sample.csv" "CSV" (OSError "Permission denied")).
  - cbn [In]. right. right. left. reflexivity.
  - reflexivity.
Defined.

(** X8: in [create_test_files.py], when [sample.csv] can be opened and
    the first write to it fails with [e], the run ends with an empty
    [sample.csv], whatever the file held before, and prints the failure
    line of the CSV emitter. *)
Theorem failed_first_write_truncates_csv (g : rng) (env : faults) (w : world)
    (e : exception) :
  env (Open ("test-files", "sample.csv")) = None ->
  env (Write ("test-files", "sample.csv") 0%nat) = Some e ->
  let w' := (CreateTestFiles.run g env w).1 in
  read_file w' ("test-files", "sample.csv") = Some EmptyString
  /\ In (Failed "CSV" e) (stdout w').
Proof.
  intros Ho Hw.
  destruct (CreateRun.run_completes g env w)
    as (w0 & w1 & w2 & w3 & w4 & (D0 & R0 & _) & S1 & S2 & S3 & S4 & Hrun).
  cbv zeta. rewrite Hrun. cbn [fst].
  rewrite (CreateRun.read_file_fs w4) by reflexivity.
  pose proof (FailureFacts.step_dir _ _ _ _ _ _ _ _ _ S1 D0) as D1.
  pose proof (FailureFacts.step_dir _ _ _ _ _ _ _ _ _ S2 D1) as D2.
  destruct (FailureFacts.csv_first_write_fails _ _ _ _ e S3 D2 Ho Hw) as [R O].
  split.
  - rewrite (FailureFacts.step_read _ _ _ _ _ _ _ _ _ S4) by discriminate. exact R.
  - apply FailureFacts.create_closing_in.
    eapply FailureFacts.step_stdout; [exact S4|].
    rewrite O. apply FailureFacts.last_line_in.
Qed.

Lemma failed_first_write_truncates_csv_witness :
  let w' := (CreateTestFiles.run sample_rng
               (first_write_fails (OSError "No space left on device")) stale_world).1 in
  read_file w' ("test-files", "sample.csv") = Some EmptyString
  /\ In (Failed "CSV" (OSError "No space left on device")) (stdout w').
Proof.
  apply (failed_first_write_truncates_csv sample_rng
           (first_write_fails (OSError "No space left on device")) stale_world
           (OSError "No space left on device")).
  - reflexivity.
  - reflexivity.
Defined.

(** X9: [generate_test_files.py] where [pyarrow], [fastparquet] and
    [fastavro] cannot be imported: the Parquet, Arrow and Avro files are
    left as they were, the JSON Lines and CSV files are written in full,
    the Arrow and Avro emitters print their skip lines, the Parquet
    emitter prints a failure line with an [ImportError], and the exit
    status is 0. *)
Theorem missing_libraries_leave_text_formats (lib : Pd.codecs) (g : rng)
    (env : faults) (w : world) (m1 m2 m3 : string) :
  env (Import "pyarrow") = Some (ImportError m1) ->
  env (Import "fastparquet") = Some (ImportError m2) ->
  env (Import "fastavro") = Some (ImportError m3) ->
  healthy env ("test-files", "sample.jsonl") ->
  healthy env ("test-files", "sample.csv") ->
  env (Call "DataFrame.to_csv") = None ->
  let w' := (GenerateTestFiles.run lib g env w).1 in
  (forall name, In name ["sample.parquet"; "sample.arrow"; "sample.avro"] ->
     read_file w' ("test-files", name) = read_file w ("test-files", name))
  /\ read_file w' ("test-files", "sample.jsonl")
     = Some (rows_jsonl_text (GenerateTestFiles.data g))
  /\ read_file w' ("test-files", "sample.csv")
     = Some (Pd.to_csv_text (GenerateTestFiles.data g))
  /\ (exists message, In (Failed "Parquet" (ImportError message)) (stdout w'))
  /\ In (Skipped arrow_skip) (stdout w')
  /\ In (Skipped avro_skip) (stdout w')
  /\ (GenerateTestFiles.run lib g env w).2 = 0.
Proof.
  intros H1 H2 H3 Hj Hc Hcall. cbv zeta.
  split; [|split; [apply JsonLinesFacts.gen_run_jsonl, Hj
                  |split; [apply GenerateRun.gen_run_csv; assumption|]]].
  - destruct (GenerateRun.gen_run_completes lib g env w)
      as (w0 & w1 & w2 & w3 & w4 & w5 & (D0 & R0 & _) & S1 & S2 & S3 & S4 & S5 & Hrun).
    rewrite Hrun. cbn [fst]. intros name Hin.
    rewrite (CreateRun.read_file_fs w5) by reflexivity.
    destruct S1 as (E1 & K1 & _). destruct S4 as (E4 & K4 & _).
    destruct S5 as (E5 & K5 & _).
    rewrite (FailureFacts.parquet_without_engine lib _ env w0 m1 m2 H1 H2) in E1.
    rewrite (FailureFacts.arrow_without_pyarrow lib _ env w3 m1 H1) in E4.
    rewrite (FailureFacts.avro_without_fastavro lib _ env w4 m3 H3) in E5.
    injection E1 as E1. injection E4 as E4. injection E5 as E5.
    assert (F1 : fs w1 = fs w0) by (rewrite <- E1; reflexivity).
    assert (F4 : fs w4 = fs w3) by (rewrite <- E4; reflexivity).
    assert (F5 : fs w5 = fs w4) by (rewrite <- E5; reflexivity).
    rewrite (FailureFacts.read_same_fs _ _ _ F5), (FailureFacts.read_same_fs _ _ _ F4).
    cbn [In] in Hin.
    destruct Hin as [<- | [<- | [<- | []]]];
      rewrite (FailureFacts.step_read _ _ _ _ _ _ _ _ _ S3) by discriminate;
      rewrite (FailureFacts.step_read _ _ _ _ _ _ _ _ _ S2) by discriminate;
      rewrite (FailureFacts.read_same_fs _ _ _ F1); apply R0.
  - destruct (GenerateRun.gen_run_completes lib g env w)
      as (w0 & w1 & w2 & w3 & w4 & w5 & (D0 & R0 & _) & S1 & S2 & S3 & S4 & S5 & Hrun).
    rewrite Hrun. cbn [fst snd].
    pose proof S1 as (E1 & _ & _). pose proof S4 as (E4 & _ & _).
    pose proof S5 as (E5 & _ & _).
    rewrite (FailureFacts.parquet_without_engine lib _ env w0 m1 m2 H1 H2) in E1.
    rewrite (FailureFacts.arrow_without_pyarrow lib _ env w3 m1 H1) in E4.
    rewrite (FailureFacts.avro_without_fastavro lib _ env w4 m3 H3) in E5.
    injection E1 as E1. injection E4 as E4. injection E5 as E5.
    split; [eexists|split; [|split; [|reflexivity]]];
      apply FailureFacts.generate_closing_in.
    + eapply FailureFacts.step_stdout; [exact S5|].
      eapply FailureFacts.step_stdout; [exact S4|].
      eapply FailureFacts.step_stdout; [exact S3|].
      eapply FailureFacts.step_stdout; [exact S2|].
      rewrite <- E1. cbn [stdout]. apply FailureFacts.last_line_in.
    + eapply FailureFacts.step_stdout; [exact S5|].
      rewrite <- E4. cbn [stdout]. apply FailureFacts.last_line_in.
    + rewrite <- E5. cbn [stdout]. apply FailureFacts.last_line_in.
Qed.

Lemma missing_libraries_leave_text_formats_witness :
  let w' := (GenerateTestFiles.run sample_codecs sample_rng no_columnar_libraries
               stale_world).1 in
  (forall name, In name ["sample.parquet"; "sample.arrow"; "sample.avro"] ->
     read_file w' ("test-files", name) = read_file stale_world ("test-files", name))
  /\ read_file w' ("test-files", "sample.jsonl")
     = Some (rows_jsonl_text (GenerateTestFiles.data sample_rng))
  /\ read_file w' ("test-files", "sample.csv")
     = Some (Pd.to_csv_text (GenerateTestFiles.data sample_rng))
  /\ (exists message, In (Failed "Parquet" (ImportError message)) (stdout w'))
  /\ In (Skipped arrow_skip) (stdout w')
  /\ In (Skipped avro_skip) (stdout w')
  /\ (GenerateTestFiles.run sample_codecs sample_rng no_columnar_libraries
        stale_world).2 = 0.
Proof.
  apply (missing_libraries_leave_text_formats sample_codecs sample_rng
           no_columnar_libraries stale_world
           "No module named 'pyarrow'" "No module named 'fastparquet'"
           "No module named 'fastavro'").
  - reflexivity.
  - reflexivity.
  - reflexivity.
  - split; [reflexivity | intros k; reflexivity].
  - split; [reflexivity | intros k; reflexivity].
  - reflexivity.
Defined.

(** X10: in [generate_test_files.py] the Avro emitter opens
    [sample.avro] before it hands the file to [fastavro.writer], so a
    writer that fails loses what the file held before: when the module
    is there and the file opens, a writer that refuses the schema leaves
    the file empty, and a writer that refuses a record leaves the header
    of the container in it; in both cases the line of the handler for
    the exception is printed. *)
Theorem failed_avro_writer_loses_the_old_file (lib : Pd.codecs) (g : rng)
    (env : faults) (w : world) (e : exception) :
  env (Import "fastavro") = None ->
  env (Open ("test-files", "sample.avro")) = None ->
  let w' := (GenerateTestFiles.run lib g env w).1 in
  (env (Call "fastavro.parse_schema") = Some e ->
   read_file w' ("test-files", "sample.avro") = Some EmptyString
   /\ In (skipped_or_failed avro_skip "Avro" e) (stdout w'))
  /\ (env (Call "fastavro.parse_schema") = None ->
      env (Write ("test-files", "sample.avro") 0%nat) = None ->
      env (Call "fastavro.write_record") = Some e ->
      read_file w' ("test-files", "sample.avro") = Some (Pd.avro_header lib)
      /\ In (skipped_or_failed avro_skip "Avro" e) (stdout w')).
Proof.
  intros Hi Ho.
  destruct (GenerateRun.gen_run_completes lib g env w)
    as (w0 & w1 & w2 & w3 & w4 & w5 & (D0 & R0 & _) & S1 & S2 & S3 & S4 & S5 & Hrun).
  cbv zeta. rewrite Hrun. cbn [fst].
  rewrite (CreateRun.read_file_fs w5) by reflexivity.
  pose proof (FailureFacts.step_dir _ _ _ _ _ _ _ _ _ S1 D0) as D1.
  pose proof (FailureFacts.step_dir _ _ _ _ _ _ _ _ _ S2 D1) as D2.
  pose proof (FailureFacts.step_dir _ _ _ _ _ _ _ _ _ S3 D2) as D3.
  pose proof (FailureFacts.step_dir _ _ _ _ _ _ _ _ _ S4 D3) as D4.
  destruct S5 as (E5 & _ & _).
  split.
  - intros Hs.
    destruct (FailureFacts.avro_schema_refused lib (GenerateTestFiles.data g) env w4 e
                D4 Hi Ho Hs) as (w5' & E & R & O).
    rewrite E in E5. injection E5 as <-.
    split; [exact R|].
    apply FailureFacts.generate_closing_in. rewrite O. apply FailureFacts.last_line_in.
  - intros Hs Hw Hc.
    destruct (FailureFacts.avro_record_refused lib (GenerateTestFiles.data g) env w4 e
                D4 Hi Ho Hs Hw Hc) as (w5' & E & R & O).
    rewrite E in E5. injection E5 as <-.
    split; [exact R|].
    apply FailureFacts.generate_closing_in. rewrite O. apply FailureFacts.last_line_in.
Qed.

Lemma failed_avro_writer_loses_the_old_file_witness :
  let env := call_fails "fastavro.write_record"
               (ValueError "an integer is required") in
  let w' := (GenerateTestFiles.run sample_codecs sample_rng env stale_world).1 in
  read_file stale_world ("test-files", "sample.avro") = Some "old"
  /\ read_file w' ("test-files", "sample.avro") = Some "Obj"
  /\ In (skipped_or_failed avro_skip "Avro" (ValueError "an integer is required"))
        (stdout w').
Proof.
  split; [reflexivity|].
  apply (failed_avro_writer_loses_the_old_file sample_codecs sample_rng
           (call_fails "fastavro.write_record" (ValueError "an integer is required"))
           stale_world (ValueError "an integer is required")).
  - reflexivity.
  - reflexivity.
  - reflexivity.
  - reflexivity.
  - reflexivity.
Defined.

(** X12: every run of [create_test_files.py] that reaches its end, the
    exit status 0, has printed the line "Total records per file: 100",
    whatever failed while the files were written, also when none of the
    files could be opened: the count is that of the record list, not of
    what reached the files. *)
Theorem completed_run_prints_total_100 (g : rng) (env : faults) (w : world) :
  (CreateTestFiles.run_script g env w).2 = 0 ->
  In (Text (nl +:+ "Total records per file: 100"))
     (stdout (CreateTestFiles.run_script g env w).1).
Proof.
  unfold CreateTestFiles.run_script, CreateTestFiles.run_on.
  destruct (CreateTestFiles.main_on console_print os_makedirs g env w)
    as [[[]|e] w'] eqn:E; cbn [fst snd exit_status]; [intros _ | discriminate].
  unfold CreateTestFiles.main_on in E. cbv zeta in E.
  do 9 (apply ConsoleFacts.io_bind_returned in E; destruct E as (? & ? & _ & E)).
  apply ConsoleFacts.io_bind_returned in E. destruct E as (u1 & w1 & E1 & E).
  apply ConsoleFacts.io_bind_returned in E. destruct E as (u2 & w2 & E2 & E).
  apply ConsoleFacts.console_print_returned in E1, E2, E.
  rewrite DatasetFacts.create_length in E1.
  rewrite E, E2, E1.
  apply in_or_app. left. apply in_or_app. left. apply in_or_app. right.
  left. reflexivity.
Qed.

Lemma completed_run_prints_total_100_witness :
  (CreateTestFiles.run_script sample_rng (open_fails (OSError "Permission denied"))
     stale_world).2 = 0
  /\ In (Text (nl +:+ "Total records per file: 100"))
        (stdout (CreateTestFiles.run_script sample_rng
                   (open_fails (OSError "Permission denied")) stale_world).1).
Proof.
  assert (H : (CreateTestFiles.run_script sample_rng
                 (open_fails (OSError "Permission denied")) stale_world).2 = 0).
  { destruct (CreateRun.script_completes sample_rng
                (open_fails (OSError "Permission denied")) stale_world)
      as (w0 & w1 & w2 & w3 & w4 & _ & _ & _ & _ & _ & Hrun).
    - split; [reflexivity|]. split; intros; reflexivity.
    - split; intros; reflexivity.
    - unfold CreateTestFiles.run_script. rewrite Hrun. reflexivity. }
  split; [exact H|].
  apply (completed_run_prints_total_100 sample_rng
           (open_fails (OSError "Permission denied")) stale_world H).
Defined.

(** X16: the files of [create_test_files.py] are overwritten, not
    appended to: when no operation on them fails, what the four files
    hold after a run depends on the draws only, not on what the
    directory held before, so a run after an earlier run leaves what it
    would have left in any other directory. *)
Theorem outputs_do_not_depend_on_the_directory (g : rng) (env : faults)
    (w1 w2 : world) :
  (forall p, In p create_outputs -> healthy env p) ->
  env (Call "json.dump") = None ->
  forall p, In p create_outputs ->
    is_Some (read_file (CreateTestFiles.run g env w1).1 p)
    /\ read_file (CreateTestFiles.run g env w1).1 p
       = read_file (CreateTestFiles.run g env w2).1 p.
Proof.
  intros Hh Hc p Hp. pose proof (Hh p Hp) as H. cbn [In create_outputs] in Hp.
  destruct Hp as [<- | [<- | [<- | [<- | []]]]].
  - rewrite !(CreateRun.run_jsonl g env _ H). split; [eexists|]; reflexivity.
  - rewrite !(CreateRun.run_ndjson g env _ H). split; [eexists|]; reflexivity.
  - rewrite !(CreateRun.run_csv g env _ H). split; [eexists|]; reflexivity.
  - rewrite !(CreateRun.run_json g env _ H Hc). split; [eexists|]; reflexivity.
Qed.

Lemma outputs_do_not_depend_on_the_directory_witness :
  is_Some (read_file (CreateTestFiles.run sample_rng no_faults stale_world).1
                     ("test-files", "sample.csv"))
  /\ read_file (CreateTestFiles.run sample_rng no_faults stale_world).1
               ("test-files", "sample.csv")
     = read_file (CreateTestFiles.run sample_rng no_faults sample_world).1
                 ("test-files", "sample.csv").
Proof.
  apply (outputs_do_not_depend_on_the_directory sample_rng no_faults
           stale_world sample_world).
  - intros p _. apply healthy_no_faults.
  - reflexivity.
  - cbn [In create_outputs]. right. right. left. reflexivity.
Defined.



(** X13: the [sample.csv] files of the two scripts, each written
    without failure, have the same header line and 100 data lines each,
    and no data line of one file is a data line of the other, whatever
    the draws: the last field is a date and time in one and a date in
    the other. *)
Theorem csv_files_share_the_header_only (lib : Pd.codecs) (g g' : rng)
    (env env' : faults) (w w' : world) :
  healthy env ("test-files", "sample.csv") ->
  healthy env' ("test-files", "sample.csv") ->
  env' (Call "DataFrame.to_csv") = None ->
  exists text text' rows rows',
    read_file (CreateTestFiles.run g env w).1 ("test-files", "sample.csv") = Some text
    /\ read_file (GenerateTestFiles.run lib g' env' w').1 ("test-files", "sample.csv")
       = Some text'
    /\ lines text = header :: rows /\ lines text' = header :: rows'
    /\ length rows = 100%nat /\ length rows' = 100%nat
    /\ forall l, In l rows -> ~ In l rows'.
Proof.
  intros Hh Hh' Hc.
  destruct (CsvFacts.create_csv_layout g) as (L & _ & F).
  destruct (CsvFacts.generate_csv_layout g') as (L' & _ & F').
  exists (csv_text (CreateTestFiles.data g)),
         (Pd.to_csv_text (GenerateTestFiles.data g')),
         (List.map (join ",") (List.map create_fields (CreateTestFiles.data g))),
         (List.map (join ",")
                   (List.map generate_fields (Pd.iterrows (GenerateTestFiles.data g')))).
  split; [apply CreateRun.run_csv, Hh|].
  split; [apply GenerateRun.gen_run_csv; assumption|].
  split; [exact L|]. split; [exact L'|].
  split; [rewrite !List.length_map; apply DatasetFacts.create_length|].
  split.
  { rewrite !List.length_map, <- (List.length_map Pd.id), DatasetFacts.generate_ids.
    reflexivity. }
  intros l Hl Hl'.
  apply List.in_map_iff in Hl. destruct Hl as (fields & <- & Hf).
  apply List.in_map_iff in Hl'. destruct Hl' as (fields' & E & Hf').
  rewrite List.Forall_forall in F, F'.
  destruct (F _ Hf) as (_ & S & _). destruct (F' _ Hf') as (_ & S' & _).
  assert (Heq : fields' = fields) by (rewrite <- S, <- S', E; reflexivity).
  subst fields'.
  apply List.in_map_iff in Hf. destruct Hf as (r & <- & Hr).
  apply List.in_map_iff in Hf'. destruct Hf' as (row & E' & Hrow).
  pose proof (ListingFacts.create_date_field g r Hr) as T.
  pose proof (ListingFacts.generate_date_field g' row Hrow) as T'.
  unfold generate_fields, create_fields in E'. injection E' as _ _ _ _ _ _ Hd.
  rewrite Hd in T'. congruence.
Qed.

Lemma csv_files_share_the_header_only_witness :
  exists text text' rows rows',
    read_file (CreateTestFiles.run sample_rng no_faults sample_world).1
              ("test-files", "sample.csv") = Some text
    /\ read_file (GenerateTestFiles.run sample_codecs sample_rng no_faults
                    sample_world).1 ("test-files", "sample.csv") = Some text'
    /\ lines text = header :: rows /\ lines text' = header :: rows'
    /\ length rows = 100%nat /\ length rows' = 100%nat
    /\ forall l, In l rows -> ~ In l rows'.
Proof.
  apply (csv_files_share_the_header_only sample_codecs sample_rng sample_rng
           no_faults no_faults sample_world sample_world).
  - apply healthy_no_faults.
  - apply healthy_no_faults.
  - reflexivity.
Defined.
